(** * Aria infrastructure mapping: reconciliation engine

    A shallow embedding of [aria_mapping.py]: the API client
    ([AriaClient]), region resolution and the four process commands
    (flavors, images, tags, storage) together with the dispatch in [main];
    further the two steps of the login, the client's lookup of fabric
    images and the listings of images, flavor profiles and storage
    profiles.

    Conventions of the embedding.
    - Backend documents are JSON values; a Python [dict] is an
      insertion-ordered association list.
    - Names and identifiers read with [d.get(k)] are [option string]
      ([None] is Python's [None]); tags are pairs of strings.  Documents
      whose names, identifiers or tags have another JSON type are outside
      the modelled domain.
    - The HTTP session is abstract: a backend state [B], a read
      [session_get] and a write [session_send] that may change the state.
    - Console output is a list of structured lines; banners, progress
      headers and the [verbose] debug prints carry no decision and are
      left out. *)

From Stdlib Require Import String Ascii List ZArith Bool Lia DecimalString.
From Stdlib Require Import Sorted Permutation.
Import ListNotations.
Open Scope string_scope.

Set Implicit Arguments.

(** ** JSON documents *)

#[local] Unset Elimination Schemes.
Inductive json : Type :=
| JNull
| JBool (b : bool)
| JNum (n : Z)
| JStr (s : string)
| JArr (xs : list json)
| JObj (kvs : list (string * json)).
#[local] Set Elimination Schemes.

(** Python truthiness of a JSON value. *)
Definition truthy (j : json) : bool :=
  match j with
  | JNull => false
  | JBool b => b
  | JNum n => negb (n =? 0)%Z
  | JStr s => negb (s =? "")%string
  | JArr xs => match xs with [] => false | _ => true end
  | JObj kvs => match kvs with [] => false | _ => true end
  end.

(** Truthiness of an optional string ([None] and the empty string are falsy). *)
Definition truthy_str (o : option string) : bool :=
  match o with
  | Some s => negb (s =? "")%string
  | None => false
  end.

Definition opt_json (o : option string) : json :=
  match o with Some s => JStr s | None => JNull end.

(** [str(x)] of an optional string inside an f-string. *)
Definition py_str (o : option string) : string :=
  match o with Some s => s | None => "None" end.

(** An optional string used as the key of a JSON object. *)
Definition json_key (o : option string) : string :=
  match o with Some s => s | None => "null" end.

(** ** Python dictionaries: insertion-ordered association lists *)

Module PyDict.
Section Dict.
Variables K V : Type.
Variable eqb : K -> K -> bool.

Definition t := list (K * V).

Fixpoint get (k : K) (d : t) : option V :=
  match d with
  | [] => None
  | (k', v) :: d' => if eqb k k' then Some v else get k d'
  end.

(** [d[k] = v]: an existing key keeps its position, a new key goes last. *)
Fixpoint set (k : K) (v : V) (d : t) : t :=
  match d with
  | [] => [(k, v)]
  | (k', v') :: d' =>
      if eqb k k' then (k, v) :: d' else (k', v') :: set k v d'
  end.

Definition mem (k : K) (d : t) : bool :=
  match get k d with Some _ => true | None => false end.

(** [{key(x): val(x) for x in xs}] and the loops that fill a dict. *)
Definition of_list (A : Type) (key : A -> K) (val : A -> V) (xs : list A) : t :=
  fold_left (fun d x => set (key x) (val x) d) xs [].

Definition keys (d : t) : list K := map fst d.
Definition values (d : t) : list V := map snd d.
End Dict.
End PyDict.

Definition ostr_eqb (a b : option string) : bool :=
  match a, b with
  | Some x, Some y => (x =? y)%string
  | None, None => true
  | _, _ => false
  end.

Definition pair_eqb (a b : string * string) : bool :=
  ((fst a =? fst b)%string && (snd a =? snd b)%string)%bool.

(** Accessors on JSON objects. *)

Definition py_get (k : string) (d : json) : option json :=
  match d with
  | JObj kvs => PyDict.get String.eqb k kvs
  | _ => None
  end.

(** [k in d] *)
Definition py_in (k : string) (d : json) : bool :=
  match py_get k d with Some _ => true | None => false end.

(** [d.get(k)] read as a name or identifier. *)
Definition get_str (k : string) (d : json) : option string :=
  match py_get k d with
  | Some (JStr s) => Some s
  | _ => None
  end.

(** [d.get(k, dflt)] read as a string. *)
Definition get_str_or (k dflt : string) (d : json) : string :=
  match py_get k d with
  | Some (JStr s) => s
  | _ => dflt
  end.

(** [d.get(k, dflt)] for any value. *)
Definition get_or (k : string) (dflt : json) (d : json) : json :=
  match py_get k d with
  | Some v => v
  | None => dflt
  end.

(** [d[k] = v] on a JSON object. *)
Definition py_set (k : string) (v : json) (d : json) : json :=
  match d with
  | JObj kvs => JObj (PyDict.set String.eqb k v kvs)
  | _ => d
  end.

(** ** Strings *)

Fixpoint contains (sep s : string) : bool :=
  (String.prefix sep s ||
   match s with
   | EmptyString => false
   | String _ s' => contains sep s'
   end)%bool.

Fixpoint drop (n : nat) (s : string) : string :=
  match n, s with
  | O, _ => s
  | S n', String _ s' => drop n' s'
  | S _, EmptyString => EmptyString
  end.

(** [s.split(sep)[-1]]: the text after the last separator found by a
    left-to-right scan for non-overlapping occurrences.  [skip] counts
    the characters of a separator still to be stepped over. *)
Fixpoint last_part (sep s : string) (skip : nat) (acc : string) : string :=
  match s with
  | EmptyString => acc
  | String _ s' =>
      match skip with
      | S k => last_part sep s' k acc
      | O =>
          if String.prefix sep s
          then last_part sep s' (Nat.pred (String.length sep))
                 (drop (String.length sep) s)
          else last_part sep s' O acc
      end
  end.

Definition split_last (sep s : string) : string := last_part sep s O s.

(** [str(n)] of a count. *)
Definition nat_str (n : nat) : string :=
  NilZero.string_of_uint (Nat.to_uint n).

(** [', '.join(xs)] *)
Fixpoint join (sep : string) (xs : list string) : string :=
  match xs with
  | [] => ""
  | [x] => x
  | x :: xs' => x ++ sep ++ join sep xs'
  end.

(** ** Tags *)

Record tag : Type := Tag { key : string; value : string }.

Definition tag_json (t : tag) : json :=
  JObj [("key", JStr (key t)); ("value", JStr (value t))].

Definition tag_of_json (j : json) : option tag :=
  match get_str "key" j, get_str "value" j with
  | Some k, Some v => Some (Tag k v)
  | _, _ => None
  end.

Fixpoint filter_map (A C : Type) (f : A -> option C) (xs : list A) : list C :=
  match xs with
  | [] => []
  | x :: xs' =>
      match f x with
      | Some y => y :: filter_map f xs'
      | None => filter_map f xs'
      end
  end.

(** [doc.get('tags', [])] *)
Definition get_tags (d : json) : list tag :=
  match py_get "tags" d with
  | Some (JArr xs) => filter_map tag_of_json xs
  | _ => []
  end.

(** [f"{t['key']}:{t['value']}"] *)
Definition tag_fmt (t : tag) : string := key t ++ ":" ++ value t.

(** [', '.join([f"{t['key']}:{t['value']}" for t in tags])] *)
Definition tag_str (tags : list tag) : string := join ", " (map tag_fmt tags).

(** [[{"key": t['key'], "value": t['value']} for t in tags]] *)
Definition tags_payload (tags : list tag) : json := JArr (map tag_json tags).

(** [set(f"{t['key']}:{t['value']}" for t in tags)]: a Python set of strings,
    kept as the list of rendered tags and compared by mutual inclusion. *)
Definition tag_set (tags : list tag) : list string := map tag_fmt tags.

Definition str_mem (s : string) (xs : list string) : bool :=
  existsb (String.eqb s) xs.

Definition subset (xs ys : list string) : bool :=
  forallb (fun s => str_mem s ys) xs.

(** [existing_tag_set == desired_tag_set] *)
Definition set_eqb (xs ys : list string) : bool :=
  (subset xs ys && subset ys xs)%bool.

Definition tags_match (existing desired : list tag) : bool :=
  set_eqb (tag_set existing) (tag_set desired).

(** ** The desired specification (the YAML configuration) *)

(** An entry of [regions]. *)
Record region_cfg : Type := { rc_name : option string }.

(** An entry of [flavors]. *)
Record flavor : Type := { f_name : string; cpuCount : Z; memoryMB : Z }.

(** An entry of [images]; [templates] maps a region name to a template name. *)
Record image_cfg : Type :=
  { ic_name : option string; templates : list (string * string) }.

(** An entry of [tags.cloud_zones], [tags.network_profiles] or [tags.compute]. *)
Record tagged_cfg : Type := { tc_name : option string; tc_tags : list tag }.

(** An entry of [tags.storage_profiles]. *)
Record storage_cfg : Type :=
  { sp_name : option string;
    sp_tags : list tag;
    sp_create : bool;
    sp_compute : option string;
    sp_region : option string;
    sp_description : option string;
    sp_provisioning_type : option string;
    sp_default : bool }.

(** The [tags] section; a key that is missing is [None]. *)
Record tags_cfg : Type :=
  { cloud_zones : option (list tagged_cfg);
    network_profiles : option (list tagged_cfg);
    compute : option (list tagged_cfg);
    storage_profiles : option (list storage_cfg) }.

Record config : Type :=
  { regions : list region_cfg;
    flavors : list flavor;
    flavor_profile_name : option string;
    flavor_profile_description : option string;
    images : list image_cfg;
    image_profile_name : option string;
    image_profile_description : option string;
    tags : tags_cfg }.

(** [cfg.get(k, [])] on a list-valued key. *)
Definition list_or_nil (A : Type) (o : option (list A)) : list A :=
  match o with Some xs => xs | None => [] end.

Definition str_or (dflt : string) (o : option string) : string :=
  match o with Some s => s | None => dflt end.

(** [not tags_config]: the section is missing or an empty mapping. *)
Definition tags_cfg_empty (t : tags_cfg) : bool :=
  match cloud_zones t, network_profiles t, compute t, storage_profiles t with
  | None, None, None, None => true
  | _, _, _, _ => false
  end.

(** ** HTTP *)

Inductive verb : Type := POST | PUT | PATCH | DELETE.

Record request : Type :=
  { rq_verb : verb; rq_url : string; rq_payload : json }.

Record response : Type :=
  { status_code : Z; body : json; text : string }.

(** The client: its host and the session.  [session_get] reads the
    backend state; [session_send] may change it and answers with a
    response or with the text of the exception it raised. *)
Record AriaClient (B : Type) : Type :=
  { host : string;
    session_get : B -> string -> response;
    session_send : B -> request -> B * (response + string);
    (** [authenticate()]: the token exchange, kept abstract. *)
    login : B -> B * bool }.

Definition API_VERSION : string := "2021-07-15".

(** ** Console lines *)

Inductive kind : Type := CloudZone | NetworkProfile | Compute.

(** An entry of an image batch: [{'name', 'template', 'id'}]. *)
Record image_entry : Type :=
  { ie_name : option string; ie_template : string; ie_id : string }.

(** The warnings of image planning: a region that did not resolve, a
    template that is not in the region. *)
Inductive warning : Type :=
| RegionMissing (region_name : string) (mapping_name : option string)
| TemplateMissing (template_name region_name : string)
    (mapping_name : option string).

Inductive line : Type :=
| RegionNotFound (name : option string)
| NoValidRegions
| NoFlavorsDefined
| NoImagesDefined
| NoTagsDefined
| NoStorageDefined
| WouldCreateFlavorProfile (region_name : option string) (profile_name : string)
    (region_id : option string) (fs : list flavor)
| CreatedProfile (profile_name : string) (region_name : option string)
| FailedRegion (region_name : option string) (result : json)
| ProfilesCreated (n : nat)
| ProfilesFailed (n : nat)
| VerifyTotal (n : nat)
| VerifyProfile (name region : string) (n : nat)
| ImageWarning (w : warning)
| RegionResolved (region_name : option string) (imgs : list image_entry)
| WouldCreateImageProfile (region_name : option string) (profile_name : string)
    (imgs : list image_entry)
| SkippingRegion (region_name : option string)
| NotFound (k : kind) (name : option string)
| NoChange (name : option string)
| WouldUpdate (name : option string) (tags_text : string)
| Updated (name : option string) (tags_text : string)
| Failed (name : option string) (result : json)
| ComputeNotFound (compute_name : option string) (name : option string)
| FailedDetails (name : option string)
| StorageNoChange (name : option string) (compute_info : string)
| WouldUpdateStorage (name : option string) (changes : string)
| UpdatedStorage (name : option string) (changes : string)
| CannotCreate (name : option string) (region_name : option string)
| WouldCreateStorage (name : option string) (region_name : option string)
    (compute_info : string) (tags_text : string)
| CreatedStorage (name : option string) (region_name : option string)
    (compute_info : string) (tags_text : string)
| FailedCreate (name : option string) (result : json)
| NotFoundNoCreate (name : option string)
| DryRunComplete
| TagSummary (updated failed skipped : nat)
| StorageSummary (created updated failed skipped : nat).

Inductive event : Type :=
| Print (l : line)
| Send (r : request).

(** What a command hands back to [main]: a return code, or an uncaught
    exception. *)
Inductive outcome : Type :=
| Return (code : Z)
| Raise.

(** ** The client and the commands, over an abstract backend *)

Section Client.
Variable B : Type.
Variable client : AriaClient B.

(** The world a command runs in: the backend and what the run has
    printed and sent so far, oldest first. *)
Record world : Type := World { backend : B; log : list event }.

(** Commands: state passing; [None] is a pagination loop that ran out
    of fuel. *)
Definition M (A : Type) : Type := world -> option (A * world).

Definition ret (A : Type) (a : A) : M A := fun w => Some (a, w).

Definition bind (A C : Type) (m : M A) (f : A -> M C) : M C :=
  fun w => match m w with
           | Some (a, w') => f a w'
           | None => None
           end.

Notation "x <- m ;; k" := (bind m (fun x => k))
  (at level 61, m at next level, right associativity).
Notation "m ;;; k" := (bind m (fun _ => k))
  (at level 61, right associativity).

Definition print (l : line) : M unit :=
  fun w => Some (tt, World (backend w) (log w ++ [Print l])%list).

(** [self.session.get(url)] *)
Definition http_get (url : string) : M response :=
  fun w => Some (session_get client (backend w) url, w).

(** [self.session.post/put/patch(url, json=payload)] *)
Definition http_send (r : request) : M (response + string) :=
  fun w =>
    let '(b', res) := session_send client (backend w) r in
    Some (res, World b' (log w ++ [Send r])%list).

(** [for x in xs: body], threading an accumulator. *)
Fixpoint for_each (A S : Type) (body : A -> S -> M S) (xs : list A) (s : S)
  : M S :=
  match xs with
  | [] => ret s
  | x :: xs' => s' <- body x s ;; for_each body xs' s'
  end.

(** *** AriaClient *)

Definition _api_url (path : string) : string :=
  let separator := if contains "?" path then "&" else "?" in
  "https://" ++ host client ++ path ++ separator
    ++ "apiVersion=" ++ API_VERSION.

(** [data.get('content', [])] *)
Definition content (data : json) : list json :=
  match py_get "content" data with
  | Some (JArr xs) => xs
  | _ => []
  end.

(** [data.get('_links', {}).get('next', {}).get('href')] *)
Definition next_href (data : json) : option string :=
  get_str "href" (get_or "next" (JObj []) (get_or "_links" (JObj []) data)).

(** The [while url:] loop of [_get_paginated]; [url] is [None] once no
    next page is announced. *)
Fixpoint paginate (fuel : nat) (b : B) (url : option string)
  (results : list json) : option (list json) :=
  match fuel with
  | O => None
  | S fuel' =>
      if truthy_str url then
        let resp := session_get client b (py_str url) in
        if negb (status_code resp =? 200)%Z then Some results
        else
          let data := body resp in
          let results' := (results ++ content data)%list in
          let next_link := next_href data in
          if truthy_str next_link
          then paginate fuel' b
                 (Some ("https://" ++ host client ++ py_str next_link))
                 results'
          else paginate fuel' b None results'
      else Some results
  end.

Definition _get_paginated (fuel : nat) (path : string) : M (list json) :=
  fun w =>
    match paginate fuel (backend w) (Some (_api_url path)) [] with
    | Some results => Some (results, w)
    | None => None
    end.

Definition get_regions (fuel : nat) : M (list json) :=
  _get_paginated fuel "/iaas/api/regions".

Definition get_flavor_profiles (fuel : nat) : M (list json) :=
  _get_paginated fuel "/iaas/api/flavor-profiles".

Definition get_image_profiles (fuel : nat) : M (list json) :=
  _get_paginated fuel "/iaas/api/image-profiles".

Definition get_fabric_images (fuel : nat) : M (list json) :=
  _get_paginated fuel "/iaas/api/fabric-images".

(** The listings that read one response: [content] on status 200,
    the empty list otherwise. *)
Definition get_first_page (path : string) : M (list json) :=
  resp <- http_get (_api_url path) ;;
  if (status_code resp =? 200)%Z then ret (content (body resp)) else ret [].

Definition get_cloud_zones : M (list json) :=
  get_first_page "/iaas/api/zones".

Definition get_network_profiles : M (list json) :=
  get_first_page "/iaas/api/network-profiles".

Definition get_storage_profiles : M (list json) :=
  get_first_page "/iaas/api/storage-profiles".

Definition get_fabric_computes : M (list json) :=
  get_first_page "/iaas/api/fabric-computes".

(** [{}] when the read fails. *)
Definition get_storage_profile_detail (profile_id : option string) : M json :=
  resp <- http_get (_api_url ("/iaas/api/storage-profiles/" ++ py_str profile_id)) ;;
  if (status_code resp =? 200)%Z then ret (body resp) else ret (JObj []).

(** [resp.json().get('message', resp.text[:200])], falling back to the
    text when the body is not an object. *)
Definition error_of (resp : response) : json :=
  get_or "message" (JStr (substring 0 200 (text resp))) (body resp).

(** The answer of a create call: success on 200 and 201. *)
Definition created_result (res : response + string) : bool * json :=
  match res with
  | inl resp =>
      if ((status_code resp =? 200) || (status_code resp =? 201))%Z
      then (true, body resp)
      else (false, error_of resp)
  | inr e => (false, JStr e)
  end.

(** The answer of an update call: success on 200 (with the body) and
    204 (with [{}]). *)
Definition updated_result (res : response + string) : bool * json :=
  match res with
  | inl resp =>
      if ((status_code resp =? 200) || (status_code resp =? 204))%Z
      then (true, if (status_code resp =? 200)%Z then body resp else JObj [])
      else (false, error_of resp)
  | inr e => (false, JStr e)
  end.

Definition flavor_mapping (fs : list flavor) : list (string * json) :=
  fold_left
    (fun d f =>
       PyDict.set String.eqb (f_name f)
         (JObj [("cpuCount", JNum (cpuCount f));
                ("memoryInMB", JNum (memoryMB f))]) d)
    fs [].

Definition flavor_profile_request (profile_name description : string)
  (region_id : option string) (fs : list flavor) : request :=
  {| rq_verb := POST;
     rq_url := _api_url "/iaas/api/flavor-profiles";
     rq_payload :=
       JObj [("name", JStr profile_name);
             ("description", JStr description);
             ("regionId", opt_json region_id);
             ("flavorMapping", JObj (flavor_mapping fs))] |}.

Definition create_flavor_profile (profile_name description : string)
  (region_id : option string) (fs : list flavor) : M (bool * json) :=
  res <- http_send (flavor_profile_request profile_name description region_id fs) ;;
  ret (created_result res).

Definition image_mapping (imgs : list image_entry) : list (string * json) :=
  fold_left
    (fun d img =>
       PyDict.set String.eqb (json_key (ie_name img))
         (JObj [("id", JStr (ie_id img))]) d)
    imgs [].

Definition image_profile_request (profile_name description : string)
  (region_id : option string) (imgs : list image_entry) : request :=
  {| rq_verb := POST;
     rq_url := _api_url "/iaas/api/image-profiles";
     rq_payload :=
       JObj [("name", JStr profile_name);
             ("description", JStr description);
             ("regionId", opt_json region_id);
             ("imageMapping", JObj (image_mapping imgs))] |}.

Definition create_image_profile (profile_name description : string)
  (region_id : option string) (imgs : list image_entry) : M (bool * json) :=
  res <- http_send (image_profile_request profile_name description region_id imgs) ;;
  ret (created_result res).

Definition storage_create_request (name : option string) (description : string)
  (region_id : option string) (tags : list tag) (provisioning_type : string)
  (default_item : bool) (compute_host_id : option string) : request :=
  let payload :=
    JObj [("name", opt_json name);
          ("description", JStr description);
          ("defaultItem", JBool default_item);
          ("supportsEncryption", JBool false);
          ("tags", tags_payload tags);
          ("diskProperties",
            JObj [("provisioningType", JStr provisioning_type)]);
          ("regionId", opt_json region_id)] in
  {| rq_verb := POST;
     rq_url := _api_url "/iaas/api/storage-profiles";
     rq_payload :=
       if truthy_str compute_host_id
       then py_set "computeHostId" (opt_json compute_host_id) payload
       else payload |}.

Definition create_storage_profile (name : option string) (description : string)
  (region_id : option string) (tags : list tag) (provisioning_type : string)
  (default_item : bool) (compute_host_id : option string) : M (bool * json) :=
  res <- http_send (storage_create_request name description region_id tags
                      provisioning_type default_item compute_host_id) ;;
  ret (created_result res).

(** Cloud zones require [name] in the payload. *)
Definition cloud_zone_request (zone_id : option string) (tags : list tag)
  (existing_zone : json) : request :=
  {| rq_verb := PATCH;
     rq_url := _api_url ("/iaas/api/zones/" ++ py_str zone_id);
     rq_payload :=
       JObj [("name", get_or "name" JNull existing_zone);
             ("tags", tags_payload tags)] |}.

Definition update_cloud_zone_tags (zone_id : option string) (tags : list tag)
  (existing_zone : json) : M (bool * json) :=
  res <- http_send (cloud_zone_request zone_id tags existing_zone) ;;
  ret (updated_result res).

Definition network_profile_request (profile_id : option string)
  (tags : list tag) : request :=
  {| rq_verb := PATCH;
     rq_url := _api_url ("/iaas/api/network-profiles/" ++ py_str profile_id);
     rq_payload := JObj [("tags", tags_payload tags)] |}.

Definition update_network_profile_tags (profile_id : option string)
  (tags : list tag) : M (bool * json) :=
  res <- http_send (network_profile_request profile_id tags) ;;
  ret (updated_result res).

Definition fabric_compute_request (compute_id : option string)
  (tags : list tag) : request :=
  {| rq_verb := PATCH;
     rq_url := _api_url ("/iaas/api/fabric-computes/" ++ py_str compute_id);
     rq_payload := JObj [("tags", tags_payload tags)] |}.

Definition update_fabric_compute_tags (compute_id : option string)
  (tags : list tag) : M (bool * json) :=
  res <- http_send (fabric_compute_request compute_id tags) ;;
  ret (updated_result res).

(** [links.get('region', {}).get('href', '')] of a document. *)
Definition region_href (d : json) : string :=
  get_str_or "href" ""
    (get_or "region" (JObj []) (get_or "_links" (JObj []) d)).

(** The region of a document as its [_links] give it. *)
Definition linked_region_id (d : json) : string :=
  let href := region_href d in
  if contains "/regions/" href then split_last "/regions/" href else "".

(** The region of a storage profile: [regionId], else the [_links]. *)
Definition storage_region_id (existing_profile : json) : string :=
  let region_id := get_str_or "regionId" "" existing_profile in
  if negb (region_id =? "")%string then region_id
  else
    let href := region_href existing_profile in
    if contains "/regions/" href then split_last "/regions/" href
    else region_id.

(** The document of the full-replace PUT. *)
Definition storage_update_payload (tags : list tag) (existing_profile : json)
  (compute_host_id : option string) : json :=
  let payload :=
    JObj [("name", get_or "name" JNull existing_profile);
          ("description", get_or "description" (JStr "") existing_profile);
          ("defaultItem", get_or "defaultItem" (JBool false) existing_profile);
          ("supportsEncryption",
            get_or "supportsEncryption" (JBool false) existing_profile);
          ("tags", tags_payload tags);
          ("regionId", JStr (storage_region_id existing_profile))] in
  let payload :=
    if py_in "diskProperties" existing_profile
    then py_set "diskProperties"
           (get_or "diskProperties" JNull existing_profile) payload
    else payload in
  let payload :=
    if py_in "diskTargetProperties" existing_profile
    then py_set "diskTargetProperties"
           (get_or "diskTargetProperties" JNull existing_profile) payload
    else payload in
  if truthy_str compute_host_id
  then py_set "computeHostId" (opt_json compute_host_id) payload
  else if truthy (get_or "computeHostId" JNull existing_profile)
  then py_set "computeHostId"
         (get_or "computeHostId" JNull existing_profile) payload
  else payload.

Definition storage_update_request (profile_id : option string)
  (tags : list tag) (existing_profile : json)
  (compute_host_id : option string) : request :=
  {| rq_verb := PUT;
     rq_url := _api_url ("/iaas/api/storage-profiles/" ++ py_str profile_id);
     rq_payload := storage_update_payload tags existing_profile compute_host_id |}.

Definition update_storage_profile_tags (profile_id : option string)
  (tags : list tag) (existing_profile : json)
  (compute_host_id : option string) : M (bool * json) :=
  res <- http_send (storage_update_request profile_id tags existing_profile
                      compute_host_id) ;;
  ret (updated_result res).

(** *** Region resolution *)

(** [{r.get('name', ''): r.get('id') for r in api_regions}] *)
Definition region_lookup_of (api_regions : list json)
  : PyDict.t (option string) (option string) :=
  PyDict.of_list ostr_eqb
    (fun r => Some (get_str_or "name" "" r)) (get_str "id") api_regions.

Definition resolve_regions (fuel : nat) (cfg : config)
  : M (PyDict.t (option string) (option string)) :=
  api_regions <- get_regions fuel ;;
  let region_lookup := region_lookup_of api_regions in
  for_each
    (fun cr resolved =>
       let name := rc_name cr in
       match PyDict.get ostr_eqb name region_lookup with
       | Some rid => ret (PyDict.set ostr_eqb name rid resolved)
       | None => print (RegionNotFound name) ;;; ret resolved
       end)
    (regions cfg) [].

(** [rid[:8]] raises on a region without an identifier. *)
Definition some_id_missing (resolved : PyDict.t (option string) (option string))
  : bool :=
  existsb (fun kv => match snd kv with None => true | Some _ => false end)
    resolved.

(** *** Flavors *)

(** [len(p.get(section, {}).get('mapping', {}))] in the verification step. *)
Definition mapping_count (section : string) (p : json) : nat :=
  match get_or "mapping" (JObj []) (get_or section (JObj []) p) with
  | JObj kvs => List.length kvs
  | _ => O
  end.

Definition verify_lines (section : string) (actual : list json) : list line :=
  VerifyTotal (List.length actual)
    :: map (fun p =>
              VerifyProfile (get_str_or "name" "Unknown" p)
                (get_str_or "externalRegionId" "Unknown" p)
                (mapping_count section p))
         actual.

Definition print_all (ls : list line) : M unit :=
  for_each (fun l _ => print l) ls tt.

Definition cmd_process_flavors (fuel : nat) (cfg : config) (dry_run : bool)
  : M outcome :=
  resolved_regions <- resolve_regions fuel cfg ;;
  match resolved_regions with
  | [] => print NoValidRegions ;;; ret (Return 1)
  | _ =>
    if some_id_missing resolved_regions then ret Raise
    else
    let fs := flavors cfg in
    match fs with
    | [] => print NoFlavorsDefined ;;; ret (Return 1)
    | _ =>
      let profile_name :=
        str_or "vSphere-flavor-profile" (flavor_profile_name cfg) in
      let profile_desc :=
        str_or ("Flavor profile with " ++ nat_str (List.length fs)
                  ++ " size options")
          (flavor_profile_description cfg) in
      (if dry_run then
         for_each
           (fun kv _ =>
              print (WouldCreateFlavorProfile (fst kv) profile_name (snd kv) fs))
           resolved_regions tt
       else
         counts <-
           for_each
             (fun kv (counts : nat * nat) =>
                let '(created, failed) := counts in
                r <- create_flavor_profile profile_name profile_desc (snd kv) fs ;;
                if fst r
                then print (CreatedProfile profile_name (fst kv)) ;;;
                     ret (S created, failed)
                else print (FailedRegion (fst kv) (snd r)) ;;;
                     ret (created, S failed))
             resolved_regions (O, O) ;;
         print (ProfilesCreated (fst counts)) ;;;
         (match snd counts with
          | O => ret tt
          | S _ => print (ProfilesFailed (snd counts))
          end) ;;;
         match fst counts with
         | O => ret tt
         | S _ =>
             actual <- get_flavor_profiles fuel ;;
             print_all (verify_lines "flavorMappings" actual)
         end) ;;;
      ret (Return 0)
    end
  end.

(** *** Images *)

(** The lookup [(region_id, template_name) -> fabric_image_id]. *)
Definition build_fabric_lookup (fabric_images : list json)
  : PyDict.t (string * string) string :=
  fold_left
    (fun d img =>
       let name := get_str_or "name" "" img in
       let img_id := get_str_or "id" "" img in
       let region_id := linked_region_id img in
       if (negb (name =? "") && negb (img_id =? "")
           && negb (region_id =? ""))%string%bool
       then PyDict.set pair_eqb (region_id, name) img_id d
       else d)
    fabric_images [].

(** [images_by_region[region_name].append(entry)] *)
Definition append_image (region_name : string) (entry : image_entry)
  (by_region : PyDict.t (option string) (list image_entry))
  : PyDict.t (option string) (list image_entry) :=
  match PyDict.get ostr_eqb (Some region_name) by_region with
  | Some imgs =>
      PyDict.set ostr_eqb (Some region_name) (imgs ++ [entry])%list by_region
  | None => by_region
  end.

(** [resolved_regions.get(region_name)] *)
Definition resolved_id (resolved : PyDict.t (option string) (option string))
  (region_name : string) : option string :=
  match PyDict.get ostr_eqb (Some region_name) resolved with
  | Some rid => rid
  | None => None
  end.

(** One [(region_name, template_name)] pair of one image mapping. *)
Definition resolve_template
  (resolved : PyDict.t (option string) (option string))
  (fabric_lookup : PyDict.t (string * string) string)
  (mapping_name : option string) (rt : string * string)
  (acc : PyDict.t (option string) (list image_entry) * list warning)
  : PyDict.t (option string) (list image_entry) * list warning :=
  let '(region_name, template_name) := rt in
  let '(by_region, warnings) := acc in
  let region_id := resolved_id resolved region_name in
  if negb (truthy_str region_id)
  then (by_region, (warnings ++ [RegionMissing region_name mapping_name])%list)
  else
    let fabric_id :=
      PyDict.get pair_eqb (py_str region_id, template_name) fabric_lookup in
    if negb (truthy_str fabric_id)
    then (by_region,
          (warnings
             ++ [TemplateMissing template_name region_name mapping_name])%list)
    else
      (append_image region_name
         {| ie_name := mapping_name; ie_template := template_name;
            ie_id := py_str fabric_id |} by_region,
       warnings).

(** The image batch of every region and the warnings, from the desired
    mappings. *)
Definition build_images_by_region
  (resolved : PyDict.t (option string) (option string))
  (fabric_lookup : PyDict.t (string * string) string)
  (images_config : list image_cfg)
  : PyDict.t (option string) (list image_entry) * list warning :=
  fold_left
    (fun acc img =>
       fold_left
         (fun acc rt =>
            resolve_template resolved fabric_lookup (ic_name img) rt acc)
         (templates img) acc)
    images_config
    (map (fun kv => (fst kv, [])) resolved, []).

Definition cmd_process_images (fuel : nat) (cfg : config) (dry_run : bool)
  : M outcome :=
  resolved_regions <- resolve_regions fuel cfg ;;
  match resolved_regions with
  | [] => print NoValidRegions ;;; ret (Return 1)
  | _ =>
    if some_id_missing resolved_regions then ret Raise
    else
    fabric_images <- get_fabric_images fuel ;;
    let fabric_lookup := build_fabric_lookup fabric_images in
    let images_config := images cfg in
    match images_config with
    | [] => print NoImagesDefined ;;; ret (Return 1)
    | _ =>
      let '(images_by_region, warnings) :=
        build_images_by_region resolved_regions fabric_lookup images_config in
      print_all (map ImageWarning warnings) ;;;
      print_all (map (fun kv => RegionResolved (fst kv) (snd kv))
                   images_by_region) ;;;
      let profile_name :=
        str_or "vSphere-image-profile" (image_profile_name cfg) in
      let profile_desc :=
        str_or "Image profile for VM deployments"
          (image_profile_description cfg) in
      (if dry_run then
         for_each
           (fun kv _ =>
              match snd kv with
              | [] => ret tt
              | _ => print (WouldCreateImageProfile (fst kv) profile_name
                              (snd kv))
              end)
           images_by_region tt
       else
         counts <-
           for_each
             (fun kv (counts : nat * nat) =>
                let '(created, failed) := counts in
                match snd kv with
                | [] => print (SkippingRegion (fst kv)) ;;; ret counts
                | _ =>
                  let region_id :=
                    match PyDict.get ostr_eqb (fst kv) resolved_regions with
                    | Some rid => rid
                    | None => None
                    end in
                  r <- create_image_profile profile_name profile_desc
                         region_id (snd kv) ;;
                  if fst r
                  then print (CreatedProfile profile_name (fst kv)) ;;;
                       ret (S created, failed)
                  else print (FailedRegion (fst kv) (snd r)) ;;;
                       ret (created, S failed)
                end)
             images_by_region (O, O) ;;
         print (ProfilesCreated (fst counts)) ;;;
         (match snd counts with
          | O => ret tt
          | S _ => print (ProfilesFailed (snd counts))
          end) ;;;
         match fst counts with
         | O => ret tt
         | S _ =>
             actual <- get_image_profiles fuel ;;
             print_all (verify_lines "imageMappings" actual)
         end) ;;;
      ret (Return 0)
    end
  end.

(** *** Tags *)

(** [results = {'updated': 0, 'failed': 0, 'skipped': 0}] *)
Record tag_results : Type :=
  { updated : nat; failed : nat; skipped : nat }.

Definition no_results : tag_results :=
  {| updated := O; failed := O; skipped := O |}.
Definition add_updated (r : tag_results) : tag_results :=
  {| updated := S (updated r); failed := failed r; skipped := skipped r |}.
Definition add_failed (r : tag_results) : tag_results :=
  {| updated := updated r; failed := S (failed r); skipped := skipped r |}.
Definition add_skipped (r : tag_results) : tag_results :=
  {| updated := updated r; failed := failed r; skipped := S (skipped r) |}.

(** The listing a kind is looked up in. *)
Definition listing (k : kind) : M (list json) :=
  match k with
  | CloudZone => get_cloud_zones
  | NetworkProfile => get_network_profiles
  | Compute => get_fabric_computes
  end.

(** The update request of a kind; only a cloud zone re-sends its name. *)
Definition tag_request (k : kind) (doc : json) (tags : list tag) : request :=
  match k with
  | CloudZone => cloud_zone_request (get_str "id" doc) tags doc
  | NetworkProfile => network_profile_request (get_str "id" doc) tags
  | Compute => fabric_compute_request (get_str "id" doc) tags
  end.

Definition update_tags (k : kind) (doc : json) (tags : list tag)
  : M (bool * json) :=
  match k with
  | CloudZone => update_cloud_zone_tags (get_str "id" doc) tags doc
  | NetworkProfile => update_network_profile_tags (get_str "id" doc) tags
  | Compute => update_fabric_compute_tags (get_str "id" doc) tags
  end.

(** [{d.get('name'): d for d in docs}] *)
Definition by_name (docs : list json) : PyDict.t (option string) json :=
  PyDict.of_list ostr_eqb (get_str "name") (fun d => d) docs.

(** [lookup.get(name)] followed by [if not doc]. *)
Definition find_doc (lookup : PyDict.t (option string) json)
  (name : option string) : option json :=
  match PyDict.get ostr_eqb name lookup with
  | Some doc => if truthy doc then Some doc else None
  | None => None
  end.

(** One configured resource of one kind: the body of the three loops
    of [cmd_process_tags], which differ in the listing, the message and
    the update method only. *)
Definition process_tagged (k : kind) (dry_run : bool)
  (lookup : PyDict.t (option string) json) (entry : tagged_cfg)
  (results : tag_results) : M tag_results :=
  let name := tc_name entry in
  let tags := tc_tags entry in
  match find_doc lookup name with
  | None => print (NotFound k name) ;;; ret (add_skipped results)
  | Some doc =>
      if tags_match (get_tags doc) tags
      then print (NoChange name) ;;; ret results
      else if dry_run
      then print (WouldUpdate name (tag_str tags)) ;;; ret results
      else
        r <- update_tags k doc tags ;;
        if fst r
        then print (Updated name (tag_str tags)) ;;; ret (add_updated results)
        else print (Failed name (snd r)) ;;; ret (add_failed results)
  end.

(** One section of the [tags] configuration; an empty or missing
    section reads nothing. *)
Definition process_section (k : kind) (dry_run : bool)
  (entries : list tagged_cfg) (results : tag_results) : M tag_results :=
  match entries with
  | [] => ret results
  | _ =>
      docs <- listing k ;;
      for_each (process_tagged k dry_run (by_name docs)) entries results
  end.

(** The three sections in their order. *)
Definition process_tag_sections (tags_config : tags_cfg) (dry_run : bool)
  : M tag_results :=
  results <- process_section CloudZone dry_run
               (list_or_nil (cloud_zones tags_config)) no_results ;;
  results <- process_section NetworkProfile dry_run
               (list_or_nil (network_profiles tags_config)) results ;;
  process_section Compute dry_run
    (list_or_nil (compute tags_config)) results.

Definition cmd_process_tags (cfg : config) (dry_run : bool) : M outcome :=
  let tags_config := tags cfg in
  if tags_cfg_empty tags_config
  then print NoTagsDefined ;;; ret (Return 1)
  else
    results <- process_tag_sections tags_config dry_run ;;
    (if dry_run then print DryRunComplete
     else print (TagSummary (updated results) (failed results)
                   (skipped results))) ;;;
    ret (Return 0).

(** *** Storage profiles *)

(** [results = {'created': 0, 'updated': 0, 'failed': 0, 'skipped': 0}] *)
Record storage_results : Type :=
  { s_created : nat; s_updated : nat; s_failed : nat; s_skipped : nat }.

Definition no_storage_results : storage_results :=
  {| s_created := O; s_updated := O; s_failed := O; s_skipped := O |}.
Definition s_add_created (r : storage_results) : storage_results :=
  {| s_created := S (s_created r); s_updated := s_updated r;
     s_failed := s_failed r; s_skipped := s_skipped r |}.
Definition s_add_updated (r : storage_results) : storage_results :=
  {| s_created := s_created r; s_updated := S (s_updated r);
     s_failed := s_failed r; s_skipped := s_skipped r |}.
Definition s_add_failed (r : storage_results) : storage_results :=
  {| s_created := s_created r; s_updated := s_updated r;
     s_failed := S (s_failed r); s_skipped := s_skipped r |}.
Definition s_add_skipped (r : storage_results) : storage_results :=
  {| s_created := s_created r; s_updated := s_updated r;
     s_failed := s_failed r; s_skipped := S (s_skipped r) |}.

(** [compute_id]: the desired compute binding resolved to an identifier. *)
Definition resolve_compute (compute_lookup : PyDict.t (option string) (option string))
  (compute_name : option string) : option string :=
  if truthy_str compute_name
  then match PyDict.get ostr_eqb compute_name compute_lookup with
       | Some cid => cid
       | None => None
       end
  else None.

(** [(not compute_id) or (existing_compute == compute_id)] *)
Definition compute_matches (profile : json) (compute_id : option string)
  : bool :=
  (negb (truthy_str compute_id)
   || ostr_eqb (get_str "computeHostId" profile) compute_id)%bool.

(** [', '.join(changes)] *)
Definition changes_text (tags_differ compute_differs : bool)
  (tags : list tag) (compute_name : option string) : string :=
  join ", "
    (List.app
       (if tags_differ then ["tags: " ++ tag_str tags] else [])
       (if compute_differs then ["compute: " ++ py_str compute_name] else [])).

Definition process_storage_profile (dry_run : bool)
  (storage_lookup : PyDict.t (option string) json)
  (region_lookup compute_lookup : PyDict.t (option string) (option string))
  (sp : storage_cfg) (results : storage_results) : M storage_results :=
  let name := sp_name sp in
  let tags := sp_tags sp in
  let compute_name := sp_compute sp in
  let compute_id := resolve_compute compute_lookup compute_name in
  (if (truthy_str compute_name && negb (truthy_str compute_id))%bool
   then print (ComputeNotFound compute_name name) else ret tt) ;;;
  match find_doc storage_lookup name with
  | Some profile_summary =>
      profile <- get_storage_profile_detail (get_str "id" profile_summary) ;;
      if negb (truthy profile)
      then print (FailedDetails name) ;;; ret (s_add_failed results)
      else
        let tags_equal := tags_match (get_tags profile) tags in
        let matches := compute_matches profile compute_id in
        if (tags_equal && matches)%bool
        then print (StorageNoChange name
                      (if truthy_str compute_name
                       then " (compute: " ++ py_str compute_name ++ ")"
                       else "")) ;;;
             ret results
        else
          let profile_id := get_str "id" profile_summary in
          let changes :=
            changes_text (negb tags_equal) (negb matches) tags compute_name in
          if dry_run
          then print (WouldUpdateStorage name changes) ;;; ret results
          else
            r <- update_storage_profile_tags profile_id tags profile compute_id ;;
            if fst r
            then print (UpdatedStorage name changes) ;;;
                 ret (s_add_updated results)
            else print (Failed name (snd r)) ;;; ret (s_add_failed results)
  | None =>
      if sp_create sp then
        let region_name := sp_region sp in
        let description :=
          str_or (py_str name ++ " storage profile") (sp_description sp) in
        let provisioning_type := str_or "thin" (sp_provisioning_type sp) in
        let default_item := sp_default sp in
        let region_id :=
          match PyDict.get ostr_eqb region_name region_lookup with
          | Some rid => rid
          | None => None
          end in
        if negb (truthy_str region_id)
        then print (CannotCreate name region_name) ;;;
             ret (s_add_skipped results)
        else
          let compute_info :=
            if truthy_str compute_name
            then " bound to " ++ py_str compute_name else "" in
          if dry_run
          then print (WouldCreateStorage name region_name compute_info
                        (tag_str tags)) ;;;
               ret results
          else
            r <- create_storage_profile name description region_id tags
                   provisioning_type default_item compute_id ;;
            if fst r
            then print (CreatedStorage name region_name compute_info
                          (tag_str tags)) ;;;
                 ret (s_add_created results)
            else print (FailedCreate name (snd r)) ;;;
                 ret (s_add_failed results)
      else print (NotFoundNoCreate name) ;;; ret (s_add_skipped results)
  end.

(** [{d.get('name'): d.get('id') for d in docs}] *)
Definition ids_by_name (docs : list json)
  : PyDict.t (option string) (option string) :=
  PyDict.of_list ostr_eqb (get_str "name") (get_str "id") docs.

Definition cmd_process_storage (fuel : nat) (cfg : config) (dry_run : bool)
  : M outcome :=
  let sp_config := list_or_nil (storage_profiles (tags cfg)) in
  match sp_config with
  | [] => print NoStorageDefined ;;; ret (Return 1)
  | _ =>
      storage <- get_storage_profiles ;;
      let storage_lookup := by_name storage in
      regions <- get_regions fuel ;;
      let region_lookup := ids_by_name regions in
      computes <- get_fabric_computes ;;
      let compute_lookup := ids_by_name computes in
      results <-
        for_each
          (process_storage_profile dry_run storage_lookup region_lookup
             compute_lookup)
          sp_config no_storage_results ;;
      (if dry_run then print DryRunComplete
       else print (StorageSummary (s_created results) (s_updated results)
                     (s_failed results) (s_skipped results))) ;;;
      ret (Return 0)
  end.

(** *** main *)

(** The parsed command line: some [--list-*] flag, the selection flags
    and the execution mode. *)
Record args : Type :=
  { a_list : bool;
    a_flavors : bool; a_images : bool; a_storage : bool; a_tags : bool;
    a_all : bool;
    a_dry_run : bool; a_execute : bool }.

Definition authenticate : M bool :=
  fun w =>
    let '(b', ok) := login client (backend w) in
    Some (ok, World b' (log w)).

(** [result = cmd(...); if result != 0: return result], then the rest. *)
Definition and_then (selected : bool) (cmd : M outcome) (rest : M outcome)
  : M outcome :=
  if selected then
    result <- cmd ;;
    match result with
    | Return 0 => rest
    | _ => ret result
    end
  else rest.

(** [main] after argument parsing and configuration loading.  The
    listing commands print and return 0; a selection without a mode ends
    in [parser.error], the exit code 2. *)
Definition main (fuel : nat) (a : args) (cfg : config) : M outcome :=
  ok <- authenticate ;;
  if negb ok then ret (Return 1)
  else if a_list a then ret (Return 0)
  else if (a_flavors a || a_images a || a_storage a || a_tags a || a_all a)%bool
  then
    if (negb (a_dry_run a) && negb (a_execute a))%bool then ret (Return 2)
    else
      let dry_run := a_dry_run a in
      and_then (a_flavors a || a_all a) (cmd_process_flavors fuel cfg dry_run)
        (and_then (a_images a || a_all a) (cmd_process_images fuel cfg dry_run)
           (and_then (a_storage a || a_all a)
              (cmd_process_storage fuel cfg dry_run)
              (and_then (a_tags a || a_all a) (cmd_process_tags cfg dry_run)
                 (ret (Return 0)))))
  else ret (Return 0).

End Client.

Arguments World {B} backend log.

(** The write calls of a log, and its console lines. *)
Definition sent (l : list event) : list request :=
  filter_map (fun e => match e with Send r => Some r | Print _ => None end) l.

Definition printed (l : list event) : list line :=
  filter_map (fun e => match e with Print p => Some p | Send _ => None end) l.

(** The lines in which simulate mode announces an operation. *)
Definition is_planned (p : line) : bool :=
  match p with
  | WouldCreateFlavorProfile _ _ _ _ | WouldCreateImageProfile _ _ _
  | WouldUpdate _ _ | WouldUpdateStorage _ _ | WouldCreateStorage _ _ _ _ => true
  | _ => false
  end.

Definition planned (l : list event) : list line := filter is_planned (printed l).

Definition is_no_change (p : line) : bool :=
  match p with NoChange _ => true | _ => false end.

Definition is_not_found (p : line) : bool :=
  match p with NotFound _ _ => true | _ => false end.

(** ** Concrete backends and configurations *)

Module Fixtures.

Definition ok (j : json) : response :=
  {| status_code := 200; body := j; text := "" |}.

Definition missing : response :=
  {| status_code := 404; body := JObj []; text := "Not Found" |}.

(** A backend that serves fixed documents by URL and accepts every
    write; its state is the list of the writes it has received. *)
Definition serving (pages : list (string * json)) (auth : bool)
  : AriaClient (list request) :=
  {| host := "aria.example";
     session_get := fun _ url =>
       match PyDict.get String.eqb url pages with
       | Some j => ok j
       | None => missing
       end;
     session_send := fun b r => ((b ++ [r])%list, inl (ok (JObj [])));
     login := fun b => (b, auth) |}.

Definition url (path : string) : string :=
  "https://aria.example" ++ path ++ "?apiVersion=2021-07-15".

Definition page (items : list json) : json := JObj [("content", JArr items)].

Definition tagged (name id : string) (tags : list tag) : json :=
  JObj [("name", JStr name); ("id", JStr id); ("tags", tags_payload tags)].

Definition region_doc (name id : string) : json :=
  JObj [("name", JStr name); ("id", JStr id)].

Definition fabric_image (name id region_id : string) : json :=
  JObj [("name", JStr name); ("id", JStr id);
        ("_links",
          JObj [("region",
                  JObj [("href", JStr ("/iaas/api/regions/" ++ region_id))])])].

Definition gold_profile : json :=
  JObj [("name", JStr "gold"); ("id", JStr "sp-1");
        ("description", JStr "Gold tier");
        ("defaultItem", JBool true);
        ("supportsEncryption", JBool true);
        ("tags", tags_payload [Tag "tier" "gold"]);
        ("regionId", JStr "r1");
        ("diskProperties", JObj [("provisioningType", JStr "thick")]);
        ("diskTargetProperties", JObj [("storagePolicyId", JStr "pol-7")]);
        ("computeHostId", JStr "c-1")].

Definition ubuntu_r1 : json := fabric_image "ubuntu-22" "img-r1" "r1".
Definition ubuntu_r2 : json := fabric_image "ubuntu-22" "img-r2" "r2".

(** Two regions, the same template name in both, one zone, one network
    profile, two compute clusters and one storage profile. *)
Definition pages : list (string * json) :=
  [(url "/iaas/api/regions",
     page [region_doc "R1" "r1"; region_doc "R2" "r2"]);
   (url "/iaas/api/fabric-images", page [ubuntu_r1; ubuntu_r2]);
   (url "/iaas/api/zones",
     page [tagged "zone-a" "z-1" [Tag "env" "prod"];
           tagged "zone-b" "z-2" []]);
   (url "/iaas/api/network-profiles",
     page [tagged "net-a" "n-1" [Tag "net" "dmz"]]);
   (url "/iaas/api/fabric-computes",
     page [tagged "cluster-a" "c-1" []; tagged "cluster-b" "c-2" []]);
   (url "/iaas/api/storage-profiles", page [gold_profile]);
   (url "/iaas/api/storage-profiles/sp-1", gold_profile)].

Definition demo : AriaClient (list request) := serving pages true.

(** The same backend when the login is refused. *)
Definition locked : AriaClient (list request) := serving pages false.

(** A backend without any region. *)
Definition no_regions : AriaClient (list request) :=
  serving
    [(url "/iaas/api/zones", page [tagged "zone-a" "z-1" [Tag "env" "prod"]])]
    true.

(** A backend whose zone listing has two pages. *)
Definition two_pages : AriaClient (list request) :=
  serving
    [(url "/iaas/api/zones",
       JObj [("content", JArr [tagged "zone-a" "z-1" []]);
             ("_links",
               JObj [("next", JObj [("href", JStr "/iaas/api/zones?page=2")])])]);
     ("https://aria.example/iaas/api/zones?page=2",
       page [tagged "zone-b" "z-2" []])]
    true.

Definition start : world (list request) := World [] [].

Definition no_tags : tags_cfg :=
  {| cloud_zones := None; network_profiles := None; compute := None;
     storage_profiles := None |}.

Definition empty_config : config :=
  {| regions := []; flavors := [];
     flavor_profile_name := None; flavor_profile_description := None;
     images := []; image_profile_name := None;
     image_profile_description := None; tags := no_tags |}.

Definition small : flavor := {| f_name := "small"; cpuCount := 1; memoryMB := 1024 |}.
Definition large : flavor := {| f_name := "large"; cpuCount := 4; memoryMB := 4096 |}.

(** Two flavors for region R1; one image mapping that resolves and one
    that does not. *)
Definition sizing : config :=
  {| regions := [{| rc_name := Some "R1" |}];
     flavors := [small; large];
     flavor_profile_name := None; flavor_profile_description := None;
     images :=
       [{| ic_name := Some "ubuntu"; templates := [("R1", "ubuntu-22")] |};
        {| ic_name := Some "rocky"; templates := [("R1", "rocky-9")] |}];
     image_profile_name := None; image_profile_description := None;
     tags := no_tags |}.

(** zone-a is converged, zone-b needs its tag, zone-c does not exist. *)
Definition zone_tags : tags_cfg :=
  {| cloud_zones :=
       Some [{| tc_name := Some "zone-a"; tc_tags := [Tag "env" "prod"] |};
             {| tc_name := Some "zone-b"; tc_tags := [Tag "env" "test"] |};
             {| tc_name := Some "zone-c"; tc_tags := [Tag "env" "dev"] |}];
     network_profiles :=
       Some [{| tc_name := Some "net-a"; tc_tags := [Tag "net" "dmz"] |}];
     compute := None;
     storage_profiles := None |}.

Definition tagging : config :=
  {| regions := []; flavors := [];
     flavor_profile_name := None; flavor_profile_description := None;
     images := []; image_profile_name := None;
     image_profile_description := None; tags := zone_tags |}.

Definition gold_cfg (compute_name : option string) (tags : list tag)
  : storage_cfg :=
  {| sp_name := Some "gold"; sp_tags := tags; sp_create := false;
     sp_compute := compute_name; sp_region := None;
     sp_description := None; sp_provisioning_type := None;
     sp_default := false |}.

Definition storage_of (sps : list storage_cfg) : config :=
  {| regions := []; flavors := [];
     flavor_profile_name := None; flavor_profile_description := None;
     images := []; image_profile_name := None;
     image_profile_description := None;
     tags := {| cloud_zones := None; network_profiles := None;
                compute := None; storage_profiles := Some sps |} |}.


Definition two_regions : PyDict.t (option string) (option string) :=
  [(Some "R1", Some "r1"); (Some "R2", Some "r2")].

(** The mapping [ubuntu] asks for the template [ubuntu-22] in R1 only. *)
Definition ubuntu_in_r1 : list image_cfg :=
  [{| ic_name := Some "ubuntu"; templates := [("R1", "ubuntu-22")] |}].


(** Tags for the zones and the network profile, a new binding for the
    gold profile and a silver profile to create in R1. *)
Definition rollout : config :=
  {| regions := [{| rc_name := Some "R1" |}]; flavors := [small];
     flavor_profile_name := None; flavor_profile_description := None;
     images := []; image_profile_name := None;
     image_profile_description := None;
     tags :=
       {| cloud_zones := cloud_zones zone_tags;
          network_profiles := network_profiles zone_tags;
          compute := None;
          storage_profiles :=
            Some [gold_cfg (Some "cluster-b") [Tag "tier" "gold"];
                  {| sp_name := Some "silver"; sp_tags := [Tag "tier" "silver"];
                     sp_create := true; sp_compute := None;
                     sp_region := Some "R1"; sp_description := None;
                     sp_provisioning_type := None; sp_default := false |}] |} |}.

(** The rollout with the image mapping [ubuntu] added. *)
Definition full_rollout : config :=
  {| regions := regions rollout; flavors := flavors rollout;
     flavor_profile_name := None; flavor_profile_description := None;
     images := ubuntu_in_r1; image_profile_name := None;
     image_profile_description := None; tags := tags rollout |}.


End Fixtures.

(** ** Definitions used in the statements *)

(** No colon in a string. *)
Fixpoint colon_free (s : string) : bool :=
  match s with
  | EmptyString => true
  | String c s' => (negb (Ascii.eqb c ":") && colon_free s')%bool
  end.

(** The pages a backend serves from [url] on: every response has status
    200, every page but the last announces the next one. *)
Inductive served (B : Type) (client : AriaClient B) (b : B)
  : string -> list json -> Prop :=
| served_last (url : string) :
    truthy_str (Some url) = true ->
    status_code (session_get client b url) = 200%Z ->
    truthy_str (next_href (body (session_get client b url))) = false ->
    served client b url [body (session_get client b url)]
| served_next (url : string) (rest : list json) :
    truthy_str (Some url) = true ->
    status_code (session_get client b url) = 200%Z ->
    truthy_str (next_href (body (session_get client b url))) = true ->
    served client b
      ("https://" ++ host client
         ++ py_str (next_href (body (session_get client b url)))) rest ->
    served client b url (body (session_get client b url) :: rest).

(** The desired image mappings as [(mapping, region, template)] triples,
    in the order the loops visit them. *)
Definition image_pairs (images_config : list image_cfg)
  : list (option string * string * string) :=
  flat_map
    (fun img => map (fun rt => (ic_name img, fst rt, snd rt)) (templates img))
    images_config.

(** What one triple resolves to: the entry for its region's batch, or
    the warning that is recorded for it. *)
Definition resolve_pair
  (resolved : PyDict.t (option string) (option string))
  (fabric_lookup : PyDict.t (string * string) string)
  (p : option string * string * string) : image_entry + warning :=
  let '(mapping_name, region_name, template_name) := p in
  let region_id := resolved_id resolved region_name in
  if truthy_str region_id then
    let fabric_id :=
      PyDict.get pair_eqb (py_str region_id, template_name) fabric_lookup in
    if truthy_str fabric_id
    then inl {| ie_name := mapping_name; ie_template := template_name;
                ie_id := py_str fabric_id |}
    else inr (TemplateMissing template_name region_name mapping_name)
  else inr (RegionMissing region_name mapping_name).

(** The batch of region [k]: the triples of that region that resolve. *)
Definition batch_of
  (resolved : PyDict.t (option string) (option string))
  (fabric_lookup : PyDict.t (string * string) string)
  (k : option string) (pairs : list (option string * string * string))
  : list image_entry :=
  filter_map
    (fun p =>
       if ostr_eqb (Some (snd (fst p))) k
       then match resolve_pair resolved fabric_lookup p with
            | inl e => Some e
            | inr _ => None
            end
       else None)
    pairs.

(** The warnings: one for every triple that does not resolve. *)
Definition warnings_of
  (resolved : PyDict.t (option string) (option string))
  (fabric_lookup : PyDict.t (string * string) string)
  (pairs : list (option string * string * string)) : list warning :=
  filter_map
    (fun p =>
       match resolve_pair resolved fabric_lookup p with
       | inl _ => None
       | inr w => Some w
       end)
    pairs.

(** A fabric image that enters the lookup under [(region_id, name)]. *)
Definition indexed_as (region_id name : string) (img : json) : Prop :=
  get_str_or "name" "" img = name /\ linked_region_id img = region_id
  /\ name <> "" /\ region_id <> "" /\ get_str_or "id" "" img <> "".

(** The JSON of one flavor inside [flavorMapping]. *)
Definition flavor_json (f : flavor) : json :=
  JObj [("cpuCount", JNum (cpuCount f)); ("memoryInMB", JNum (memoryMB f))].

(** Reads of [b'] answer as the reads of [b]. *)
Definition same_reads (B : Type) (client : AriaClient B) (b b' : B) : Prop :=
  forall url, session_get client b' url = session_get client b url.

(** The backend holds its state fixed: no write changes the answer of
    any read. *)
Definition fixed_state (B : Type) (client : AriaClient B) : Prop :=
  forall b r, same_reads client b (fst (session_send client b r)).

(** The image warnings of a log. *)
Definition warnings_in (l : list event) : list warning :=
  filter_map
    (fun e => match e with Print (ImageWarning w) => Some w | _ => None end) l.

(** The path of the listing a kind is looked up in. *)
Definition listing_path (k : kind) : string :=
  match k with
  | CloudZone => "/iaas/api/zones"
  | NetworkProfile => "/iaas/api/network-profiles"
  | Compute => "/iaas/api/fabric-computes"
  end.

(** What a single-response listing answers in backend state [b]. *)
Definition first_page_at (B : Type) (client : AriaClient B) (b : B)
  (path : string) : list json :=
  let resp := session_get client b (_api_url client path) in
  if (status_code resp =? 200)%Z then content (body resp) else [].

(** The verdict of the diff for one configured resource. *)
Inductive verdict : Type :=
| Absent
| Converged
| NeedsUpdate (doc : json).

Definition tag_verdict (lookup : PyDict.t (option string) json)
  (entry : tagged_cfg) : verdict :=
  match find_doc lookup (tc_name entry) with
  | None => Absent
  | Some doc =>
      if tags_match (get_tags doc) (tc_tags entry) then Converged
      else NeedsUpdate doc
  end.

Definition is_absent (v : verdict) : bool :=
  match v with Absent => true | _ => false end.

Definition is_converged (v : verdict) : bool :=
  match v with Converged => true | _ => false end.

(** A planned tag update: the kind, the document found and the entry. *)
Definition tag_update : Type := (kind * json * tagged_cfg)%type.

(** The updates that the entries of one kind need, in their order. *)
Definition planned_updates (k : kind) (lookup : PyDict.t (option string) json)
  (entries : list tagged_cfg) : list tag_update :=
  filter_map
    (fun e =>
       match tag_verdict lookup e with
       | NeedsUpdate doc => Some (k, doc, e)
       | _ => None
       end)
    entries.

(** The line that announces a tag update in simulate mode, and the
    request that carries it out in apply mode. *)
Definition update_line (u : tag_update) : line :=
  WouldUpdate (tc_name (snd u)) (tag_str (tc_tags (snd u))).

Definition update_request (B : Type) (client : AriaClient B) (u : tag_update)
  : request :=
  tag_request client (fst (fst u)) (snd (fst u)) (tc_tags (snd u)).

(** The updates of one section, from the listing in backend state [b]. *)
Definition section_updates (B : Type) (client : AriaClient B) (b : B)
  (k : kind) (entries : list tagged_cfg) : list tag_update :=
  planned_updates k (by_name (first_page_at client b (listing_path k))) entries.

(** The tag updates of a whole run planned from backend state [b]. *)
Definition tag_plan (B : Type) (client : AriaClient B) (b : B)
  (tags_config : tags_cfg) : list tag_update :=
  (section_updates client b CloudZone (list_or_nil (cloud_zones tags_config))
   ++ section_updates client b NetworkProfile
        (list_or_nil (network_profiles tags_config))
   ++ section_updates client b Compute (list_or_nil (compute tags_config)))%list.

(** The number of resources configured in the three tag sections. *)
Definition configured (tags_config : tags_cfg) : nat :=
  (List.length (list_or_nil (cloud_zones tags_config))
   + List.length (list_or_nil (network_profiles tags_config))
   + List.length (list_or_nil (compute tags_config)))%nat.

Definition count_lines (p : line -> bool) (l : list event) : nat :=
  List.length (filter p (printed l)).

(** The detail document of a storage profile in backend state [b];
    [{}] when the read fails. *)
Definition detail_at (B : Type) (client : AriaClient B) (b : B)
  (profile_id : option string) : json :=
  let resp :=
    session_get client b
      (_api_url client ("/iaas/api/storage-profiles/" ++ py_str profile_id)) in
  if (status_code resp =? 200)%Z then body resp else JObj [].

(** The operation that a configured storage profile needs. *)
Inductive storage_op : Type :=
| UpdateProfile (profile_id : option string) (profile : json)
    (compute_id : option string) (changes : string)
| CreateProfile (description : string) (region_name region_id : option string)
    (provisioning_type : string) (default_item : bool)
    (compute_id : option string) (compute_info : string).

(** The operation planned for one configured storage profile, from the
    lookups and the detail read in backend state [b]; [None] when the
    profile is converged, cannot be read, cannot be created or is not to
    be created. *)
Definition storage_plan_of (B : Type) (client : AriaClient B) (b : B)
  (storage_lookup : PyDict.t (option string) json)
  (region_lookup compute_lookup : PyDict.t (option string) (option string))
  (sp : storage_cfg) : option storage_op :=
  let compute_id := resolve_compute compute_lookup (sp_compute sp) in
  match find_doc storage_lookup (sp_name sp) with
  | Some profile_summary =>
      let profile := detail_at client b (get_str "id" profile_summary) in
      if negb (truthy profile) then None
      else
        let tags_equal := tags_match (get_tags profile) (sp_tags sp) in
        let matches := compute_matches profile compute_id in
        if (tags_equal && matches)%bool then None
        else Some (UpdateProfile (get_str "id" profile_summary) profile
                     compute_id
                     (changes_text (negb tags_equal) (negb matches)
                        (sp_tags sp) (sp_compute sp)))
  | None =>
      if sp_create sp then
        let region_id :=
          match PyDict.get ostr_eqb (sp_region sp) region_lookup with
          | Some rid => rid
          | None => None
          end in
        if negb (truthy_str region_id) then None
        else Some (CreateProfile
                     (str_or (py_str (sp_name sp) ++ " storage profile")
                        (sp_description sp))
                     (sp_region sp) region_id
                     (str_or "thin" (sp_provisioning_type sp))
                     (sp_default sp) compute_id
                     (if truthy_str (sp_compute sp)
                      then " bound to " ++ py_str (sp_compute sp) else ""))
      else None
  end.

(** The line that announces a storage operation in simulate mode, and
    the request that carries it out in apply mode. *)
Definition storage_line (sp : storage_cfg) (op : storage_op) : line :=
  match op with
  | UpdateProfile _ _ _ changes => WouldUpdateStorage (sp_name sp) changes
  | CreateProfile _ region_name _ _ _ _ compute_info =>
      WouldCreateStorage (sp_name sp) region_name compute_info
        (tag_str (sp_tags sp))
  end.

Definition storage_request (B : Type) (client : AriaClient B)
  (sp : storage_cfg) (op : storage_op) : request :=
  match op with
  | UpdateProfile profile_id profile compute_id _ =>
      storage_update_request client profile_id (sp_tags sp) profile compute_id
  | CreateProfile description _ region_id provisioning_type default_item
      compute_id _ =>
      storage_create_request client (sp_name sp) description region_id
        (sp_tags sp) provisioning_type default_item compute_id
  end.

Definition opt_list (A : Type) (o : option A) : list A :=
  match o with Some x => [x] | None => [] end.

(** The storage operations of a whole run planned from backend state
    [b], given the regions that the paginated listing returned. *)
Definition storage_plan (B : Type) (client : AriaClient B) (b : B)
  (api_regions : list json) (sps : list storage_cfg)
  : list (storage_cfg * storage_op) :=
  filter_map
    (fun sp =>
       option_map (pair sp)
         (storage_plan_of client b
            (by_name (first_page_at client b "/iaas/api/storage-profiles"))
            (ids_by_name api_regions)
            (ids_by_name (first_page_at client b "/iaas/api/fabric-computes"))
            sp))
    sps.

(** The regions for which the flavor command plans a profile: all the
    resolved ones once the checks on regions and flavors have passed. *)
Definition flavor_plan (resolved : PyDict.t (option string) (option string))
  (cfg : config) : list (option string * option string) :=
  match resolved with
  | [] => []
  | _ =>
      if some_id_missing resolved then []
      else match flavors cfg with [] => [] | _ => resolved end
  end.

Definition flavor_line (cfg : config) (kv : option string * option string)
  : line :=
  WouldCreateFlavorProfile (fst kv)
    (str_or "vSphere-flavor-profile" (flavor_profile_name cfg)) (snd kv)
    (flavors cfg).


Definition has_images (kv : option string * list image_entry) : bool :=
  match snd kv with [] => false | _ => true end.

(** The batches for which the image command plans a profile: the
    non-empty ones once the checks on regions and images have passed. *)
Definition image_plan (resolved : PyDict.t (option string) (option string))
  (fabric_images : list json) (cfg : config)
  : list (option string * list image_entry) :=
  match resolved with
  | [] => []
  | _ =>
      if some_id_missing resolved then []
      else
        match images cfg with
        | [] => []
        | _ =>
            filter has_images
              (fst (build_images_by_region resolved
                      (build_fabric_lookup fabric_images) (images cfg)))
        end
  end.

Definition image_line (cfg : config) (kv : option string * list image_entry)
  : line :=
  WouldCreateImageProfile (fst kv)
    (str_or "vSphere-image-profile" (image_profile_name cfg)) (snd kv).

Definition image_request (B : Type) (client : AriaClient B) (cfg : config)
  (resolved : PyDict.t (option string) (option string))
  (kv : option string * list image_entry) : request :=
  image_profile_request client
    (str_or "vSphere-image-profile" (image_profile_name cfg))
    (str_or "Image profile for VM deployments" (image_profile_description cfg))
    match PyDict.get ostr_eqb (fst kv) resolved with
    | Some rid => rid
    | None => None
    end (snd kv).


(** ** Definitions used in the further properties *)

(** A computation whose write calls all satisfy [P]; when it sends
    nothing, the backend is left as it was. *)
Definition confined (B A : Type) (P : request -> Prop) (m : M B A) : Prop :=
  forall w a w',
    m w = Some (a, w') ->
    exists d, log w' = (log w ++ d)%list
              /\ Forall P (sent d)
              /\ (sent d = [] -> backend w' = backend w).

(** No request at all. *)
Definition never (r : request) : Prop := False.

(** A create call on a collection, and an update call on one of its
    members. *)
Definition creates_in (B : Type) (client : AriaClient B) (collection : string)
  (r : request) : Prop :=
  rq_verb r = POST /\ rq_url r = _api_url client collection.

Definition modifies_in (B : Type) (client : AriaClient B) (v : verb)
  (collection : string) (r : request) : Prop :=
  rq_verb r = v
  /\ exists id, rq_url r = _api_url client (collection ++ "/" ++ py_str id).

(** The pages a backend serves from [url] on until a response fails:
    every page listed answers 200 and announces the next one, and the
    response after the last of them has another status. *)
Inductive cut_short (B : Type) (client : AriaClient B) (b : B)
  : string -> list json -> Prop :=
| cut_here (url : string) :
    truthy_str (Some url) = true ->
    status_code (session_get client b url) <> 200%Z ->
    cut_short client b url []
| cut_later (url : string) (rest : list json) :
    truthy_str (Some url) = true ->
    status_code (session_get client b url) = 200%Z ->
    truthy_str (next_href (body (session_get client b url))) = true ->
    cut_short client b
      ("https://" ++ host client
         ++ py_str (next_href (body (session_get client b url)))) rest ->
    cut_short client b url (body (session_get client b url) :: rest).

(** The configured region names that the backend does not list, in the
    order of the configuration. *)
Definition unknown_regions (api_regions : list json) (cfg : config)
  : list (option string) :=
  filter (fun n => negb (PyDict.mem ostr_eqb n (region_lookup_of api_regions)))
    (map rc_name (regions cfg)).

Definition is_storage_no_change (p : line) : bool :=
  match p with StorageNoChange _ _ => true | _ => false end.

(** The storage profiles that the counters of a run account for. *)
Definition accounted (r : storage_results) : nat :=
  (s_created r + s_updated r + s_failed r + s_skipped r)%nat.

Definition is_post (r : request) : bool :=
  match rq_verb r with POST => true | _ => false end.

(** The create request that a configured storage profile leads to: its
    name is not in the storage lookup, it has [create: true] and its
    region resolves. *)
Definition creation_of (B : Type) (client : AriaClient B)
  (storage_lookup : PyDict.t (option string) json)
  (region_lookup compute_lookup : PyDict.t (option string) (option string))
  (sp : storage_cfg) : option request :=
  match find_doc storage_lookup (sp_name sp) with
  | Some _ => None
  | None =>
      let region_id :=
        match PyDict.get ostr_eqb (sp_region sp) region_lookup with
        | Some rid => rid
        | None => None
        end in
      if (sp_create sp && truthy_str region_id)%bool
      then Some (storage_create_request client (sp_name sp)
                   (str_or (py_str (sp_name sp) ++ " storage profile")
                      (sp_description sp))
                   region_id (sp_tags sp)
                   (str_or "thin" (sp_provisioning_type sp))
                   (sp_default sp)
                   (resolve_compute compute_lookup (sp_compute sp)))
      else None
  end.

(** The number of entries in all the batches. *)
Definition batched (by_region : PyDict.t (option string) (list image_entry))
  : nat :=
  list_sum (map (fun kv => List.length (snd kv)) by_region).

(** *** The lookup of [get_fabric_images_lookup] *)

(** Its keys are tuples [(region, name)] and plain names. *)
Inductive lookup_key : Type :=
| ByRegion (region name : string)
| ByName (name : string).

(** Its values are image identifiers under a tuple and
    [{'id': ..., 'region_id': ...}] under a plain name. *)
Inductive lookup_entry : Type :=
| ImageId (id : string)
| NamedImage (id region_id : string).

Definition lookup_key_eqb (a b : lookup_key) : bool :=
  match a, b with
  | ByRegion r n, ByRegion r' n' => ((r =? r') && (n =? n'))%string%bool
  | ByName n, ByName n' => (n =? n')%string
  | _, _ => false
  end.

(** The body of the loop over the fabric images. *)
Definition add_fabric_image (lookup : PyDict.t lookup_key lookup_entry)
  (img : json) : PyDict.t lookup_key lookup_entry :=
  let name := get_str_or "name" "" img in
  let region_id := linked_region_id img in
  let img_id := get_str_or "id" "" img in
  let external_region := get_str_or "externalRegionId" "" img in
  if (negb (name =? "") && negb (img_id =? ""))%string%bool then
    let lookup :=
      PyDict.set lookup_key_eqb (ByRegion region_id name) (ImageId img_id)
        lookup in
    let lookup :=
      PyDict.set lookup_key_eqb (ByRegion external_region name)
        (ImageId img_id) lookup in
    if PyDict.mem lookup_key_eqb (ByName name) lookup then lookup
    else PyDict.set lookup_key_eqb (ByName name)
           (NamedImage img_id region_id) lookup
  else lookup.

Definition fabric_images_lookup_of (images : list json)
  : PyDict.t lookup_key lookup_entry :=
  fold_left add_fabric_image images [].

Definition get_fabric_images_lookup (B : Type) (client : AriaClient B)
  (fuel : nat) : M B (PyDict.t lookup_key lookup_entry) :=
  bind (get_fabric_images client fuel)
    (fun images => ret (fabric_images_lookup_of images)).

(** A fabric image that enters the lookup: it has a name and an
    identifier. *)
Definition enters_lookup (name : string) (img : json) : Prop :=
  get_str_or "name" "" img = name /\ name <> ""
  /\ get_str_or "id" "" img <> "".

(** *** Listing the fabric images *)

(** The console lines of [cmd_list_images]. *)
Inductive report : Type :=
| NoFabricImages
| FoundTemplates (templates regions : nat)
| RegionHeader (region : string)
| TemplateLine (name os_family : string).

(** [if k not in d: d[k] = []] and [d[k].append(x)] for the key of [x]. *)
Definition group_step (key : json -> string)
  (d : PyDict.t string (list json)) (x : json)
  : PyDict.t string (list json) :=
  let k := key x in
  let d := if PyDict.mem String.eqb k d then d
           else PyDict.set String.eqb k [] d in
  match PyDict.get String.eqb k d with
  | Some items => PyDict.set String.eqb k (items ++ [x])%list d
  | None => d
  end.

Definition group_by (key : json -> string) (docs : list json)
  : PyDict.t string (list json) :=
  fold_left (group_step key) docs [].

(** [sorted(xs, key=key)] on string keys: a stable sort, so an element
    goes behind the elements with the same key that came before it.
    Strings are compared byte by byte, which on UTF-8 text is the order
    of the code points that Python uses. *)
Fixpoint insert_by (A : Type) (key : A -> string) (x : A) (xs : list A)
  : list A :=
  match xs with
  | [] => [x]
  | y :: ys =>
      if (key x <? key y)%string then x :: y :: ys
      else y :: insert_by key x ys
  end.

Definition sorted_by (A : Type) (key : A -> string) (xs : list A) : list A :=
  fold_left (fun acc x => insert_by key x acc) xs [].

(** The regions with their templates, as the listing shows them. *)
Definition image_groups (images : list json) : list (string * list json) :=
  map (fun g => (fst g, sorted_by (get_str_or "name" "") (snd g)))
    (sorted_by fst (group_by (get_str_or "externalRegionId" "Unknown") images)).

Definition template_line (item : json) : report :=
  TemplateLine (get_str_or "name" "Unknown" item)
    (get_str_or "osFamily" "" item).

Definition images_report (images : list json) : list report :=
  match images with
  | [] => [NoFabricImages]
  | _ =>
      FoundTemplates (List.length images)
        (List.length
           (group_by (get_str_or "externalRegionId" "Unknown") images))
        :: flat_map
             (fun g => RegionHeader (fst g) :: map template_line (snd g))
             (image_groups images)
  end.

(** [cmd_list_images]: the lines it prints are handed back. *)
Definition cmd_list_images (B : Type) (client : AriaClient B) (fuel : nat)
  : M B (list report) :=
  bind (get_fabric_images client fuel)
    (fun images => ret (images_report images)).

(** The order in which the listing shows names. *)
Definition in_order (a b : string) : Prop := (a <=? b)%string = true.

(** *** The two steps of [AriaClient.authenticate]

    Responses carry a JSON body; a body that is no JSON at all is
    outside the model. *)
Module Auth.

Record credentials : Type :=
  { username : json; password : json; domain : json }.

(** What makes [authenticate] print "Authentication failed": an
    exception of the transport, or the error status that
    [raise_for_status] turns into one. *)
Inductive failure : Type :=
| Transport (e : string)
| HttpError (status : Z).

(** How [authenticate] ends: with the bearer token set on the session
    and [True]; with one of its three messages and [False]; or with the
    [AttributeError] of [.get] on a body that is not an object, which it
    does not catch. *)
Inductive auth_result : Type :=
| Authenticated (token : json)
| NoTokenReceived
| NoBearerToken
| AuthenticationFailed (cause : failure)
| Uncaught.

Definition is_object (j : json) : bool :=
  match j with JObj _ => true | _ => false end.

(** [session.post] followed by [raise_for_status]. *)
Definition checked (res : response + string) : response + failure :=
  match res with
  | inr e => inr (Transport e)
  | inl resp =>
      if ((400 <=? status_code resp) && (status_code resp <? 600))%Z
      then inr (HttpError (status_code resp))
      else inl resp
  end.

Section Flow.
Variable B : Type.
Variable client : AriaClient B.

Definition login_request (c : credentials) : request :=
  {| rq_verb := POST;
     rq_url := "https://" ++ host client
                 ++ "/csp/gateway/am/api/login?access_token";
     rq_payload :=
       JObj [("username", username c); ("password", password c);
             ("domain", domain c)] |}.

Definition exchange_request (refresh_token : json) : request :=
  {| rq_verb := POST;
     rq_url := "https://" ++ host client ++ "/iaas/api/login";
     rq_payload := JObj [("refreshToken", refresh_token)] |}.

Definition authenticate (c : credentials) : M B auth_result :=
  bind (http_send client (login_request c))
    (fun res =>
       match checked res with
       | inr cause => ret (AuthenticationFailed cause)
       | inl resp =>
           let data := body resp in
           if negb (is_object data) then ret Uncaught
           else
             let refresh_token := get_or "refresh_token" JNull data in
             if negb (truthy refresh_token) then
               let token := get_or "access_token" JNull data in
               if negb (truthy token) then ret NoTokenReceived
               else ret (Authenticated token)
             else
               bind (http_send client (exchange_request refresh_token))
                 (fun res2 =>
                    match checked res2 with
                    | inr cause => ret (AuthenticationFailed cause)
                    | inl resp2 =>
                        if negb (is_object (body resp2)) then ret Uncaught
                        else
                          let token := get_or "token" JNull (body resp2) in
                          if negb (truthy token) then ret NoBearerToken
                          else ret (Authenticated token)
                    end)
       end).
End Flow.

(** The refresh token that the login answered with, when the answer
    calls for the exchange. *)
Definition refresh_token_of (res : response + string) : option json :=
  match checked res with
  | inl resp =>
      if (is_object (body resp)
          && truthy (get_or "refresh_token" JNull (body resp)))%bool
      then Some (get_or "refresh_token" JNull (body resp))
      else None
  | inr _ => None
  end.

End Auth.



(** The compute binding that a configured storage profile has on the
    backend: the true [computeHostId] of its detail document. *)
Definition existing_binding (B : Type) (client : AriaClient B) (b : B)
  (storage_lookup : PyDict.t (option string) json) (sp : storage_cfg)
  : option json :=
  match find_doc storage_lookup (sp_name sp) with
  | Some summary =>
      let profile := detail_at client b (get_str "id" summary) in
      if truthy (get_or "computeHostId" JNull profile)
      then Some (get_or "computeHostId" JNull profile)
      else None
  | None => None
  end.

(** The tags of a configured storage profile are the ones it has. *)
Definition tags_settled (B : Type) (client : AriaClient B) (b : B)
  (storage_lookup : PyDict.t (option string) json) (sp : storage_cfg)
  : bool :=
  match find_doc storage_lookup (sp_name sp) with
  | Some summary =>
      tags_match (get_tags (detail_at client b (get_str "id" summary)))
        (sp_tags sp)
  | None => false
  end.

(** *** Listing the flavor profiles and the storage profiles *)

(** The console lines of [cmd_list_flavors]. *)
Inductive flavor_report : Type :=
| NoFlavorProfiles
| FoundFlavorProfiles (profiles names : nat)
| ProfileName (name : string) (regions : nat)
| ProfileRegion (region : string) (cpu mem : json).

(** The flavor profiles under their names, the names ascending. *)
Definition flavor_groups (profiles : list json) : list (string * list json) :=
  sorted_by fst (group_by (get_str_or "name" "Unknown") profiles).

(** The line of one profile; the flavor shown is the one that is named
    like the profile. *)
Definition profile_region (name : string) (item : json) : flavor_report :=
  let mappings :=
    get_or "mapping" (JObj []) (get_or "flavorMappings" (JObj []) item) in
  let flavor_def := get_or name (JObj []) mappings in
  ProfileRegion (get_str_or "externalRegionId" "Unknown" item)
    (get_or "cpuCount" (JStr "?") flavor_def)
    (get_or "memoryInMB" (JStr "?") flavor_def).

Definition flavors_report (profiles : list json) : list flavor_report :=
  match profiles with
  | [] => [NoFlavorProfiles]
  | _ =>
      FoundFlavorProfiles (List.length profiles)
        (List.length (group_by (get_str_or "name" "Unknown") profiles))
        :: flat_map
             (fun g =>
                ProfileName (fst g) (List.length (snd g))
                  :: map (profile_region (fst g)) (snd g))
             (flavor_groups profiles)
  end.

(** [cmd_list_flavors]: the lines it prints are handed back. *)
Definition cmd_list_flavors (B : Type) (client : AriaClient B) (fuel : nat)
  : M B (list flavor_report) :=
  bind (get_flavor_profiles client fuel)
    (fun profiles => ret (flavors_report profiles)).

(** The console lines of [cmd_list_storage]. *)
Inductive storage_report : Type :=
| NoStorageProfiles
| FoundStorageProfiles (profiles regions : nat)
| StorageRegion (region : string)
| StorageProfile (name tags_text provisioning : string) (default : bool).

(** The storage profiles under their regions, the regions ascending. *)
Definition storage_groups (storage : list json) : list (string * list json) :=
  sorted_by fst (group_by (get_str_or "externalRegionId" "Unknown") storage).

Definition storage_profile_line (p : json) : storage_report :=
  StorageProfile (get_str_or "name" "Unknown" p)
    (match get_tags p with
     | [] => "(no tags)"
     | tags => tag_str tags
     end)
    (get_str_or "provisioningType" "N/A"
       (get_or "diskProperties" (JObj []) p))
    (truthy (get_or "defaultItem" JNull p)).

Definition storage_report_of (storage : list json) : list storage_report :=
  match storage with
  | [] => [NoStorageProfiles]
  | _ =>
      FoundStorageProfiles (List.length storage)
        (List.length
           (group_by (get_str_or "externalRegionId" "Unknown") storage))
        :: flat_map
             (fun g => StorageRegion (fst g) :: map storage_profile_line (snd g))
             (storage_groups storage)
  end.

(** [cmd_list_storage]: the lines it prints are handed back. *)
Definition cmd_list_storage (B : Type) (client : AriaClient B)
  : M B (list storage_report) :=
  bind (get_storage_profiles client)
    (fun storage => ret (storage_report_of storage)).

(** The documents of a listing that have the key [k], in their order. *)
Definition keyed (key : json -> string) (k : string) (docs : list json)
  : list json :=
  filter (fun x => (key x =? k)%string) docs.

(** Further backends and command lines. *)
Module Scenarios.

(** Everything selected, in simulate mode. *)
Definition all_dry_run : args :=
  {| a_list := false; a_flavors := false; a_images := false;
     a_storage := false; a_tags := false; a_all := true;
     a_dry_run := true; a_execute := false |}.

(** A region listing whose only page announces itself as the next one. *)
Definition looping : AriaClient (list request) :=
  Fixtures.serving
    [(Fixtures.url "/iaas/api/regions",
       JObj [("content", JArr [Fixtures.region_doc "R1" "r1"]);
             ("_links",
               JObj [("next",
                       JObj [("href",
                               JStr "/iaas/api/regions?apiVersion=2021-07-15")])])])]
    true.

(** A region listing whose first page announces a second one that the
    backend does not serve. *)
Definition broken_link : AriaClient (list request) :=
  Fixtures.serving
    [(Fixtures.url "/iaas/api/regions",
       JObj [("content", JArr [Fixtures.region_doc "R1" "r1"]);
             ("_links",
               JObj [("next",
                       JObj [("href", JStr "/iaas/api/regions?page=2")])])])]
    true.

(** A backend that lists a region without an identifier. *)
Definition nameless_id : AriaClient (list request) :=
  Fixtures.serving
    [(Fixtures.url "/iaas/api/regions",
       Fixtures.page [JObj [("name", JStr "R1")]])]
    true.

(** A backend whose storage listing cannot be read. *)
Definition no_storage_listing : AriaClient (list request) :=
  Fixtures.serving
    [(Fixtures.url "/iaas/api/regions",
       Fixtures.page [Fixtures.region_doc "R1" "r1"])]
    true.

(** A fabric image as the listing reads it. *)
Definition template (name region os_family : string) : json :=
  JObj [("name", JStr name); ("externalRegionId", JStr region);
        ("osFamily", JStr os_family)].

(** A backend whose login answers with a refresh token and an access
    token, and whose token exchange is refused. *)
Definition refused_exchange : AriaClient (list request) :=
  {| host := "aria.example";
     session_get := fun _ _ => Fixtures.missing;
     session_send := fun b r =>
       ((b ++ [r])%list,
        inl (if (rq_url r
                 =? "https://aria.example/csp/gateway/am/api/login?access_token")%string
             then Fixtures.ok (JObj [("refresh_token", JStr "rt-1");
                                     ("access_token", JStr "at-1")])
             else {| status_code := 401; body := JObj [];
                     text := "Unauthorized" |}));
     login := fun b => (b, false) |}.

Definition operator : Auth.credentials :=
  {| Auth.username := JStr "admin"; Auth.password := JStr "secret";
     Auth.domain := JStr "System Domain" |}.

(** The demo backend when it refuses every write with status 403. *)
Definition read_only : AriaClient (list request) :=
  {| host := "aria.example";
     session_get := session_get Fixtures.demo;
     session_send := fun b r =>
       (b, inl {| status_code := 403; body := JObj [("message", JStr "Forbidden")];
                  text := "Forbidden" |});
     login := fun b => (b, true) |}.

End Scenarios.

(** * Properties *)

(** ** Equality tests and dictionaries *)

Lemma ostr_eqb_eq (a b : option string) : ostr_eqb a b = true <-> a = b.
Proof.
  destruct a as [x|], b as [y|]; simpl; try (split; congruence).
  rewrite String.eqb_eq. split; congruence.
Qed.

Lemma ostr_eqb_refl (a : option string) : ostr_eqb a a = true.
Proof. now apply ostr_eqb_eq. Qed.

Lemma pair_eqb_eq (a b : string * string) : pair_eqb a b = true <-> a = b.
Proof.
  destruct a as [a1 a2], b as [b1 b2]; unfold pair_eqb; simpl.
  rewrite andb_true_iff, !String.eqb_eq. split.
  - intros [-> ->]; reflexivity.
  - intros H; inversion H; auto.
Qed.

Section DictFacts.
Variables K V : Type.
Variable eqb : K -> K -> bool.
Hypothesis eqb_eq : forall a b, eqb a b = true <-> a = b.

Lemma eqb_same (k : K) : eqb k k = true.
Proof. now apply eqb_eq. Qed.

Lemma eqb_diff (k k' : K) : k <> k' -> eqb k k' = false.
Proof.
  intros H. destruct (eqb k k') eqn:E; [|reflexivity].
  apply eqb_eq in E. contradiction.
Qed.

Lemma get_set_same (k : K) (v : V) (d : PyDict.t K V) :
  PyDict.get eqb k (PyDict.set eqb k v d) = Some v.
Proof.
  induction d as [|[k' v'] d IH]; simpl.
  - now rewrite eqb_same.
  - destruct (eqb k k') eqn:E; simpl.
    + now rewrite eqb_same.
    + now rewrite E.
Qed.

Lemma get_set_other (k k' : K) (v : V) (d : PyDict.t K V) :
  k <> k' ->
  PyDict.get eqb k (PyDict.set eqb k' v d) = PyDict.get eqb k d.
Proof.
  intros Hk. induction d as [|[k0 v0] d IH]; simpl.
  - now rewrite (eqb_diff Hk).
  - destruct (eqb k' k0) eqn:E; simpl.
    + apply eqb_eq in E; subst k0. now rewrite (eqb_diff Hk).
    + now rewrite IH.
Qed.

Lemma get_In (k : K) (v : V) (d : PyDict.t K V) :
  PyDict.get eqb k d = Some v -> In (k, v) d.
Proof.
  induction d as [|[k' v'] d IH]; simpl; [discriminate|].
  destruct (eqb k k') eqn:E.
  - apply eqb_eq in E; subst. intros H; inversion H; auto.
  - auto.
Qed.

Lemma keys_set_present (k : K) (v : V) (d : PyDict.t K V) :
  PyDict.get eqb k d <> None ->
  PyDict.keys (PyDict.set eqb k v d) = PyDict.keys d.
Proof.
  unfold PyDict.keys.
  induction d as [|[k' v'] d IH]; simpl; [congruence|].
  destruct (eqb k k') eqn:E; simpl.
  - apply eqb_eq in E; subst. reflexivity.
  - intros H. now rewrite IH.
Qed.
End DictFacts.

(** ** Tag comparison *)

Lemma str_mem_In (s : string) (xs : list string) :
  str_mem s xs = true <-> In s xs.
Proof.
  unfold str_mem. rewrite existsb_exists. split.
  - intros [x [Hx E]]. apply String.eqb_eq in E. now subst.
  - intros H. exists s. split; [assumption|apply String.eqb_refl].
Qed.

Lemma subset_spec (xs ys : list string) :
  subset xs ys = true <-> (forall s, In s xs -> In s ys).
Proof.
  unfold subset. rewrite forallb_forall. split.
  - intros H s Hs. now apply str_mem_In, H.
  - intros H s Hs. now apply str_mem_In, H.
Qed.

Lemma set_eqb_spec (xs ys : list string) :
  set_eqb xs ys = true <-> (forall s, In s xs <-> In s ys).
Proof.
  unfold set_eqb. rewrite andb_true_iff, !subset_spec. split.
  - intros [H1 H2] s. split; auto.
  - intros H. split; intros s Hs; now apply H.
Qed.

(** The comparison is an equality of the sets of rendered tags. *)
Lemma tags_match_spec (existing desired : list tag) :
  tags_match existing desired = true <->
  (forall s, In s (tag_set existing) <-> In s (tag_set desired)).
Proof. apply set_eqb_spec. Qed.

(** Lists with the same pairs match: the order and the repetitions of
    the tags play no part. *)
Lemma tags_match_same_pairs (existing desired : list tag) :
  (forall t, In t existing <-> In t desired) ->
  tags_match existing desired = true.
Proof.
  intros H. apply tags_match_spec. intros s. unfold tag_set.
  rewrite !in_map_iff. split; intros [t [E Ht]]; exists t; split; auto;
    now apply H.
Qed.

Lemma tags_match_refl (tags : list tag) : tags_match tags tags = true.
Proof. apply tags_match_same_pairs. tauto. Qed.

Lemma tags_match_sym (a b : list tag) : tags_match a b = tags_match b a.
Proof. unfold tags_match, set_eqb. apply andb_comm. Qed.

Lemma tag_fmt_inj (k1 v1 k2 v2 : string) :
  colon_free k1 = true -> colon_free k2 = true ->
  (k1 ++ ":" ++ v1 = k2 ++ ":" ++ v2)%string -> k1 = k2 /\ v1 = v2.
Proof.
  revert k2. induction k1 as [|c k1 IH]; intros [|c2 k2]; simpl; intros H1 H2 E.
  - inversion E. auto.
  - inversion E; subst c2. apply andb_true_iff in H2. destruct H2 as [H2 _].
    rewrite Ascii.eqb_refl in H2. discriminate.
  - inversion E; subst c. apply andb_true_iff in H1. destruct H1 as [H1 _].
    rewrite Ascii.eqb_refl in H1. discriminate.
  - apply andb_true_iff in H1, H2. destruct H1 as [_ H1], H2 as [_ H2].
    inversion E; subst c2. destruct (IH k2 H1 H2 H3) as [-> ->]. auto.
Qed.

(** When no key holds a colon, matching lists have the same pairs. *)
Lemma tags_match_colon_free (existing desired : list tag) :
  (forall t, In t existing \/ In t desired -> colon_free (key t) = true) ->
  tags_match existing desired = true ->
  forall t, In t existing <-> In t desired.
Proof.
  intros Hfree H t. rewrite tags_match_spec in H.
  assert (Hinj : forall l t, (forall u, In u l -> colon_free (key u) = true) ->
            colon_free (key t) = true -> In (tag_fmt t) (tag_set l) -> In t l).
  { intros l u Hl Hu Hin. unfold tag_set in Hin. apply in_map_iff in Hin.
    destruct Hin as [u' [E Hu']]. unfold tag_fmt in E.
    destruct (@tag_fmt_inj (key u') (value u') (key u) (value u)) as [Ek Ev];
      auto.
    destruct u, u'; simpl in *; subst; assumption. }
  split; intros Ht.
  - apply Hinj; auto. apply H. unfold tag_set. now apply in_map.
  - apply Hinj; auto. apply H. unfold tag_set. now apply in_map.
Qed.

(** C3: the comparison renders every tag as [key:value] and compares
    the rendered strings, so two lists with different pairs are judged
    equal when the renderings collide: the tag with key [a] and value
    [b:c] against the tag with key [a:b] and value [c]. *)
Theorem tags_match_colon_collision :
  tags_match [Tag "a" "b:c"] [Tag "a:b" "c"] = true /\
  ~ (forall t, In t [Tag "a" "b:c"] <-> In t [Tag "a:b" "c"]).
Proof.
  split; [reflexivity|].
  intros H. destruct (H (Tag "a" "b:c")) as [H1 _].
  destruct H1 as [E|[]]; [left; reflexivity|discriminate E].
Qed.

(** ** Pagination *)

Section Pagination.
Variable B : Type.
Variable client : AriaClient B.

(** [_get_paginated] collects the items of every page of a chain. *)
Lemma paginate_served (b : B) (url : string) (pages : list json) :
  served client b url pages ->
  forall fuel acc,
    (List.length pages < fuel)%nat ->
    paginate client fuel b (Some url) acc
    = Some (acc ++ flat_map content pages)%list.
Proof.
  induction 1 as [url Hurl Hst Hnext | url rest Hurl Hst Hnext Hrest IH];
    intros fuel acc Hfuel.
  - destruct fuel as [|[|fuel]]; simpl in Hfuel; try lia.
    cbn [paginate]. rewrite Hurl. cbn [py_str]. rewrite Hst. simpl negb.
    cbv iota. rewrite Hnext. cbn [flat_map]. now rewrite app_nil_r.
  - destruct fuel as [|fuel]; simpl in Hfuel; try lia.
    cbn [paginate]. rewrite Hurl. cbn [py_str]. rewrite Hst. simpl negb.
    cbv iota. rewrite Hnext. rewrite IH by lia.
    cbn [flat_map]. now rewrite app_assoc.
Qed.

Lemma get_paginated_served (w : world B) (path : string) (pages : list json)
  (fuel : nat) :
  served client (backend w) (_api_url client path) pages ->
  (List.length pages < fuel)%nat ->
  _get_paginated client fuel path w = Some (flat_map content pages, w).
Proof.
  intros Hs Hf. unfold _get_paginated.
  now rewrite (paginate_served Hs) by assumption.
Qed.

Lemma get_paginated_eq (fuel : nat) (path : string) (b : B) (lg : list event)
  (items : list json) :
  paginate client fuel b (Some (_api_url client path)) [] = Some items ->
  _get_paginated client fuel path (World b lg) = Some (items, World b lg).
Proof. unfold _get_paginated. cbn [backend]. now intros ->. Qed.

(** A read leaves the world as it is. *)
Lemma get_paginated_pure (fuel : nat) (path : string) (w w' : world B)
  (items : list json) :
  _get_paginated client fuel path w = Some (items, w') -> w' = w.
Proof.
  unfold _get_paginated.
  destruct (paginate client fuel (backend w) _ []); intros H; inversion H.
  reflexivity.
Qed.

(** The single-response listings return the first page whatever it
    announces. *)
Lemma get_first_page_eq (path : string) (w : world B) :
  get_first_page client path w
  = Some (if (status_code (session_get client (backend w)
                              (_api_url client path)) =? 200)%Z
          then content (body (session_get client (backend w)
                                (_api_url client path)))
          else [], w).
Proof.
  unfold get_first_page, bind, http_get, ret.
  now destruct (status_code _ =? 200)%Z.
Qed.
End Pagination.

(** C6: the zone listing reads one response.  On a backend whose zone
    listing has a second page, [get_cloud_zones] returns the first page
    only, where [_get_paginated] on the same path returns both pages. *)
Theorem get_cloud_zones_first_page_only :
  get_cloud_zones Fixtures.two_pages Fixtures.start
  = Some ([Fixtures.tagged "zone-a" "z-1" []], Fixtures.start)
  /\ _get_paginated Fixtures.two_pages 3 "/iaas/api/zones" Fixtures.start
     = Some ([Fixtures.tagged "zone-a" "z-1" [];
              Fixtures.tagged "zone-b" "z-2" []], Fixtures.start).
Proof. split; vm_compute; reflexivity. Qed.

(** ** The full-replace document of a storage profile *)

Lemma py_get_set_same (k : string) (v : json) (kvs : list (string * json)) :
  py_get k (py_set k v (JObj kvs)) = Some v.
Proof. simpl. apply get_set_same. apply String.eqb_eq. Qed.

Lemma py_get_set_other (k k' : string) (v : json) (kvs : list (string * json)) :
  k <> k' -> py_get k (py_set k' v (JObj kvs)) = py_get k (JObj kvs).
Proof. intros H. simpl. apply get_set_other; [apply String.eqb_eq|assumption]. Qed.


(** The region sent is the profile's [regionId] when it has one, and the
    region of its [_links] otherwise. *)
Lemma storage_region_id_direct (existing : json) (r : string) :
  get_str "regionId" existing = Some r -> r <> "" ->
  storage_region_id existing = r.
Proof.
  unfold storage_region_id, get_str, get_str_or. intros H Hr.
  destruct (py_get "regionId" existing) as [[| | |s| |]|]; try discriminate.
  inversion H; subst s.
  apply String.eqb_neq in Hr. now rewrite Hr.
Qed.



(** ** Image planning *)

Lemma filter_map_app (A C : Type) (f : A -> option C) (xs ys : list A) :
  filter_map f (xs ++ ys) = (filter_map f xs ++ filter_map f ys)%list.
Proof.
  induction xs as [|x xs IH]; simpl; [reflexivity|].
  destruct (f x); simpl; now rewrite IH.
Qed.

(** The planning loops are one pass over the triples. *)
Lemma build_images_by_region_pairs
  (resolved : PyDict.t (option string) (option string))
  (fabric_lookup : PyDict.t (string * string) string)
  (images_config : list image_cfg) :
  build_images_by_region resolved fabric_lookup images_config
  = fold_left
      (fun acc p =>
         resolve_template resolved fabric_lookup (fst (fst p))
           (snd (fst p), snd p) acc)
      (image_pairs images_config)
      (map (fun kv => (fst kv, [])) resolved, []).
Proof.
  unfold build_images_by_region, image_pairs.
  generalize (map (fun kv : option string * option string =>
                     (fst kv, @nil image_entry)) resolved, @nil warning).
  induction images_config as [|img imgs IH]; intros acc; simpl; [reflexivity|].
  rewrite fold_left_app, IH. f_equal.
  generalize acc. clear.
  induction (templates img) as [|[r t] rts IH]; intros acc; simpl;
    [reflexivity|apply IH].
Qed.

Lemma resolve_template_step
  (resolved : PyDict.t (option string) (option string))
  (fabric_lookup : PyDict.t (string * string) string)
  (p : option string * string * string)
  (by_region : PyDict.t (option string) (list image_entry))
  (warnings : list warning) :
  resolve_template resolved fabric_lookup (fst (fst p)) (snd (fst p), snd p)
    (by_region, warnings)
  = match resolve_pair resolved fabric_lookup p with
    | inl e => (append_image (snd (fst p)) e by_region, warnings)
    | inr w => (by_region, (warnings ++ [w])%list)
    end.
Proof.
  destruct p as [[m r] t]. unfold resolve_template, resolve_pair. simpl.
  destruct (truthy_str (resolved_id resolved r)); simpl; [|reflexivity].
  now destruct (truthy_str (PyDict.get pair_eqb _ fabric_lookup)).
Qed.

Lemma resolve_pair_region_known
  (resolved : PyDict.t (option string) (option string))
  (fabric_lookup : PyDict.t (string * string) string)
  (p : option string * string * string) (e : image_entry) :
  resolve_pair resolved fabric_lookup p = inl e ->
  PyDict.mem ostr_eqb (Some (snd (fst p))) resolved = true.
Proof.
  destruct p as [[m r] t]. unfold resolve_pair, resolved_id, PyDict.mem. simpl.
  destruct (PyDict.get ostr_eqb (Some r) resolved); [reflexivity|].
  simpl. discriminate.
Qed.

Lemma get_empty_batches (resolved : PyDict.t (option string) (option string))
  (k : option string) :
  PyDict.get ostr_eqb k
    (map (fun kv => (fst kv, @nil image_entry)) resolved)
  = if PyDict.mem ostr_eqb k resolved then Some [] else None.
Proof.
  unfold PyDict.mem. induction resolved as [|[k' v] d IH]; simpl; [reflexivity|].
  destruct (ostr_eqb k k'); [reflexivity|assumption].
Qed.

Lemma get_append_image (r : string) (e : image_entry) (imgs : list image_entry)
  (by_region : PyDict.t (option string) (list image_entry)) (k : option string) :
  PyDict.get ostr_eqb (Some r) by_region = Some imgs ->
  PyDict.get ostr_eqb k (append_image r e by_region)
  = if ostr_eqb (Some r) k then Some (imgs ++ [e])%list
    else PyDict.get ostr_eqb k by_region.
Proof.
  intros H. unfold append_image. rewrite H.
  destruct (ostr_eqb (Some r) k) eqn:E.
  - apply ostr_eqb_eq in E; subst k. apply get_set_same, ostr_eqb_eq.
  - apply get_set_other; [apply ostr_eqb_eq|].
    intros ->. now rewrite ostr_eqb_refl in E.
Qed.

Lemma keys_append_image (r : string) (e : image_entry)
  (by_region : PyDict.t (option string) (list image_entry)) :
  PyDict.keys (append_image r e by_region) = PyDict.keys by_region.
Proof.
  unfold append_image.
  destruct (PyDict.get ostr_eqb (Some r) by_region) eqn:E; [|reflexivity].
  apply keys_set_present with (eqb := ostr_eqb); [apply ostr_eqb_eq|congruence].
Qed.

(** The batches and warnings that the planning loops build are those of
    the triples that resolve and of those that do not. *)
Lemma build_images_by_region_spec
  (resolved : PyDict.t (option string) (option string))
  (fabric_lookup : PyDict.t (string * string) string)
  (images_config : list image_cfg) :
  let plan := build_images_by_region resolved fabric_lookup images_config in
  let pairs := image_pairs images_config in
  (forall k,
     PyDict.get ostr_eqb k (fst plan)
     = if PyDict.mem ostr_eqb k resolved
       then Some (batch_of resolved fabric_lookup k pairs) else None)
  /\ PyDict.keys (fst plan) = PyDict.keys resolved
  /\ snd plan = warnings_of resolved fabric_lookup pairs.
Proof.
  cbv zeta. rewrite build_images_by_region_pairs.
  assert (Hgen : forall pairs done acc,
    (forall k, PyDict.get ostr_eqb k (fst acc)
               = if PyDict.mem ostr_eqb k resolved
                 then Some (batch_of resolved fabric_lookup k done) else None) ->
    PyDict.keys (fst acc) = PyDict.keys resolved ->
    snd acc = warnings_of resolved fabric_lookup done ->
    let out :=
      fold_left
        (fun acc p =>
           resolve_template resolved fabric_lookup (fst (fst p))
             (snd (fst p), snd p) acc) pairs acc in
    (forall k, PyDict.get ostr_eqb k (fst out)
               = if PyDict.mem ostr_eqb k resolved
                 then Some (batch_of resolved fabric_lookup k (done ++ pairs))
                 else None)
    /\ PyDict.keys (fst out) = PyDict.keys resolved
    /\ snd out = warnings_of resolved fabric_lookup (done ++ pairs)).
  { induction pairs as [|p pairs IH]; intros done [by_region ws] Hget Hkeys Hw.
    - simpl. rewrite app_nil_r. auto.
    - cbn [fold_left].
      replace (done ++ p :: pairs)%list with ((done ++ [p]) ++ pairs)%list
        by (now rewrite <- app_assoc).
      apply IH; rewrite resolve_template_step; simpl in Hget, Hkeys, Hw;
        destruct (resolve_pair resolved fabric_lookup p) as [e|w] eqn:Ep;
        cbn [fst snd].
      + intros k.
        pose proof (resolve_pair_region_known _ _ _ Ep) as Hmem.
        pose proof (Hget (Some (snd (fst p)))) as Hr. rewrite Hmem in Hr.
        rewrite (@get_append_image _ e _ _ k Hr).
        unfold batch_of at 2. rewrite filter_map_app. cbn [filter_map].
        rewrite Ep. fold (batch_of resolved fabric_lookup k done).
        destruct (ostr_eqb (Some (snd (fst p))) k) eqn:E.
        * apply ostr_eqb_eq in E; subst k. now rewrite Hmem.
        * rewrite Hget. now rewrite app_nil_r.
      + intros k. rewrite Hget.
        unfold batch_of at 2. rewrite filter_map_app. cbn [filter_map].
        rewrite Ep. fold (batch_of resolved fabric_lookup k done).
        destruct (ostr_eqb (Some (snd (fst p))) k); now rewrite app_nil_r.
      + now rewrite keys_append_image.
      + assumption.
      + unfold warnings_of. rewrite filter_map_app. cbn [filter_map].
        rewrite Ep. now rewrite app_nil_r.
      + unfold warnings_of. rewrite filter_map_app. cbn [filter_map].
        rewrite Ep. now rewrite Hw. }
  apply (Hgen (image_pairs images_config) []).
  - intros k. simpl. apply get_empty_batches.
  - simpl. unfold PyDict.keys. rewrite map_map. reflexivity.
  - reflexivity.
Qed.

Lemma in_filter_map (A C : Type) (f : A -> option C) (xs : list A) (y : C) :
  In y (filter_map f xs) <-> exists x, In x xs /\ f x = Some y.
Proof.
  induction xs as [|x xs IH]; simpl.
  - split; [tauto|intros [x [[] _]]].
  - destruct (f x) as [z|] eqn:E; simpl; rewrite IH; split.
    + intros [->|[x' [H1 H2]]]; [exists x; auto|exists x'; auto].
    + intros [x' [[->|H1] H2]]; [left; congruence|right; exists x'; auto].
    + intros [x' [H1 H2]]; exists x'; auto.
    + intros [x' [[->|H1] H2]]; [congruence|exists x'; auto].
Qed.

(** ** The fabric-image lookup *)

(** An identifier found under [(region_id, name)] is the identifier of a
    fabric image of that region with that name. *)
Lemma build_fabric_lookup_sound (fabric_images : list json)
  (region_id name img_id : string) :
  PyDict.get pair_eqb (region_id, name) (build_fabric_lookup fabric_images)
  = Some img_id ->
  exists img, In img fabric_images /\ indexed_as region_id name img
              /\ get_str_or "id" "" img = img_id.
Proof.
  unfold build_fabric_lookup.
  assert (Hgen : forall imgs d,
    PyDict.get pair_eqb (region_id, name)
      (fold_left
         (fun d img =>
            if (negb (get_str_or "name" "" img =? "")
                && negb (get_str_or "id" "" img =? "")
                && negb (linked_region_id img =? ""))%string%bool
            then PyDict.set pair_eqb
                   (linked_region_id img, get_str_or "name" "" img)
                   (get_str_or "id" "" img) d
            else d) imgs d) = Some img_id ->
    PyDict.get pair_eqb (region_id, name) d = Some img_id
    \/ exists img, In img imgs /\ indexed_as region_id name img
                   /\ get_str_or "id" "" img = img_id).
  { induction imgs as [|img imgs IH]; intros d H; simpl in H; [now left|].
    destruct (IH _ H) as [Hd|[x [Hx Hrest]]].
    - destruct (negb (get_str_or "name" "" img =? "")
                && negb (get_str_or "id" "" img =? "")
                && negb (linked_region_id img =? ""))%string%bool eqn:Hc;
        [|now left].
      apply andb_true_iff in Hc. destruct Hc as [Hc Hr].
      apply andb_true_iff in Hc. destruct Hc as [Hn Hi].
      apply negb_true_iff, String.eqb_neq in Hn, Hi, Hr.
      destruct (pair_eqb (region_id, name)
                  (linked_region_id img, get_str_or "name" "" img)) eqn:E.
      + apply pair_eqb_eq in E. inversion E; subst.
        rewrite (@get_set_same _ _ _ pair_eqb_eq) in Hd. inversion Hd; subst.
        right. exists img. unfold indexed_as. simpl. auto 8.
      + rewrite (@get_set_other _ _ _ pair_eqb_eq) in Hd; [now left|].
        intros Heq. rewrite Heq in E.
        assert (pair_eqb (linked_region_id img, get_str_or "name" "" img)
                  (linked_region_id img, get_str_or "name" "" img) = true)
          by now apply pair_eqb_eq.
        congruence.
    - right. exists x. simpl. auto. }
  intros H. destruct (Hgen _ _ H) as [Hd|Hx]; [discriminate|assumption].
Qed.

(** The last image indexed under [(region_id, name)] gives the
    identifier. *)
Lemma build_fabric_lookup_last (before after : list json) (img : json)
  (region_id name : string) :
  indexed_as region_id name img ->
  (forall x, In x after ->
     ~ (linked_region_id x = region_id /\ get_str_or "name" "" x = name)) ->
  PyDict.get pair_eqb (region_id, name)
    (build_fabric_lookup (before ++ img :: after))
  = Some (get_str_or "id" "" img).
Proof.
  intros (Hn & Hr & Hn0 & Hr0 & Hi0) Hafter.
  unfold build_fabric_lookup. rewrite fold_left_app. cbn [fold_left].
  rewrite Hn, Hr.
  apply String.eqb_neq in Hn0, Hr0, Hi0. rewrite Hn0, Hr0, Hi0. cbn [negb andb].
  generalize (fold_left
    (fun d img0 =>
       if (negb (get_str_or "name" "" img0 =? "")
           && negb (get_str_or "id" "" img0 =? "")
           && negb (linked_region_id img0 =? ""))%string%bool
       then PyDict.set pair_eqb
              (linked_region_id img0, get_str_or "name" "" img0)
              (get_str_or "id" "" img0) d
       else d) before []).
  intros d0.
  assert (Hkeep : forall l d,
    (forall x, In x l ->
       ~ (linked_region_id x = region_id /\ get_str_or "name" "" x = name)) ->
    PyDict.get pair_eqb (region_id, name)
      (fold_left
         (fun d img0 =>
            if (negb (get_str_or "name" "" img0 =? "")
                && negb (get_str_or "id" "" img0 =? "")
                && negb (linked_region_id img0 =? ""))%string%bool
            then PyDict.set pair_eqb
                   (linked_region_id img0, get_str_or "name" "" img0)
                   (get_str_or "id" "" img0) d
            else d) l d)
    = PyDict.get pair_eqb (region_id, name) d).
  { induction l as [|x l IH]; intros d Hl; simpl; [reflexivity|].
    rewrite IH by (intros y Hy; apply Hl; now right).
    destruct (negb (get_str_or "name" "" x =? "")
              && negb (get_str_or "id" "" x =? "")
              && negb (linked_region_id x =? ""))%string%bool; [|reflexivity].
    apply (@get_set_other _ _ _ pair_eqb_eq).
    intros Heq. inversion Heq. apply (Hl x); [now left|auto]. }
  rewrite Hkeep by assumption.
  apply (@get_set_same _ _ _ pair_eqb_eq).
Qed.

(** C7: the identifiers in the batch of region [region_name] are
    identifiers of fabric images of that region that carry the template
    name asked for, so an image of the same name in another region is
    never taken for it; and a mapping that names a template of the
    region gets the identifier of that region's image. *)
Theorem fabric_image_resolved_by_region_and_name
  (fabric_images : list json)
  (resolved : PyDict.t (option string) (option string))
  (images_config : list image_cfg) (region_name region_id : string) :
  resolved_id resolved region_name = Some region_id ->
  region_id <> "" ->
  let batches :=
    fst (build_images_by_region resolved (build_fabric_lookup fabric_images)
           images_config) in
  (forall batch e,
     PyDict.get ostr_eqb (Some region_name) batches = Some batch ->
     In e batch ->
     exists img, In img fabric_images
                 /\ get_str_or "name" "" img = ie_template e
                 /\ get_str_or "id" "" img = ie_id e
                 /\ linked_region_id img = region_id)
  /\ (forall before img after mapping_name template_name,
        fabric_images = (before ++ img :: after)%list ->
        indexed_as region_id template_name img ->
        (forall x, In x after ->
           ~ (linked_region_id x = region_id
              /\ get_str_or "name" "" x = template_name)) ->
        In (mapping_name, region_name, template_name)
          (image_pairs images_config) ->
        exists batch,
          PyDict.get ostr_eqb (Some region_name) batches = Some batch
          /\ In {| ie_name := mapping_name; ie_template := template_name;
                   ie_id := get_str_or "id" "" img |} batch).
Proof.
  intros Hres Hne batches.
  destruct (build_images_by_region_spec resolved
              (build_fabric_lookup fabric_images) images_config)
    as (Hget & _ & _).
  fold batches in Hget. specialize (Hget (Some region_name)).
  assert (Hmem : PyDict.mem ostr_eqb (Some region_name) resolved = true).
  { unfold resolved_id in Hres. unfold PyDict.mem.
    destruct (PyDict.get ostr_eqb (Some region_name) resolved);
      [reflexivity|discriminate]. }
  rewrite Hmem in Hget.
  assert (Htruthy : truthy_str (Some region_id) = true).
  { simpl. now apply negb_true_iff, String.eqb_neq. }
  split.
  - intros batch e Hb He. rewrite Hget in Hb. inversion Hb; subst batch.
    unfold batch_of in He. apply in_filter_map in He.
    destruct He as [[[m r] t] [_ Hp]]. cbn [fst snd] in Hp.
    destruct (ostr_eqb (Some r) (Some region_name)) eqn:E; [|discriminate].
    apply ostr_eqb_eq in E. inversion E; subst r.
    unfold resolve_pair in Hp. rewrite Hres, Htruthy in Hp. cbn [py_str] in Hp.
    destruct (PyDict.get pair_eqb (region_id, t)
                (build_fabric_lookup fabric_images)) as [i|] eqn:Hl;
      [|discriminate].
    destruct (truthy_str (Some i)); [|discriminate].
    inversion Hp; subst e. cbn [ie_template ie_id py_str].
    destruct (build_fabric_lookup_sound _ _ _ Hl)
      as [img [Hin [(Hn & Hr & _) Hi]]].
    exists img. auto.
  - intros before img after m t Himgs Hidx Hafter Hpair.
    exists (batch_of resolved (build_fabric_lookup fabric_images)
              (Some region_name) (image_pairs images_config)).
    split; [assumption|].
    unfold batch_of. apply in_filter_map.
    exists (m, region_name, t). split; [assumption|].
    cbn [fst snd]. rewrite ostr_eqb_refl.
    unfold resolve_pair. rewrite Hres, Htruthy. cbn [py_str].
    rewrite Himgs, (@build_fabric_lookup_last before after img region_id t Hidx Hafter).
    destruct Hidx as (_ & _ & _ & _ & Hi).
    simpl truthy_str. apply String.eqb_neq in Hi. rewrite Hi. reflexivity.
Qed.

Lemma fabric_image_resolved_by_region_and_name_witness :
  let batches :=
    fst (build_images_by_region Fixtures.two_regions
           (build_fabric_lookup [Fixtures.ubuntu_r1; Fixtures.ubuntu_r2])
           Fixtures.ubuntu_in_r1) in
  (forall batch e,
     PyDict.get ostr_eqb (Some "R1") batches = Some batch ->
     In e batch ->
     exists img, In img [Fixtures.ubuntu_r1; Fixtures.ubuntu_r2]
                 /\ get_str_or "name" "" img = ie_template e
                 /\ get_str_or "id" "" img = ie_id e
                 /\ linked_region_id img = "r1")
  /\ (forall before img after mapping_name template_name,
        [Fixtures.ubuntu_r1; Fixtures.ubuntu_r2] = (before ++ img :: after)%list ->
        indexed_as "r1" template_name img ->
        (forall x, In x after ->
           ~ (linked_region_id x = "r1"
              /\ get_str_or "name" "" x = template_name)) ->
        In (mapping_name, "R1", template_name)
          (image_pairs Fixtures.ubuntu_in_r1) ->
        exists batch,
          PyDict.get ostr_eqb (Some "R1") batches = Some batch
          /\ In {| ie_name := mapping_name; ie_template := template_name;
                   ie_id := get_str_or "id" "" img |} batch).
Proof.
  apply (@fabric_image_resolved_by_region_and_name
           [Fixtures.ubuntu_r1; Fixtures.ubuntu_r2] Fixtures.two_regions
           Fixtures.ubuntu_in_r1 "R1" "r1");
    [reflexivity|discriminate].
Defined.

(** The scenario of the two images named [ubuntu-22]: the batch of R1
    holds the identifier of R1's image, the batch of R2 stays empty. *)
Example ubuntu_batches :
  fst (build_images_by_region Fixtures.two_regions
         (build_fabric_lookup [Fixtures.ubuntu_r1; Fixtures.ubuntu_r2])
         Fixtures.ubuntu_in_r1)
  = [(Some "R1", [{| ie_name := Some "ubuntu"; ie_template := "ubuntu-22";
                     ie_id := "img-r1" |}]);
     (Some "R2", [])].
Proof. vm_compute. reflexivity. Qed.

(** ** Runs of the commands *)

Lemma nonempty_match (A C : Type) (l : list A) (x y : C) :
  l <> [] -> match l with [] => x | _ :: _ => y end = y.
Proof. destruct l; [congruence|reflexivity]. Qed.

Lemma sent_app (l1 l2 : list event) : sent (l1 ++ l2) = (sent l1 ++ sent l2)%list.
Proof. apply filter_map_app. Qed.

Lemma printed_app (l1 l2 : list event) :
  printed (l1 ++ l2) = (printed l1 ++ printed l2)%list.
Proof. apply filter_map_app. Qed.

Lemma planned_app (l1 l2 : list event) :
  planned (l1 ++ l2) = (planned l1 ++ planned l2)%list.
Proof. unfold planned. now rewrite printed_app, filter_app. Qed.

Lemma sent_prints (ls : list line) : sent (map Print ls) = [].
Proof. induction ls; simpl; auto. Qed.


Lemma keys_set_In (K V : Type) (eqb : K -> K -> bool)
  (k k' : K) (v : V) (d : PyDict.t K V) :
  In k' (PyDict.keys (PyDict.set eqb k v d)) ->
  k' = k \/ In k' (PyDict.keys d).
Proof.
  unfold PyDict.keys. induction d as [|[k0 v0] d IH]; simpl.
  - intros [H|[]]; auto.
  - destruct (eqb k k0); simpl; intros [H|H]; auto.
    destruct (IH H); auto.
Qed.

Lemma NoDup_keys_set (K V : Type) (eqb : K -> K -> bool)
  (eqb_eq : forall a b, eqb a b = true <-> a = b)
  (k : K) (v : V) (d : PyDict.t K V) :
  NoDup (PyDict.keys d) -> NoDup (PyDict.keys (PyDict.set eqb k v d)).
Proof.
  induction d as [|[k' v'] d IH]; simpl; intros H.
  - constructor; [intros []|constructor].
  - inversion H as [|? ? Hnot Hd]; subst.
    destruct (eqb k k') eqn:E; simpl.
    + apply eqb_eq in E; subst. now constructor.
    + constructor; [|now apply IH].
      intros Hin. apply keys_set_In in Hin. destruct Hin as [Heq|Hin].
      * subst k'. rewrite (proj2 (eqb_eq k k) eq_refl) in E. discriminate.
      * now apply Hnot.
Qed.

Section RunFacts.
Variable B : Type.
Variable client : AriaClient B.


(** Region resolution only reads and prints; the names it resolves are
    distinct. *)
Lemma resolve_regions_run (fuel : nat) (cfg : config) (b : B)
  (lg : list event) (resolved : PyDict.t (option string) (option string))
  (w1 : world B) :
  resolve_regions client fuel cfg (World b lg) = Some (resolved, w1) ->
  exists delta,
    w1 = World b (lg ++ delta)%list
    /\ sent delta = [] /\ planned delta = [] /\ warnings_in delta = []
    /\ NoDup (PyDict.keys resolved).
Proof.
  unfold resolve_regions, bind, get_regions.
  destruct (_get_paginated client fuel "/iaas/api/regions" (World b lg))
    as [[api_regions w0]|] eqn:Hget; [|discriminate].
  apply get_paginated_pure in Hget. subst w0.
  generalize (region_lookup_of api_regions). intros lookup.
  assert (Hloop : forall crs acc lg0 out w',
    NoDup (PyDict.keys acc) ->
    for_each
      (fun cr acc0 =>
         match PyDict.get ostr_eqb (rc_name cr) lookup with
         | Some rid => ret (PyDict.set ostr_eqb (rc_name cr) rid acc0)
         | None =>
             bind (print (RegionNotFound (rc_name cr)))
               (fun _ => ret acc0)
         end) crs acc (World b lg0) = Some (out, w') ->
    exists delta,
      w' = World b (lg0 ++ delta)%list
      /\ sent delta = [] /\ planned delta = [] /\ warnings_in delta = []
      /\ NoDup (PyDict.keys out)).
  { induction crs as [|cr crs IH]; intros acc lg0 out w' Hnd H; simpl in H.
    - unfold ret in H. inversion H; subst. exists []. rewrite app_nil_r. auto.
    - unfold bind in H.
      destruct (PyDict.get ostr_eqb (rc_name cr) lookup) as [rid|].
      + unfold ret in H at 1. apply IH in H; [assumption|].
        apply NoDup_keys_set; [apply ostr_eqb_eq|assumption].
      + unfold print in H at 1. unfold ret in H at 1. cbn [backend log] in H.
        apply IH in H; [|assumption].
        destruct H as (delta & -> & Hs & Hp & Hw & Hn).
        exists (Print (RegionNotFound (rc_name cr)) :: delta).
        rewrite <- app_assoc. simpl. auto. }
  intros H. apply Hloop in H; [assumption|constructor].
Qed.
End RunFacts.

(** ** Flavors *)




Section FlavorRuns.
Variable B : Type.
Variable client : AriaClient B.

Lemma bind_eq (A C : Type) (m : M B A) (f : A -> M B C) (w w' : world B) (a : A) :
  m w = Some (a, w') -> bind m f w = f a w'.
Proof. unfold bind. now intros ->. Qed.

Lemma bind_print (C : Type) (l : line) (f : unit -> M B C) (b : B)
  (lg : list event) :
  bind (print l) f (World b lg) = f tt (World b (lg ++ [Print l])%list).
Proof. reflexivity. Qed.

Lemma bind_ret (A C : Type) (a : A) (f : A -> M B C) (w : world B) :
  bind (ret a) f w = f a w.
Proof. reflexivity. Qed.

Lemma bind_assoc (A C D : Type) (m : M B A) (f : A -> M B C)
  (g : C -> M B D) (w : world B) :
  bind (bind m f) g w = bind m (fun a => bind (f a) g) w.
Proof. unfold bind. now destruct (m w) as [[a w']|]. Qed.

Lemma http_send_eq (r : request) (b : B) (lg : list event) :
  http_send client r (World b lg)
  = Some (snd (session_send client b r),
          World (fst (session_send client b r)) (lg ++ [Send r])%list).
Proof.
  unfold http_send. cbn [backend log].
  now destruct (session_send client b r).
Qed.

Lemma create_flavor_profile_eq (profile_name description : string)
  (region_id : option string) (fs : list flavor) (b : B) (lg : list event) :
  let r := flavor_profile_request client profile_name description region_id fs in
  create_flavor_profile client profile_name description region_id fs (World b lg)
  = Some (created_result (snd (session_send client b r)),
          World (fst (session_send client b r)) (lg ++ [Send r])%list).
Proof.
  intros r. unfold create_flavor_profile.
  now rewrite (@bind_eq _ _ _ _ _ _ _ (http_send_eq r b lg)).
Qed.

End FlavorRuns.

(** Runs the first command of a sequence with its known result. *)
Ltac run H := erewrite bind_eq by exact H; cbv beta.



(** ** Images *)


(** A dictionary with distinct keys is the list of its keys with their
    values. *)
Lemma dict_by_keys (K V : Type) (eqb : K -> K -> bool)
  (eqb_eq : forall a b, eqb a b = true <-> a = b)
  (d : PyDict.t K V) (f : K -> V) :
  NoDup (PyDict.keys d) ->
  (forall k, In k (PyDict.keys d) -> PyDict.get eqb k d = Some (f k)) ->
  d = map (fun k => (k, f k)) (PyDict.keys d).
Proof.
  induction d as [|[k v] d IH]; simpl; intros Hnd Hget; [reflexivity|].
  inversion Hnd as [|? ? Hnot Hrest]; subst.
  pose proof (Hget k (or_introl eq_refl)) as Hk.
  rewrite (proj2 (eqb_eq k k) eq_refl) in Hk. inversion Hk; subst v.
  f_equal. apply IH; [assumption|].
  intros k' Hk'. specialize (Hget k' (or_intror Hk')).
  destruct (eqb k' k) eqn:E; [|assumption].
  apply eqb_eq in E; subst k'. contradiction.
Qed.

Lemma get_of_In (K V : Type) (eqb : K -> K -> bool)
  (eqb_eq : forall a b, eqb a b = true <-> a = b)
  (d : PyDict.t K V) (k : K) (v : V) :
  NoDup (PyDict.keys d) -> In (k, v) d -> PyDict.get eqb k d = Some v.
Proof.
  induction d as [|[k0 v0] d IH]; simpl; intros Hnd Hin; [destruct Hin|].
  inversion Hnd as [|? ? Hnot Hrest]; subst.
  destruct Hin as [Heq|Hin].
  - inversion Heq; subst. now rewrite (proj2 (eqb_eq k k) eq_refl).
  - destruct (eqb k k0) eqn:E; [|now apply IH].
    apply eqb_eq in E; subst k0. exfalso. apply Hnot.
    unfold PyDict.keys. apply in_map_iff. exists (k, v). auto.
Qed.




Section ImageRuns.
Variable B : Type.
Variable client : AriaClient B.


End ImageRuns.



(** ** Tags *)

Section TagRuns.
Variable B : Type.
Variable client : AriaClient B.

Lemma same_reads_refl (b : B) : same_reads client b b.
Proof. intros url. reflexivity. Qed.

Lemma same_reads_trans (b1 b2 b3 : B) :
  same_reads client b1 b2 -> same_reads client b2 b3 ->
  same_reads client b1 b3.
Proof. intros H12 H23 url. now rewrite H23, H12. Qed.


Lemma get_first_page_at (path : string) (b : B) (lg : list event) :
  get_first_page client path (World b lg)
  = Some (first_page_at client b path, World b lg).
Proof. rewrite get_first_page_eq. reflexivity. Qed.

Lemma listing_eq (k : kind) (b : B) (lg : list event) :
  listing client k (World b lg)
  = Some (first_page_at client b (listing_path k), World b lg).
Proof. destruct k; apply get_first_page_at. Qed.

Lemma update_tags_eq (k : kind) (doc : json) (tags : list tag) (b : B)
  (lg : list event) :
  let r := tag_request client k doc tags in
  update_tags client k doc tags (World b lg)
  = Some (updated_result (snd (session_send client b r)),
          World (fst (session_send client b r)) (lg ++ [Send r])%list).
Proof.
  intros r. subst r.
  destruct k; unfold update_tags, tag_request, update_cloud_zone_tags,
    update_network_profile_tags, update_fabric_compute_tags;
    erewrite bind_eq by apply http_send_eq; reflexivity.
Qed.

(** What one configured resource does, verdict by verdict. *)
Lemma process_tagged_absent (k : kind) (dry_run : bool)
  (lookup : PyDict.t (option string) json) (e : tagged_cfg)
  (results : tag_results) (b : B) (lg : list event) :
  tag_verdict lookup e = Absent ->
  process_tagged client k dry_run lookup e results (World b lg)
  = Some (add_skipped results,
          World b (lg ++ [Print (NotFound k (tc_name e))])%list).
Proof.
  unfold tag_verdict, process_tagged.
  destruct (find_doc lookup (tc_name e)) as [doc|]; [|reflexivity].
  destruct (tags_match (get_tags doc) (tc_tags e)); discriminate.
Qed.

Lemma process_tagged_converged (k : kind) (dry_run : bool)
  (lookup : PyDict.t (option string) json) (e : tagged_cfg)
  (results : tag_results) (b : B) (lg : list event) :
  tag_verdict lookup e = Converged ->
  process_tagged client k dry_run lookup e results (World b lg)
  = Some (results, World b (lg ++ [Print (NoChange (tc_name e))])%list).
Proof.
  unfold tag_verdict, process_tagged.
  destruct (find_doc lookup (tc_name e)) as [doc|]; [|discriminate].
  destruct (tags_match (get_tags doc) (tc_tags e)); [reflexivity|discriminate].
Qed.

Lemma process_tagged_simulated (k : kind)
  (lookup : PyDict.t (option string) json) (e : tagged_cfg) (doc : json)
  (results : tag_results) (b : B) (lg : list event) :
  tag_verdict lookup e = NeedsUpdate doc ->
  process_tagged client k true lookup e results (World b lg)
  = Some (results, World b (lg ++ [Print (update_line (k, doc, e))])%list).
Proof.
  unfold tag_verdict, process_tagged.
  destruct (find_doc lookup (tc_name e)) as [doc'|]; [|discriminate].
  destruct (tags_match (get_tags doc') (tc_tags e)); [discriminate|].
  intros H; inversion H; subst. reflexivity.
Qed.

Lemma process_tagged_applied (k : kind)
  (lookup : PyDict.t (option string) json) (e : tagged_cfg) (doc : json)
  (results : tag_results) (b : B) (lg : list event) :
  tag_verdict lookup e = NeedsUpdate doc ->
  let r := update_request client (k, doc, e) in
  let answer := updated_result (snd (session_send client b r)) in
  process_tagged client k false lookup e results (World b lg)
  = Some (if fst answer then add_updated results else add_failed results,
          World (fst (session_send client b r))
            (lg ++ [Send r;
                    Print (if fst answer
                           then Updated (tc_name e) (tag_str (tc_tags e))
                           else Failed (tc_name e) (snd answer))])%list).
Proof.
  intros Hv r answer. unfold tag_verdict in Hv. unfold process_tagged.
  destruct (find_doc lookup (tc_name e)) as [doc'|]; [|discriminate].
  destruct (tags_match (get_tags doc') (tc_tags e)); [discriminate|].
  inversion Hv; subst doc'.
  erewrite bind_eq by apply update_tags_eq. cbv beta.
  subst answer r. unfold update_request. cbn [fst snd].
  destruct (fst (updated_result
                   (snd (session_send client b
                           (tag_request client k doc (tc_tags e))))));
    rewrite bind_print; unfold ret; now rewrite <- app_assoc.
Qed.
End TagRuns.

Lemma count_lines_app (p : line -> bool) (l1 l2 : list event) :
  count_lines p (l1 ++ l2) = (count_lines p l1 + count_lines p l2)%nat.
Proof.
  unfold count_lines. now rewrite printed_app, filter_app, length_app.
Qed.

Lemma count_lines_print (p : line -> bool) (l : line) (d : list event) :
  count_lines p (Print l :: d)
  = ((if p l then 1 else 0) + count_lines p d)%nat.
Proof. unfold count_lines. cbn [printed filter_map filter]. now destruct (p l). Qed.

Lemma count_lines_send (p : line -> bool) (r : request) (d : list event) :
  count_lines p (Send r :: d) = count_lines p d.
Proof. reflexivity. Qed.

Lemma sent_print (l : line) (d : list event) : sent (Print l :: d) = sent d.
Proof. reflexivity. Qed.

Lemma sent_send (r : request) (d : list event) : sent (Send r :: d) = r :: sent d.
Proof. reflexivity. Qed.

Ltac count_lines_arith :=
  repeat first [rewrite count_lines_print in * | rewrite count_lines_send in *
               | rewrite sent_print in * | rewrite sent_send in *];
  unfold update_line in *; cbn [is_not_found is_no_change] in *;
  cbn [List.length map] in *; lia.

Section TagLoops.
Variable B : Type.
Variable client : AriaClient B.

Lemma add_skipped_counts (r : tag_results) :
  skipped (add_skipped r) = S (skipped r)
  /\ updated (add_skipped r) = updated r /\ failed (add_skipped r) = failed r.
Proof. auto. Qed.

Lemma add_updated_counts (r : tag_results) :
  skipped (add_updated r) = skipped r
  /\ updated (add_updated r) = S (updated r) /\ failed (add_updated r) = failed r.
Proof. auto. Qed.

Lemma add_failed_counts (r : tag_results) :
  skipped (add_failed r) = skipped r
  /\ updated (add_failed r) = updated r /\ failed (add_failed r) = S (failed r).
Proof. auto. Qed.

(** The loop over the entries of one kind: what it prints and sends,
    where it leaves the backend, and what it counts. *)
Lemma tagged_loop (k : kind) (dry_run : bool)
  (lookup : PyDict.t (option string) json) (entries : list tagged_cfg) :
  forall (results : tag_results) (b : B) (lg : list event),
  exists results' b' delta,
    for_each (process_tagged client k dry_run lookup) entries results
      (World b lg)
    = Some (results', World b' (lg ++ delta)%list)
    /\ planned delta
       = (if dry_run then map update_line (planned_updates k lookup entries)
          else [])
    /\ sent delta
       = (if dry_run then []
          else map (update_request client) (planned_updates k lookup entries))
    /\ (sent delta = [] -> b' = b)
    /\ (fixed_state client -> same_reads client b b')
    /\ skipped results' = (skipped results + count_lines is_not_found delta)%nat
    /\ (updated results' + failed results'
        = updated results + failed results + List.length (sent delta))%nat
    /\ (count_lines is_not_found delta + count_lines is_no_change delta
        + List.length (planned_updates k lookup entries)
        = List.length entries)%nat.
Proof.
  induction entries as [|e entries IH]; intros results b lg.
  - exists results, b, []. cbn [for_each]. unfold ret. rewrite app_nil_r.
    repeat apply conj; try (destruct dry_run; reflexivity);
      try (unfold count_lines; simpl; lia); try reflexivity.
    intros _. apply same_reads_refl.
  - cbn [for_each]. unfold planned_updates. cbn [filter_map].
    fold (planned_updates k lookup entries).
    destruct (tag_verdict lookup e) as [| |doc] eqn:Hv.
    + erewrite bind_eq by (apply process_tagged_absent; exact Hv).
      destruct (IH (add_skipped results) b
                  (lg ++ [Print (NotFound k (tc_name e))])%list)
        as (r' & b' & delta & Heq & Hp & Hs & Hb & Hr & Hsk & Hup & Hn).
      destruct (add_skipped_counts results) as (E1 & E2 & E3).
      rewrite E1 in Hsk. rewrite E2, E3 in Hup.
      exists r', b', (Print (NotFound k (tc_name e)) :: delta).
      split; [etransitivity; [exact Heq|now rewrite <- app_assoc]|].
      repeat apply conj; try assumption; count_lines_arith.
    + erewrite bind_eq by (apply process_tagged_converged; exact Hv).
      destruct (IH results b (lg ++ [Print (NoChange (tc_name e))])%list)
        as (r' & b' & delta & Heq & Hp & Hs & Hb & Hr & Hsk & Hup & Hn).
      exists r', b', (Print (NoChange (tc_name e)) :: delta).
      split; [etransitivity; [exact Heq|now rewrite <- app_assoc]|].
      repeat apply conj; try assumption; count_lines_arith.
    + destruct dry_run.
      * erewrite bind_eq by (apply process_tagged_simulated; exact Hv).
        destruct (IH results b (lg ++ [Print (update_line (k, doc, e))])%list)
          as (r' & b' & delta & Heq & Hp & Hs & Hb & Hr & Hsk & Hup & Hn).
        exists r', b', (Print (update_line (k, doc, e)) :: delta).
        split; [etransitivity; [exact Heq|now rewrite <- app_assoc]|].
        repeat apply conj; try assumption; try count_lines_arith.
        change (planned (Print (update_line (k, doc, e)) :: delta))
          with (update_line (k, doc, e) :: planned delta).
        now rewrite Hp.
      * erewrite bind_eq by (apply process_tagged_applied; exact Hv).
        cbv beta zeta.
        set (r := update_request client (k, doc, e)).
        set (answer := updated_result (snd (session_send client b r))).
        destruct (IH (if fst answer then add_updated results
                      else add_failed results)
                    (fst (session_send client b r))
                    (lg ++ [Send r;
                            Print (if fst answer
                                   then Updated (tc_name e) (tag_str (tc_tags e))
                                   else Failed (tc_name e) (snd answer))])%list)
          as (r' & b' & delta & Heq & Hp & Hs & Hb & Hr & Hsk & Hup & Hn).
        destruct (add_updated_counts results) as (U1 & U2 & U3).
        destruct (add_failed_counts results) as (F1 & F2 & F3).
        exists r', b',
          (Send r
           :: Print (if fst answer
                     then Updated (tc_name e) (tag_str (tc_tags e))
                     else Failed (tc_name e) (snd answer)) :: delta).
        split; [etransitivity; [exact Heq|now rewrite <- app_assoc]|].
        repeat apply conj.
        -- destruct (fst answer); exact Hp.
        -- rewrite sent_send, sent_print. cbn [map]. now rewrite Hs.
        -- rewrite sent_send. discriminate.
        -- intros Hfix. eapply same_reads_trans; [apply Hfix|now apply Hr].
        -- destruct (fst answer);
             [rewrite U1 in Hsk|rewrite F1 in Hsk]; count_lines_arith.
        -- destruct (fst answer);
             [rewrite U2, U3 in Hup|rewrite F2, F3 in Hup]; count_lines_arith.
        -- destruct (fst answer); count_lines_arith.
Qed.
End TagLoops.

Section TagSections.
Variable B : Type.
Variable client : AriaClient B.

(** One section: the listing is read once, in the state the section
    starts in. *)
Lemma section_run (k : kind) (dry_run : bool) (entries : list tagged_cfg)
  (results : tag_results) (b : B) (lg : list event) :
  exists results' b' delta,
    process_section client k dry_run entries results (World b lg)
    = Some (results', World b' (lg ++ delta)%list)
    /\ planned delta
       = (if dry_run
          then map update_line (section_updates client b k entries) else [])
    /\ sent delta
       = (if dry_run then []
          else map (update_request client) (section_updates client b k entries))
    /\ (sent delta = [] -> b' = b)
    /\ (fixed_state client -> same_reads client b b')
    /\ skipped results' = (skipped results + count_lines is_not_found delta)%nat
    /\ (updated results' + failed results'
        = updated results + failed results + List.length (sent delta))%nat
    /\ (count_lines is_not_found delta + count_lines is_no_change delta
        + List.length (section_updates client b k entries)
        = List.length entries)%nat.
Proof.
  unfold process_section, section_updates.
  destruct entries as [|e entries].
  - exists results, b, []. unfold ret. rewrite app_nil_r.
    repeat apply conj; try (destruct dry_run; reflexivity);
      try (unfold count_lines; simpl; lia); try reflexivity.
    intros _. apply same_reads_refl.
  - erewrite bind_eq by apply listing_eq. cbv beta.
    apply tagged_loop.
Qed.

(** The three sections in a row; [b1] and [b2] are the states in which
    the second and the third section start. *)
Lemma tag_sections_run (tags_config : tags_cfg) (dry_run : bool) (b : B)
  (lg : list event) :
  exists results b1 b2 b' delta,
    let updates :=
      (section_updates client b CloudZone
         (list_or_nil (cloud_zones tags_config))
       ++ section_updates client b1 NetworkProfile
            (list_or_nil (network_profiles tags_config))
       ++ section_updates client b2 Compute
            (list_or_nil (compute tags_config)))%list in
    process_tag_sections client tags_config dry_run (World b lg)
    = Some (results, World b' (lg ++ delta)%list)
    /\ planned delta = (if dry_run then map update_line updates else [])
    /\ sent delta
       = (if dry_run then [] else map (update_request client) updates)
    /\ (sent delta = [] -> b1 = b /\ b2 = b /\ b' = b)
    /\ (fixed_state client ->
        same_reads client b b1 /\ same_reads client b b2
        /\ same_reads client b b')
    /\ skipped results = count_lines is_not_found delta
    /\ (updated results + failed results = List.length (sent delta))%nat
    /\ (count_lines is_not_found delta + count_lines is_no_change delta
        + List.length updates
        = configured tags_config)%nat.
Proof.
  unfold process_tag_sections, configured.
  destruct (section_run CloudZone dry_run
              (list_or_nil (cloud_zones tags_config)) no_results b lg)
    as (r1 & b1 & d1 & E1 & P1 & S1 & B1 & R1 & K1 & U1 & N1).
  destruct (section_run NetworkProfile dry_run
              (list_or_nil (network_profiles tags_config)) r1 b1 (lg ++ d1)%list)
    as (r2 & b2 & d2 & E2 & P2 & S2 & B2 & R2 & K2 & U2 & N2).
  destruct (section_run Compute dry_run
              (list_or_nil (compute tags_config)) r2 b2 ((lg ++ d1) ++ d2)%list)
    as (r3 & b3 & d3 & E3 & P3 & S3 & B3 & R3 & K3 & U3 & N3).
  exists r3, b1, b2, b3, (d1 ++ d2 ++ d3)%list. cbv zeta.
  split.
  { run E1. run E2. etransitivity; [exact E3|].
    now rewrite !app_assoc. }
  repeat apply conj.
  - rewrite !planned_app, P1, P2, P3.
    destruct dry_run; [now rewrite !map_app|reflexivity].
  - rewrite !sent_app, S1, S2, S3.
    destruct dry_run; [reflexivity|now rewrite !map_app].
  - rewrite !sent_app. intros H.
    apply app_eq_nil in H. destruct H as [H1 H23].
    apply app_eq_nil in H23. destruct H23 as [H2 H3].
    specialize (B1 H1). subst b1. specialize (B2 H2). subst b2.
    specialize (B3 H3). subst b3. auto.
  - intros Hfix. specialize (R1 Hfix). specialize (R2 Hfix).
    specialize (R3 Hfix).
    assert (R12 := same_reads_trans R1 R2).
    assert (R13 := same_reads_trans R12 R3). auto.
  - rewrite K3, K2, K1. rewrite !count_lines_app. simpl. lia.
  - rewrite U3, U2, U1. rewrite !sent_app, !length_app. simpl. lia.
  - rewrite !count_lines_app, !length_app. lia.
Qed.
End TagSections.

(** C10: in execute mode the summary counts a resource only when it is
    not found (skipped) or when a write was attempted for it (updated or
    failed); a resource whose tags already match leaves the three
    counters as they are.  So the three counters and the number of
    "no change" lines add up to the number of configured resources, and
    the counters alone fall short of it by the converged resources. *)
Theorem converged_resources_are_uncounted (B : Type) (client : AriaClient B)
  (cfg : config) (b : B) (lg : list event) :
  tags_cfg_empty (tags cfg) = false ->
  (exists u f s b' delta,
     cmd_process_tags client cfg false (World b lg)
     = Some (Return 0,
             World b' ((lg ++ delta) ++ [Print (TagSummary u f s)])%list)
     /\ s = count_lines is_not_found delta
     /\ (u + f = List.length (sent delta))%nat
     /\ (u + f + s + count_lines is_no_change delta
         = configured (tags cfg))%nat)
  /\ (forall k lookup e results b0 lg0,
        tag_verdict lookup e = Converged ->
        process_tagged client k false lookup e results (World b0 lg0)
        = Some (results,
                World b0 (lg0 ++ [Print (NoChange (tc_name e))])%list)).
Proof.
  intros Hcfg. split.
  - destruct (tag_sections_run client (tags cfg) false b lg)
      as (r & b1 & b2 & b' & delta & E & _ & S & _ & _ & K & U & N).
    cbv zeta in *.
    exists (updated r), (failed r), (skipped r), b', delta.
    split.
    + unfold cmd_process_tags. rewrite Hcfg. run E. now rewrite bind_print.
    + repeat apply conj; try assumption.
      rewrite S, length_map in U. lia.
  - intros k lookup e results b0 lg0 Hv.
    now apply process_tagged_converged.
Qed.

Lemma converged_resources_are_uncounted_witness :
  (exists u f s b' delta,
     cmd_process_tags Fixtures.demo Fixtures.tagging false (World [] [])
     = Some (Return 0,
             World b' (([] ++ delta) ++ [Print (TagSummary u f s)])%list)
     /\ s = count_lines is_not_found delta
     /\ (u + f = List.length (sent delta))%nat
     /\ (u + f + s + count_lines is_no_change delta
         = configured (tags Fixtures.tagging))%nat)
  /\ (forall k lookup e results b0 lg0,
        tag_verdict lookup e = Converged ->
        process_tagged Fixtures.demo k false lookup e results (World b0 lg0)
        = Some (results,
                World b0 (lg0 ++ [Print (NoChange (tc_name e))])%list)).
Proof.
  apply (@converged_resources_are_uncounted _ Fixtures.demo Fixtures.tagging
           [] []).
  reflexivity.
Defined.

(** Four resources are configured; two of them are converged, and the
    summary counts the two others: one updated, one skipped. *)
Example tagging_summary :
  cmd_process_tags Fixtures.demo Fixtures.tagging false Fixtures.start
  = Some (Return 0,
          World
            [cloud_zone_request Fixtures.demo (Some "z-2") [Tag "env" "test"]
               (Fixtures.tagged "zone-b" "z-2" [])]
            [Print (NoChange (Some "zone-a"));
             Send (cloud_zone_request Fixtures.demo (Some "z-2")
                     [Tag "env" "test"] (Fixtures.tagged "zone-b" "z-2" []));
             Print (Updated (Some "zone-b") "env:test");
             Print (NotFound CloudZone (Some "zone-c"));
             Print (NoChange (Some "net-a"));
             Print (TagSummary 1 0 1)])
  /\ configured (tags Fixtures.tagging) = 4%nat.
Proof. split; vm_compute; reflexivity. Qed.

(** ** main *)

Section MainRuns.
Variable B : Type.
Variable client : AriaClient B.




End MainRuns.




(** ** Storage profiles *)

Section StorageRuns.
Variable B : Type.
Variable client : AriaClient B.

Lemma detail_eq (profile_id : option string) (b : B) (lg : list event) :
  get_storage_profile_detail client profile_id (World b lg)
  = Some (detail_at client b profile_id, World b lg).
Proof.
  unfold get_storage_profile_detail, detail_at, bind, http_get, ret.
  cbn [backend]. now destruct (status_code _ =? 200)%Z.
Qed.


Lemma update_storage_profile_tags_eq (profile_id : option string)
  (tags : list tag) (profile : json) (compute_id : option string) (b : B)
  (lg : list event) :
  let r := storage_update_request client profile_id tags profile compute_id in
  update_storage_profile_tags client profile_id tags profile compute_id
    (World b lg)
  = Some (updated_result (snd (session_send client b r)),
          World (fst (session_send client b r)) (lg ++ [Send r])%list).
Proof.
  intros r. unfold update_storage_profile_tags.
  erewrite bind_eq by apply http_send_eq. reflexivity.
Qed.

Lemma create_storage_profile_eq (name : option string) (description : string)
  (region_id : option string) (tags : list tag) (provisioning_type : string)
  (default_item : bool) (compute_id : option string) (b : B)
  (lg : list event) :
  let r := storage_create_request client name description region_id tags
             provisioning_type default_item compute_id in
  create_storage_profile client name description region_id tags
    provisioning_type default_item compute_id (World b lg)
  = Some (created_result (snd (session_send client b r)),
          World (fst (session_send client b r)) (lg ++ [Send r])%list).
Proof.
  intros r. unfold create_storage_profile.
  erewrite bind_eq by apply http_send_eq. reflexivity.
Qed.

(** One configured storage profile: simulate mode announces the planned
    operation, apply mode sends its request; nothing else is announced
    or sent. *)
Lemma storage_step (dry_run : bool)
  (storage_lookup : PyDict.t (option string) json)
  (region_lookup compute_lookup : PyDict.t (option string) (option string))
  (sp : storage_cfg) (results : storage_results) (b : B) (lg : list event) :
  let plan :=
    storage_plan_of client b storage_lookup region_lookup compute_lookup sp in
  exists results' b' delta,
    process_storage_profile client dry_run storage_lookup region_lookup
      compute_lookup sp results (World b lg)
    = Some (results', World b' (lg ++ delta)%list)
    /\ planned delta
       = (if dry_run then opt_list (option_map (storage_line sp) plan) else [])
    /\ sent delta
       = (if dry_run then []
          else opt_list (option_map (storage_request client sp) plan))
    /\ (sent delta = [] -> b' = b)
    /\ (fixed_state client -> same_reads client b b').
Proof.
  intros plan. subst plan.
  unfold process_storage_profile, storage_plan_of.
  set (compute_id := resolve_compute compute_lookup (sp_compute sp)).
  assert (Hrest : forall lg0,
    exists results' b' delta,
      match find_doc storage_lookup (sp_name sp) with
      | Some profile_summary =>
          bind (get_storage_profile_detail client (get_str "id" profile_summary))
            (fun profile =>
               if negb (truthy profile)
               then bind (print (FailedDetails (sp_name sp)))
                      (fun _ => ret (s_add_failed results))
               else
                 let tags_equal := tags_match (get_tags profile) (sp_tags sp) in
                 let matches := compute_matches profile compute_id in
                 if (tags_equal && matches)%bool
                 then bind (print (StorageNoChange (sp_name sp)
                                     (if truthy_str (sp_compute sp)
                                      then " (compute: "
                                           ++ py_str (sp_compute sp) ++ ")"
                                      else "")))
                        (fun _ => ret results)
                 else
                   let profile_id := get_str "id" profile_summary in
                   let changes :=
                     changes_text (negb tags_equal) (negb matches)
                       (sp_tags sp) (sp_compute sp) in
                   if dry_run
                   then bind (print (WouldUpdateStorage (sp_name sp) changes))
                          (fun _ => ret results)
                   else
                     bind (update_storage_profile_tags client profile_id
                             (sp_tags sp) profile compute_id)
                       (fun r =>
                          if fst r
                          then bind (print (UpdatedStorage (sp_name sp) changes))
                                 (fun _ => ret (s_add_updated results))
                          else bind (print (Failed (sp_name sp) (snd r)))
                                 (fun _ => ret (s_add_failed results))))
      | None =>
          if sp_create sp then
            let region_name := sp_region sp in
            let description :=
              str_or (py_str (sp_name sp) ++ " storage profile")
                (sp_description sp) in
            let provisioning_type := str_or "thin" (sp_provisioning_type sp) in
            let default_item := sp_default sp in
            let region_id :=
              match PyDict.get ostr_eqb region_name region_lookup with
              | Some rid => rid
              | None => None
              end in
            if negb (truthy_str region_id)
            then bind (print (CannotCreate (sp_name sp) region_name))
                   (fun _ => ret (s_add_skipped results))
            else
              let compute_info :=
                if truthy_str (sp_compute sp)
                then " bound to " ++ py_str (sp_compute sp) else "" in
              if dry_run
              then bind (print (WouldCreateStorage (sp_name sp) region_name
                                  compute_info (tag_str (sp_tags sp))))
                     (fun _ => ret results)
              else
                bind (create_storage_profile client (sp_name sp) description
                        region_id (sp_tags sp) provisioning_type default_item
                        compute_id)
                  (fun r =>
                     if fst r
                     then bind (print (CreatedStorage (sp_name sp) region_name
                                         compute_info (tag_str (sp_tags sp))))
                            (fun _ => ret (s_add_created results))
                     else bind (print (FailedCreate (sp_name sp) (snd r)))
                            (fun _ => ret (s_add_failed results)))
          else bind (print (NotFoundNoCreate (sp_name sp)))
                 (fun _ => ret (s_add_skipped results))
      end (World b lg0)
      = Some (results', World b' (lg0 ++ delta)%list)
      /\ planned delta
         = (if dry_run
            then opt_list
                   (option_map (storage_line sp)
                      (storage_plan_of client b storage_lookup region_lookup
                         compute_lookup sp))
            else [])
      /\ sent delta
         = (if dry_run then []
            else opt_list
                   (option_map (storage_request client sp)
                      (storage_plan_of client b storage_lookup region_lookup
                         compute_lookup sp)))
      /\ (sent delta = [] -> b' = b)
      /\ (fixed_state client -> same_reads client b b')).
  { intros lg0. unfold storage_plan_of. fold compute_id.
    destruct (find_doc storage_lookup (sp_name sp)) as [summary|].
    - erewrite bind_eq by apply detail_eq. cbv beta zeta.
      set (profile := detail_at client b (get_str "id" summary)).
      destruct (negb (truthy profile)).
      + rewrite bind_print. unfold ret.
        exists (s_add_failed results), b, [Print (FailedDetails (sp_name sp))].
        repeat apply conj; try (destruct dry_run; reflexivity);
          try reflexivity.
        intros _. apply same_reads_refl.
      + destruct (tags_match (get_tags profile) (sp_tags sp)
                  && compute_matches profile compute_id)%bool.
        * rewrite bind_print. unfold ret.
          eexists results, b, [Print _].
          repeat apply conj; try (destruct dry_run; reflexivity);
            try reflexivity.
          intros _. apply same_reads_refl.
        * destruct dry_run.
          -- rewrite bind_print. unfold ret.
             eexists results, b, [Print _].
             repeat apply conj; try reflexivity.
             intros _. apply same_reads_refl.
          -- erewrite bind_eq by apply update_storage_profile_tags_eq.
             cbv beta zeta.
             set (r := storage_update_request client (get_str "id" summary)
                         (sp_tags sp) profile compute_id).
             destruct (fst (updated_result (snd (session_send client b r))));
               rewrite bind_print; unfold ret; rewrite <- app_assoc;
               eexists _, (fst (session_send client b r)), [Send r; Print _];
               (repeat apply conj;
                [reflexivity|reflexivity|reflexivity|discriminate
                |intros Hfix; apply Hfix]).
    - destruct (sp_create sp).
      + cbv zeta.
        destruct (negb (truthy_str
                          match PyDict.get ostr_eqb (sp_region sp) region_lookup with
                          | Some rid => rid
                          | None => None
                          end)).
        * rewrite bind_print. unfold ret.
          eexists _, b, [Print _].
          repeat apply conj; try (destruct dry_run; reflexivity);
            try reflexivity.
          intros _. apply same_reads_refl.
        * destruct dry_run.
          -- rewrite bind_print. unfold ret.
             eexists results, b, [Print _].
             repeat apply conj; try reflexivity.
             intros _. apply same_reads_refl.
          -- erewrite bind_eq by apply create_storage_profile_eq.
             cbv beta zeta.
             match goal with
             | |- context [session_send client b ?req] => set (r := req)
             end.
             destruct (fst (created_result (snd (session_send client b r))));
               rewrite bind_print; unfold ret; rewrite <- app_assoc;
               eexists _, (fst (session_send client b r)), [Send r; Print _];
               (repeat apply conj;
                [reflexivity|reflexivity|reflexivity|discriminate
                |intros Hfix; apply Hfix]).
      + rewrite bind_print. unfold ret.
        eexists _, b, [Print _].
        repeat apply conj; try (destruct dry_run; reflexivity);
          try reflexivity.
        intros _. apply same_reads_refl. }
  cbv zeta.
  destruct (truthy_str (sp_compute sp) && negb (truthy_str compute_id))%bool.
  - rewrite bind_print.
    destruct (Hrest (lg ++ [Print (ComputeNotFound (sp_compute sp) (sp_name sp))])%list)
      as (r' & b' & delta & Heq & Hp & Hs & Hb & Hr).
    exists r', b', (Print (ComputeNotFound (sp_compute sp) (sp_name sp)) :: delta).
    split; [etransitivity; [exact Heq|now rewrite <- app_assoc]|].
    repeat apply conj; assumption.
  - rewrite bind_ret. apply Hrest.
Qed.
End StorageRuns.

Section Parity.
Variable B : Type.
Variable client : AriaClient B.




End Parity.



Lemma demo_fixed_state : fixed_state Fixtures.demo.
Proof. intros b r url. reflexivity. Qed.

(** The rollout on the demo backend: simulate mode announces one tag
    update, one storage update and one storage creation; apply mode sends
    the three requests. *)
Example rollout_plans :
  map update_line (tag_plan Fixtures.demo [] (tags Fixtures.rollout))
  = [WouldUpdate (Some "zone-b") "env:test"]
  /\ map (fun p => storage_line (fst p) (snd p))
       (storage_plan Fixtures.demo []
          [Fixtures.region_doc "R1" "r1"; Fixtures.region_doc "R2" "r2"]
          (list_or_nil (storage_profiles (tags Fixtures.rollout))))
     = [WouldUpdateStorage (Some "gold") "compute: cluster-b";
        WouldCreateStorage (Some "silver") (Some "R1") "" "tier:silver"]
  /\ map rq_verb
       (map (fun p => storage_request Fixtures.demo (fst p) (snd p))
          (storage_plan Fixtures.demo []
             [Fixtures.region_doc "R1" "r1"; Fixtures.region_doc "R2" "r2"]
             (list_or_nil (storage_profiles (tags Fixtures.rollout)))))
     = [PUT; POST].
Proof. repeat split; vm_compute; reflexivity. Qed.

(** ** Convergence *)


Section Settled.
Variable B : Type.
Variable client : AriaClient B.


End Settled.




(** ** Simulate against apply: flavors and images *)



Section CreateParity.
Variable B : Type.
Variable client : AriaClient B.




End CreateParity.

Section ImageParity.
Variable B : Type.
Variable client : AriaClient B.


End ImageParity.

(** ** Both modes of the four commands *)



(** The plans of the full rollout on the demo backend: one flavor profile
    and one image profile for R1. *)
Example full_rollout_plans :
  map (flavor_line Fixtures.full_rollout)
    (flavor_plan [(Some "R1", Some "r1")] Fixtures.full_rollout)
  = [WouldCreateFlavorProfile (Some "R1") "vSphere-flavor-profile"
       (Some "r1") [Fixtures.small]]
  /\ map (image_line Fixtures.full_rollout)
       (image_plan [(Some "R1", Some "r1")]
          [Fixtures.ubuntu_r1; Fixtures.ubuntu_r2] Fixtures.full_rollout)
     = [WouldCreateImageProfile (Some "R1") "vSphere-image-profile"
          [{| ie_name := Some "ubuntu"; ie_template := "ubuntu-22";
              ie_id := "img-r1" |}]]
  /\ map rq_verb
       (map (image_request Fixtures.demo Fixtures.full_rollout
               [(Some "R1", Some "r1")])
          (image_plan [(Some "R1", Some "r1")]
             [Fixtures.ubuntu_r1; Fixtures.ubuntu_r2] Fixtures.full_rollout))
     = [POST].
Proof. repeat split; vm_compute; reflexivity. Qed.

(** * Further properties of the code *)

(** ** What a run may send *)

Section Confined.
Variable B : Type.
Variable client : AriaClient B.
Variable P : request -> Prop.

Lemma confined_ret (A : Type) (a : A) : confined P (ret (B:=B) a).
Proof.
  intros w x w' H. injection H as <- <-. exists []. rewrite app_nil_r.
  repeat split; constructor.
Qed.

Lemma confined_print (l : line) : confined P (print (B:=B) l).
Proof.
  intros w x w' H. injection H as <- <-. exists [Print l].
  repeat split; constructor.
Qed.

Lemma confined_get (url : string) : confined P (http_get client url).
Proof.
  intros w x w' H. injection H as <- <-. exists []. rewrite app_nil_r.
  repeat split; constructor.
Qed.

Lemma confined_send (r : request) : P r -> confined P (http_send client r).
Proof.
  intros Hr w x w' H. unfold http_send in H.
  destruct (session_send client (backend w) r) as [b' res].
  injection H as <- <-. exists [Send r]. split; [reflexivity|].
  split; [repeat constructor; exact Hr|discriminate].
Qed.

Lemma confined_bind (A C : Type) (m : M B A) (f : A -> M B C) :
  confined P m -> (forall a, confined P (f a)) -> confined P (bind m f).
Proof.
  intros Hm Hf w c w' H. unfold bind in H.
  destruct (m w) as [[a w1]|] eqn:E; [|discriminate].
  destruct (Hm _ _ _ E) as (d1 & L1 & F1 & K1).
  destruct (Hf a _ _ _ H) as (d2 & L2 & F2 & K2).
  exists (d1 ++ d2)%list. rewrite L2, L1, app_assoc. split; [reflexivity|].
  rewrite sent_app. split; [apply Forall_app; now split|].
  intros E0. apply app_eq_nil in E0. destruct E0 as [E1 E2].
  now rewrite K2, K1.
Qed.

Lemma confined_for_each (A S : Type) (body : A -> S -> M B S) (xs : list A) :
  (forall x s, In x xs -> confined P (body x s)) ->
  forall s, confined P (for_each body xs s).
Proof.
  induction xs as [|x xs IH]; intros Hb s; simpl.
  - apply confined_ret.
  - apply confined_bind; [apply Hb; now left|].
    intros s'. apply IH. intros y t Hy. apply Hb. now right.
Qed.

Lemma confined_paginated (fuel : nat) (path : string) :
  confined P (_get_paginated client fuel path).
Proof.
  intros w x w' H. unfold _get_paginated in H.
  destruct (paginate client fuel (backend w) _ []); [|discriminate].
  injection H as <- <-. exists []. rewrite app_nil_r.
  repeat split; constructor.
Qed.

Lemma confined_first_page (path : string) :
  confined P (get_first_page client path).
Proof.
  unfold get_first_page. apply confined_bind; [apply confined_get|].
  intros resp. destruct (status_code resp =? 200)%Z; apply confined_ret.
Qed.

Lemma confined_print_all (ls : list line) : confined P (print_all (B:=B) ls).
Proof.
  unfold print_all. apply confined_for_each. intros. apply confined_print.
Qed.

Lemma confined_resolve_regions (fuel : nat) (cfg : config) :
  confined P (resolve_regions client fuel cfg).
Proof.
  unfold resolve_regions. apply confined_bind; [apply confined_paginated|].
  intros api. apply confined_for_each. intros cr resolved _.
  destruct (PyDict.get ostr_eqb (rc_name cr) (region_lookup_of api)).
  - apply confined_ret.
  - apply confined_bind; [apply confined_print|intros; apply confined_ret].
Qed.

End Confined.

Lemma confined_weaken (B A : Type) (P Q : request -> Prop) (m : M B A) :
  (forall r, P r -> Q r) -> confined P m -> confined Q m.
Proof.
  intros HPQ Hm w a w' H. destruct (Hm _ _ _ H) as (d & L & F & K).
  exists d. repeat split; try assumption.
  eapply Forall_impl; [exact HPQ|exact F].
Qed.

Ltac confine :=
  repeat first
    [ apply confined_ret
    | apply confined_send | apply confined_print | apply confined_get
    | apply confined_paginated | apply confined_first_page
    | apply confined_print_all | apply confined_resolve_regions
    | apply confined_bind; [|intros ?]
    | apply confined_for_each; intros ? ? ?
    | match goal with
      | |- confined _ (if ?c then _ else _) => destruct c
      | |- confined _ (match ?x with _ => _ end) => destruct x
      | |- confined _ (let '(_, _) := ?x in _) => destruct x
      end ].

Section DryRun.
Variable B : Type.
Variable client : AriaClient B.

Lemma flavors_dry (fuel : nat) (cfg : config) :
  confined never (cmd_process_flavors client fuel cfg true).
Proof.
  unfold cmd_process_flavors. confine.
Qed.

Lemma images_dry (fuel : nat) (cfg : config) :
  confined never (cmd_process_images client fuel cfg true).
Proof.
  unfold cmd_process_images. confine.
Qed.

Lemma tags_dry (cfg : config) :
  confined never (cmd_process_tags client cfg true).
Proof.
  unfold cmd_process_tags, process_tag_sections, process_section, listing,
    get_cloud_zones, get_network_profiles, get_fabric_computes.
  confine; unfold process_tagged; confine.
Qed.

Lemma storage_dry (fuel : nat) (cfg : config) :
  confined never (cmd_process_storage client fuel cfg true).
Proof.
  unfold cmd_process_storage, get_storage_profiles, get_fabric_computes,
    get_regions.
  confine; unfold process_storage_profile, get_storage_profile_detail;
    confine.
Qed.
End DryRun.

Section Endpoints.
Variable B : Type.
Variable client : AriaClient B.

Lemma flavors_endpoint (fuel : nat) (cfg : config) (dry_run : bool) :
  confined (creates_in client "/iaas/api/flavor-profiles")
    (cmd_process_flavors client fuel cfg dry_run).
Proof.
  unfold cmd_process_flavors, create_flavor_profile, get_flavor_profiles.
  confine; split; reflexivity.
Qed.

Lemma images_endpoint (fuel : nat) (cfg : config) (dry_run : bool) :
  confined (creates_in client "/iaas/api/image-profiles")
    (cmd_process_images client fuel cfg dry_run).
Proof.
  unfold cmd_process_images, create_image_profile, get_image_profiles,
    get_fabric_images.
  confine; split; reflexivity.
Qed.

Lemma tags_endpoint (cfg : config) (dry_run : bool) :
  confined
    (fun r => modifies_in client PATCH "/iaas/api/zones" r
              \/ modifies_in client PATCH "/iaas/api/network-profiles" r
              \/ modifies_in client PATCH "/iaas/api/fabric-computes" r)
    (cmd_process_tags client cfg dry_run).
Proof.
  unfold cmd_process_tags, process_tag_sections, process_section, listing,
    get_cloud_zones, get_network_profiles, get_fabric_computes.
  confine; unfold process_tagged, update_tags, update_cloud_zone_tags,
    update_network_profile_tags, update_fabric_compute_tags; confine.
  all: unfold modifies_in; cbn; eauto 6.
Qed.

Lemma storage_endpoint (fuel : nat) (cfg : config) (dry_run : bool) :
  confined
    (fun r => creates_in client "/iaas/api/storage-profiles" r
              \/ modifies_in client PUT "/iaas/api/storage-profiles" r)
    (cmd_process_storage client fuel cfg dry_run).
Proof.
  unfold cmd_process_storage, get_storage_profiles, get_fabric_computes,
    get_regions.
  confine; unfold process_storage_profile, get_storage_profile_detail,
    update_storage_profile_tags, create_storage_profile; confine.
  all: unfold modifies_in, creates_in; cbn; eauto 6.
Qed.
End Endpoints.

(** X1: with [--dry-run], whatever is selected, [main] sends no write
    request and leaves the backend as the login left it. *)
Theorem dry_run_sends_nothing (B : Type) (client : AriaClient B) (fuel : nat)
  (a : args) (cfg : config) (b : B) (lg : list event) (o : outcome)
  (w' : world B) :
  a_dry_run a = true ->
  main client fuel a cfg (World b lg) = Some (o, w') ->
  exists d, log w' = (lg ++ d)%list /\ sent d = []
            /\ backend w' = fst (login client b).
Proof.
  intros Hdry Hrun. unfold main in Hrun. rewrite Hdry in Hrun.
  unfold bind at 1, authenticate in Hrun. cbn [backend log] in Hrun.
  destruct (login client b) as [b0 ok]. cbn [fst].
  assert (Hc : forall m : M B outcome, confined never m ->
            m (World b0 lg) = Some (o, w') ->
            exists d, log w' = (lg ++ d)%list /\ sent d = []
                      /\ backend w' = b0).
  { intros m Hm E. destruct (Hm _ _ _ E) as (d & L & F & K).
    assert (S0 : sent d = []) by (destruct (sent d); [reflexivity|now inversion F]).
    exists d. repeat split; try assumption. exact (K S0). }
  revert Hrun. apply Hc.
  assert (Hand : forall sel (c r : M B outcome),
            confined never c -> confined never r ->
            confined never (and_then sel c r)).
  { intros sel c r Hcc Hr. unfold and_then. destruct sel; [|exact Hr].
    apply confined_bind; [exact Hcc|]. intros [[| |]|]; try apply confined_ret.
    exact Hr. all: apply confined_ret. }
  confine.
  repeat apply Hand; auto using flavors_dry, images_dry, storage_dry,
    tags_dry, confined_ret.
Qed.

Lemma dry_run_sends_nothing_witness :
  exists o w',
    main Fixtures.demo 3 Scenarios.all_dry_run Fixtures.full_rollout (World [] [])
    = Some (o, w')
    /\ exists d, log w' = ([] ++ d)%list /\ sent d = []
                 /\ backend w' = fst (login Fixtures.demo []).
Proof.
  destruct (main Fixtures.demo 3 Scenarios.all_dry_run Fixtures.full_rollout
              (World [] [])) as [[o w']|] eqn:E;
    [|vm_compute in E; discriminate].
  exists o, w'. split; [reflexivity|].
  exact (@dry_run_sends_nothing _ Fixtures.demo 3 Scenarios.all_dry_run
           Fixtures.full_rollout [] [] o w' eq_refl E).
Defined.

(** X2: each command writes to its own endpoints only. *)
Theorem commands_write_to_their_own_endpoints (B : Type)
  (client : AriaClient B) (fuel : nat) (cfg : config) (dry_run : bool)
  (w : world B) :
  (forall o w',
     cmd_process_flavors client fuel cfg dry_run w = Some (o, w') ->
     exists d, log w' = (log w ++ d)%list
               /\ Forall (creates_in client "/iaas/api/flavor-profiles")
                    (sent d))
  /\ (forall o w',
        cmd_process_images client fuel cfg dry_run w = Some (o, w') ->
        exists d, log w' = (log w ++ d)%list
                  /\ Forall (creates_in client "/iaas/api/image-profiles")
                       (sent d))
  /\ (forall o w',
        cmd_process_storage client fuel cfg dry_run w = Some (o, w') ->
        exists d, log w' = (log w ++ d)%list
                  /\ Forall
                       (fun r =>
                          creates_in client "/iaas/api/storage-profiles" r
                          \/ modifies_in client PUT
                               "/iaas/api/storage-profiles" r)
                       (sent d))
  /\ (forall o w',
        cmd_process_tags client cfg dry_run w = Some (o, w') ->
        exists d, log w' = (log w ++ d)%list
                  /\ Forall
                       (fun r =>
                          modifies_in client PATCH "/iaas/api/zones" r
                          \/ modifies_in client PATCH
                               "/iaas/api/network-profiles" r
                          \/ modifies_in client PATCH
                               "/iaas/api/fabric-computes" r)
                       (sent d)).
Proof.
  repeat apply conj; intros o w' H.
  - destruct (flavors_endpoint client fuel cfg dry_run _ H) as (d & L & F & _).
    now exists d.
  - destruct (images_endpoint client fuel cfg dry_run _ H) as (d & L & F & _).
    now exists d.
  - destruct (storage_endpoint client fuel cfg dry_run _ H) as (d & L & F & _).
    now exists d.
  - destruct (tags_endpoint client cfg dry_run _ H) as (d & L & F & _).
    now exists d.
Qed.

Lemma commands_write_to_their_own_endpoints_witness :
  exists o w' d,
    cmd_process_storage Fixtures.demo 3 Fixtures.full_rollout false
      (World [] []) = Some (o, w')
    /\ log w' = ([] ++ d)%list
    /\ List.length (sent d) = 2%nat
    /\ Forall
         (fun r =>
            creates_in Fixtures.demo "/iaas/api/storage-profiles" r
            \/ modifies_in Fixtures.demo PUT "/iaas/api/storage-profiles" r)
         (sent d).
Proof.
  destruct (@commands_write_to_their_own_endpoints _ Fixtures.demo 3
              Fixtures.full_rollout false (World [] []))
    as (_ & _ & Hs & _).
  destruct (cmd_process_storage Fixtures.demo 3 Fixtures.full_rollout false
              (World [] [])) as [[o w']|] eqn:E; [|vm_compute in E; discriminate].
  destruct (Hs o w' eq_refl) as (d & L & F).
  exists o, w', d. repeat apply conj; try assumption; try reflexivity.
  vm_compute in E. injection E as _ <-. cbn [log] in L.
  cbn [app] in L. subst d. reflexivity.
Defined.

(** ** Pagination: cycles and failing pages *)


(** X3: a page that announces itself as the next page keeps
    [_get_paginated] in its loop for ever: no number of iterations
    produces a result. *)
Theorem pagination_cycle_never_ends (B : Type) (client : AriaClient B)
  (b : B) (path : string) :
  let url := _api_url client path in
  let data := body (session_get client b url) in
  status_code (session_get client b url) = 200%Z ->
  truthy_str (next_href data) = true ->
  "https://" ++ host client ++ py_str (next_href data) = url ->
  forall fuel w, backend w = b -> _get_paginated client fuel path w = None.
Proof.
  intros url data Hok Hnext Hself fuel w <-. unfold _get_paginated.
  fold url.
  assert (Hloop : forall fuel acc,
            paginate client fuel (backend w) (Some url) acc = None).
  { clear fuel. induction fuel as [|fuel IH]; intros acc; [reflexivity|].
    cbn [paginate].
    assert (Hurl : truthy_str (Some url) = true).
    { unfold url, _api_url. cbn. reflexivity. }
    rewrite Hurl. cbn [py_str]. rewrite Hok. cbn [Z.eqb Pos.eqb negb].
    fold data. rewrite Hnext, Hself. apply IH. }
  now rewrite Hloop.
Qed.

Lemma pagination_cycle_never_ends_witness :
  _get_paginated Scenarios.looping 1000 "/iaas/api/regions" (World [] [])
  = None.
Proof.
  apply (@pagination_cycle_never_ends _ Scenarios.looping []
           "/iaas/api/regions"); reflexivity.
Defined.

(** X4: a response with another status than 200 ends the listing without
    an error: [_get_paginated] returns the items of the pages read before
    it, and the empty list when the first response fails. *)
Theorem failing_page_truncates_the_listing (B : Type) (client : AriaClient B)
  (b : B) (path : string) (pages : list json) (fuel : nat) (lg : list event) :
  cut_short client b (_api_url client path) pages ->
  (List.length pages < fuel)%nat ->
  _get_paginated client fuel path (World b lg)
  = Some (flat_map content pages, World b lg).
Proof.
  intros Hcut Hfuel. unfold _get_paginated. cbn [backend].
  assert (H : forall url pages, cut_short client b url pages ->
            forall fuel acc, (List.length pages < fuel)%nat ->
            paginate client fuel b (Some url) acc
            = Some (acc ++ flat_map content pages)%list).
  { clear. intros url pages Hcut.
    induction Hcut as [url Hurl Hst|url rest Hurl Hst Hnext Hcut IH];
      intros fuel acc Hfuel.
    - destruct fuel as [|fuel]; [inversion Hfuel|]. cbn [paginate].
      rewrite Hurl. cbn [py_str].
      apply Z.eqb_neq in Hst. rewrite Hst. cbn. now rewrite app_nil_r.
    - destruct fuel as [|fuel]; [inversion Hfuel|]. cbn [paginate].
      rewrite Hurl. cbn [py_str]. rewrite Hst. cbn [Z.eqb Pos.eqb negb].
      rewrite Hnext. rewrite IH by (cbn in Hfuel; lia).
      cbn [flat_map]. now rewrite app_assoc. }
  now rewrite (H _ _ Hcut fuel [] Hfuel).
Qed.

Lemma failing_page_truncates_the_listing_witness :
  _get_paginated Scenarios.broken_link 3 "/iaas/api/regions" (World [] [])
  = Some (flat_map content
            [body (session_get Scenarios.broken_link []
                     (Fixtures.url "/iaas/api/regions"))],
          World [] []).
Proof.
  apply (@failing_page_truncates_the_listing _ Scenarios.broken_link []
           "/iaas/api/regions").
  - apply (@cut_later _ Scenarios.broken_link [] (Fixtures.url "/iaas/api/regions"));
      try reflexivity.
    apply cut_here; [reflexivity|]. vm_compute. discriminate.
  - cbn. lia.
Defined.

(** ** Region resolution *)


Section Regions.
Variable B : Type.
Variable client : AriaClient B.

Lemma resolve_loop (lookup : PyDict.t (option string) (option string))
  (crs : list region_cfg) :
  forall (resolved0 : PyDict.t (option string) (option string)) (b : B)
    (lg : list event),
  exists resolved,
    for_each
      (fun cr resolved =>
         match PyDict.get ostr_eqb (rc_name cr) lookup with
         | Some rid => ret (PyDict.set ostr_eqb (rc_name cr) rid resolved)
         | None => bind (print (RegionNotFound (rc_name cr)))
                     (fun _ => ret resolved)
         end)
      crs resolved0 (World b lg)
    = Some (resolved,
            World b
              (lg ++ map (fun n => Print (RegionNotFound n))
                       (filter (fun n => negb (PyDict.mem ostr_eqb n lookup))
                          (map rc_name crs)))%list)
    /\ forall name,
         PyDict.get ostr_eqb name resolved
         = if (existsb (ostr_eqb name) (map rc_name crs)
               && PyDict.mem ostr_eqb name lookup)%bool
           then PyDict.get ostr_eqb name lookup
           else PyDict.get ostr_eqb name resolved0.
Proof.
  induction crs as [|cr crs IH]; intros resolved0 b lg.
  - exists resolved0. cbn. rewrite app_nil_r. split; reflexivity.
  - cbn [for_each map filter existsb]. unfold PyDict.mem at 1.
    destruct (PyDict.get ostr_eqb (rc_name cr) lookup) as [rid|] eqn:E.
    + rewrite bind_ret. cbn [negb].
      destruct (IH (PyDict.set ostr_eqb (rc_name cr) rid resolved0) b lg)
        as (resolved & Hrun & Hget).
      exists resolved. split; [exact Hrun|]. intros name. rewrite Hget.
      destruct (ostr_eqb name (rc_name cr)) eqn:En; cbn [orb].
      * apply ostr_eqb_eq in En. subst name.
        unfold PyDict.mem. rewrite E. rewrite andb_true_r. cbn [andb].
        destruct (existsb _ _); [reflexivity|].
        now rewrite (get_set_same _ ostr_eqb_eq).
      * destruct (existsb _ _ && _)%bool; [reflexivity|].
        apply (get_set_other _ ostr_eqb_eq). intros ->.
        now rewrite ostr_eqb_refl in En.
    + rewrite bind_assoc, bind_print, bind_ret. cbn [negb map].
      destruct (IH resolved0 b (lg ++ [Print (RegionNotFound (rc_name cr))])%list)
        as (resolved & Hrun & Hget).
      exists resolved. split.
      * rewrite Hrun. now rewrite <- app_assoc.
      * intros name. rewrite Hget.
        destruct (ostr_eqb name (rc_name cr)) eqn:En; cbn [orb];
          [|reflexivity].
        apply ostr_eqb_eq in En. subst name.
        unfold PyDict.mem. rewrite E. now rewrite andb_false_r.
Qed.

(** What [resolve_regions] answers once the region listing has been
    read; shared by the statements below. *)
Lemma resolve_regions_spec (fuel : nat) (cfg : config) (b : B)
  (lg : list event) (api_regions : list json) :
  paginate client fuel b (Some (_api_url client "/iaas/api/regions")) []
  = Some api_regions ->
  exists resolved,
    resolve_regions client fuel cfg (World b lg)
    = Some (resolved,
            World b
              (lg ++ map (fun n => Print (RegionNotFound n))
                       (unknown_regions api_regions cfg))%list)
    /\ forall name,
         PyDict.get ostr_eqb name resolved
         = if existsb (ostr_eqb name) (map rc_name (regions cfg))
           then PyDict.get ostr_eqb name (region_lookup_of api_regions)
           else None.
Proof.
  intros Hp. unfold resolve_regions, get_regions.
  destruct (resolve_loop (region_lookup_of api_regions) (regions cfg) [] b lg)
    as (resolved & Hrun & Hget).
  exists resolved. split.
  - erewrite bind_eq by (apply get_paginated_eq; exact Hp). exact Hrun.
  - intros name. rewrite Hget. unfold PyDict.mem.
    destruct (existsb _ _); cbn [andb]; [|reflexivity].
    now destruct (PyDict.get ostr_eqb name (region_lookup_of api_regions)).
Qed.
End Regions.

(** X5: [resolve_regions] keeps exactly the configured names that the
    backend lists, each with the identifier the lookup gives it, and
    prints one line for every configured name that is not listed; it
    changes nothing. *)
Theorem resolved_regions_are_the_configured_ones_found (B : Type)
  (client : AriaClient B) (fuel : nat) (cfg : config) (b : B)
  (lg : list event) (api_regions : list json) :
  paginate client fuel b (Some (_api_url client "/iaas/api/regions")) []
  = Some api_regions ->
  exists resolved,
    resolve_regions client fuel cfg (World b lg)
    = Some (resolved,
            World b
              (lg ++ map (fun n => Print (RegionNotFound n))
                       (unknown_regions api_regions cfg))%list)
    /\ NoDup (PyDict.keys resolved)
    /\ forall name,
         PyDict.get ostr_eqb name resolved
         = if existsb (ostr_eqb name) (map rc_name (regions cfg))
           then PyDict.get ostr_eqb name (region_lookup_of api_regions)
           else None.
Proof.
  intros Hp.
  destruct (resolve_regions_spec client fuel cfg b lg Hp)
    as (resolved & Hrun & Hget).
  exists resolved. split; [exact Hrun|]. split; [|exact Hget].
  apply resolve_regions_run in Hrun. now destruct Hrun as (d & _ & _ & _ & _ & N).
Qed.

Lemma resolved_regions_are_the_configured_ones_found_witness :
  exists resolved,
    resolve_regions Fixtures.demo 3 Fixtures.sizing (World [] [])
    = Some (resolved,
            World []
              ([] ++ map (fun n => Print (RegionNotFound n))
                       (unknown_regions
                          [Fixtures.region_doc "R1" "r1";
                           Fixtures.region_doc "R2" "r2"] Fixtures.sizing))%list)
    /\ NoDup (PyDict.keys resolved)
    /\ forall name,
         PyDict.get ostr_eqb name resolved
         = if existsb (ostr_eqb name) (map rc_name (regions Fixtures.sizing))
           then PyDict.get ostr_eqb name
                  (region_lookup_of
                     [Fixtures.region_doc "R1" "r1";
                      Fixtures.region_doc "R2" "r2"])
           else None.
Proof.
  apply (@resolved_regions_are_the_configured_ones_found _ Fixtures.demo 3
           Fixtures.sizing [] []). reflexivity.
Defined.

(** X6: a listed region without an identifier makes the flavor and the
    image command raise, in either mode, before anything is sent. *)
Theorem region_without_id_aborts_the_command (B : Type)
  (client : AriaClient B) (fuel : nat) (cfg : config) (dry_run : bool)
  (b : B) (lg : list event) (api_regions : list json) (cr : region_cfg) :
  paginate client fuel b (Some (_api_url client "/iaas/api/regions")) []
  = Some api_regions ->
  In cr (regions cfg) ->
  PyDict.get ostr_eqb (rc_name cr) (region_lookup_of api_regions)
  = Some None ->
  let w1 :=
    World b (lg ++ map (fun n => Print (RegionNotFound n))
                     (unknown_regions api_regions cfg))%list in
  cmd_process_flavors client fuel cfg dry_run (World b lg) = Some (Raise, w1)
  /\ cmd_process_images client fuel cfg dry_run (World b lg)
     = Some (Raise, w1)
  /\ sent (log w1) = sent lg.
Proof.
  intros Hp Hin Hnone w1.
  destruct (resolve_regions_spec client fuel cfg b lg Hp)
    as (resolved & Hrun & Hget). fold w1 in Hrun.
  assert (Hget1 : PyDict.get ostr_eqb (rc_name cr) resolved = Some None).
  { rewrite Hget.
    replace (existsb (ostr_eqb (rc_name cr)) (map rc_name (regions cfg)))
      with true; [exact Hnone|].
    symmetry. apply existsb_exists. exists (rc_name cr).
    split; [now apply in_map|apply ostr_eqb_refl]. }
  assert (Hin1 : In (rc_name cr, None) resolved)
    by (apply (get_In _ ostr_eqb_eq); exact Hget1).
  assert (Hmiss : some_id_missing resolved = true).
  { apply existsb_exists. exists (rc_name cr, None). now split. }
  assert (Hne : resolved <> []) by (intros ->; destruct Hin1).
  repeat apply conj.
  - unfold cmd_process_flavors. run Hrun.
    rewrite (nonempty_match _ _ Hne). now rewrite Hmiss.
  - unfold cmd_process_images. run Hrun.
    rewrite (nonempty_match _ _ Hne). now rewrite Hmiss.
  - unfold w1. cbn [log]. rewrite <- (map_map RegionNotFound Print).
    rewrite sent_app, sent_prints. apply app_nil_r.
Qed.

Lemma region_without_id_aborts_the_command_witness :
  cmd_process_flavors Scenarios.nameless_id 3 Fixtures.sizing false
    (World [] [])
  = Some (Raise, World [] [])
  /\ cmd_process_images Scenarios.nameless_id 3 Fixtures.sizing false
       (World [] [])
     = Some (Raise, World [] [])
  /\ sent (@nil event) = sent [].
Proof.
  apply (@region_without_id_aborts_the_command _ Scenarios.nameless_id 3
           Fixtures.sizing false [] [] [JObj [("name", JStr "R1")]]
           {| rc_name := Some "R1" |}).
  - reflexivity.
  - left. reflexivity.
  - reflexivity.
Defined.

(** ** Lookups by name and unreadable listings *)

Section OfList.
Variables K V A : Type.
Variable eqb : K -> K -> bool.
Hypothesis eqb_eq : forall a b, eqb a b = true <-> a = b.
Variable key : A -> K.
Variable val : A -> V.

Lemma fold_set_other (xs : list A) (d : PyDict.t K V) (k : K) :
  (forall y, In y xs -> key y <> k) ->
  PyDict.get eqb k (fold_left (fun d x => PyDict.set eqb (key x) (val x) d) xs d)
  = PyDict.get eqb k d.
Proof.
  revert d. induction xs as [|x xs IH]; intros d H; [reflexivity|].
  cbn [fold_left]. rewrite IH by (intros y Hy; apply H; now right).
  apply (get_set_other _ eqb_eq). intros E. apply (H x); [now left|auto].
Qed.

Lemma of_list_last (pre post : list A) (x : A) :
  (forall y, In y post -> key y <> key x) ->
  PyDict.get eqb (key x) (PyDict.of_list eqb key val (pre ++ x :: post))
  = Some (val x).
Proof.
  intros H. unfold PyDict.of_list. rewrite fold_left_app. cbn [fold_left].
  rewrite fold_set_other by exact H. apply (get_set_same _ eqb_eq).
Qed.

Lemma of_list_none (xs : list A) (k : K) :
  (forall y, In y xs -> key y <> k) ->
  PyDict.get eqb k (PyDict.of_list eqb key val xs) = None.
Proof.
  intros H. unfold PyDict.of_list. now rewrite fold_set_other.
Qed.
End OfList.

(** X7: the lookups by name keep, for every name, the last listed
    document that carries it, and know no other name. *)
Theorem lookup_by_name_keeps_the_last_document (docs : list json)
  (name : option string) :
  (forall pre d post,
     docs = (pre ++ d :: post)%list ->
     get_str "name" d = name ->
     (forall x, In x post -> get_str "name" x <> name) ->
     PyDict.get ostr_eqb name (by_name docs) = Some d
     /\ PyDict.get ostr_eqb name (ids_by_name docs) = Some (get_str "id" d))
  /\ ((forall x, In x docs -> get_str "name" x <> name) ->
      find_doc (by_name docs) name = None
      /\ PyDict.get ostr_eqb name (ids_by_name docs) = None).
Proof.
  split.
  - intros pre d post -> <- Hpost. unfold by_name, ids_by_name. split.
    + apply (of_list_last _ ostr_eqb_eq (get_str "name") (fun d => d)).
      exact Hpost.
    + apply (of_list_last _ ostr_eqb_eq (get_str "name") (get_str "id")).
      exact Hpost.
  - intros H. unfold find_doc, by_name, ids_by_name.
    rewrite (of_list_none _ ostr_eqb_eq (get_str "name") (fun d => d) _ H).
    rewrite (of_list_none _ ostr_eqb_eq (get_str "name") (get_str "id") _ H).
    now split.
Qed.

Lemma lookup_by_name_keeps_the_last_document_witness :
  let docs := [Fixtures.tagged "zone-a" "z-1" [Tag "env" "prod"];
               Fixtures.tagged "zone-a" "z-9" []] in
  PyDict.get ostr_eqb (Some "zone-a") (by_name docs)
  = Some (Fixtures.tagged "zone-a" "z-9" [])
  /\ PyDict.get ostr_eqb (Some "zone-a") (ids_by_name docs) = Some (Some "z-9").
Proof.
  intros docs.
  apply (proj1 (@lookup_by_name_keeps_the_last_document docs (Some "zone-a"))
           [Fixtures.tagged "zone-a" "z-1" [Tag "env" "prod"]]
           (Fixtures.tagged "zone-a" "z-9" []) []).
  - reflexivity.
  - reflexivity.
  - intros x [].
Defined.

Section FailedListing.
Variable B : Type.
Variable client : AriaClient B.

Lemma skip_all (k : kind) (dry_run : bool) (entries : list tagged_cfg) :
  forall (results : tag_results) (b : B) (lg : list event),
  for_each (process_tagged client k dry_run (by_name [])) entries results
    (World b lg)
  = Some ({| updated := updated results; failed := failed results;
             skipped := skipped results + List.length entries |},
          World b (lg ++ map (fun e => Print (NotFound k (tc_name e)))
                           entries)%list).
Proof.
  induction entries as [|e entries IH]; intros results b lg.
  - cbn. rewrite app_nil_r, Nat.add_0_r. now destruct results.
  - cbn [for_each]. erewrite bind_eq by (now apply process_tagged_absent).
    rewrite IH. destruct results as [u f s].
    cbn [map List.length add_skipped updated failed skipped].
    rewrite <- app_assoc. cbn [app].
    replace (S s + List.length entries)%nat
      with (s + S (List.length entries))%nat by lia.
    reflexivity.
Qed.
End FailedListing.

(** X8: when the listing of a kind cannot be read (another status than
    200), every configured resource of that kind is reported as not
    found and counted as skipped, in either mode, and nothing is sent. *)
Theorem unreadable_listing_skips_every_resource (B : Type)
  (client : AriaClient B) (k : kind) (dry_run : bool)
  (entries : list tagged_cfg) (results : tag_results) (b : B)
  (lg : list event) :
  status_code (session_get client b (_api_url client (listing_path k)))
  <> 200%Z ->
  process_section client k dry_run entries results (World b lg)
  = Some ({| updated := updated results; failed := failed results;
             skipped := skipped results + List.length entries |},
          World b (lg ++ map (fun e => Print (NotFound k (tc_name e)))
                           entries)%list).
Proof.
  intros Hst. unfold process_section. destruct entries as [|e entries].
  - cbn. rewrite app_nil_r, Nat.add_0_r. now destruct results.
  - erewrite bind_eq by apply listing_eq. cbv beta.
    unfold first_page_at. apply Z.eqb_neq in Hst. rewrite Hst.
    apply skip_all.
Qed.

Lemma unreadable_listing_skips_every_resource_witness :
  process_section Fixtures.no_regions NetworkProfile false
    [{| tc_name := Some "net-a"; tc_tags := [Tag "net" "dmz"] |}]
    no_results (World [] [])
  = Some ({| updated := 0; failed := 0; skipped := 0 + 1 |},
          World [] ([] ++ [Print (NotFound NetworkProfile (Some "net-a"))])%list).
Proof.
  apply (@unreadable_listing_skips_every_resource _ Fixtures.no_regions
           NetworkProfile false
           [{| tc_name := Some "net-a"; tc_tags := [Tag "net" "dmz"] |}]
           no_results [] []).
  vm_compute. discriminate.
Defined.

(** ** Payloads and the tag comparison *)

Section FoldSet.
Variables K V A : Type.
Variable eqb : K -> K -> bool.
Hypothesis eqb_eq : forall a b, eqb a b = true <-> a = b.
Variable key : A -> K.
Variable val : A -> V.

Lemma find_snoc (p : A -> bool) (xs : list A) (x : A) :
  find p (xs ++ [x])
  = match find p xs with
    | Some y => Some y
    | None => if p x then Some x else None
    end.
Proof.
  induction xs as [|y xs IH]; cbn; [reflexivity|].
  destruct (p y); [reflexivity|exact IH].
Qed.

Lemma fold_set_get (xs : list A) (d : PyDict.t K V) (k : K) :
  PyDict.get eqb k
    (fold_left (fun d x => PyDict.set eqb (key x) (val x) d) xs d)
  = match find (fun x => eqb (key x) k) (rev xs) with
    | Some x => Some (val x)
    | None => PyDict.get eqb k d
    end.
Proof.
  revert d. induction xs as [|x xs IH]; intros d; [reflexivity|].
  cbn [fold_left rev]. rewrite IH, find_snoc.
  destruct (find _ (rev xs)); [reflexivity|].
  destruct (eqb (key x) k) eqn:E.
  - apply eqb_eq in E. subst k. apply (get_set_same _ eqb_eq).
  - apply (get_set_other _ eqb_eq). intros ->.
    rewrite (eqb_same _ eqb_eq) in E. discriminate.
Qed.

Lemma fold_set_NoDup (xs : list A) (d : PyDict.t K V) :
  NoDup (PyDict.keys d) ->
  NoDup (PyDict.keys
           (fold_left (fun d x => PyDict.set eqb (key x) (val x) d) xs d)).
Proof.
  revert d. induction xs as [|x xs IH]; intros d H; [exact H|].
  cbn [fold_left]. apply IH. now apply NoDup_keys_set.
Qed.
End FoldSet.

(** X9: [flavorMapping] has one entry for every flavor name; when a name
    is defined more than once, the last definition is the one sent. *)
Theorem flavor_mapping_keeps_the_last_definition (fs : list flavor)
  (k : string) :
  py_get k (JObj (flavor_mapping fs))
  = option_map flavor_json
      (find (fun f => (f_name f =? k)%string) (rev fs))
  /\ NoDup (PyDict.keys (flavor_mapping fs))
  /\ (List.length (flavor_mapping fs) <= List.length fs)%nat.
Proof.
  unfold flavor_mapping. repeat apply conj.
  - cbn [py_get].
    rewrite (fold_set_get String.eqb String.eqb_eq f_name flavor_json).
    now destruct (find _ _).
  - apply (fold_set_NoDup String.eqb String.eqb_eq f_name flavor_json).
    constructor.
  - assert (H : forall (d : PyDict.t string json),
              (List.length
                 (fold_left
                    (fun d f =>
                       PyDict.set String.eqb (f_name f)
                         (JObj [("cpuCount", JNum (cpuCount f));
                                ("memoryInMB", JNum (memoryMB f))]) d) fs d)
               <= List.length d + List.length fs)%nat).
    { induction fs as [|f fs' IH]; intros d; cbn [fold_left List.length];
        [lia|].
      etransitivity; [apply IH|].
      assert (Hs : forall (v : json) (d : PyDict.t string json),
                (List.length (PyDict.set String.eqb (f_name f) v d)
                 <= S (List.length d))%nat).
      { intros v d0. induction d0 as [|[k' v'] d0 IHd]; cbn; [lia|].
        destruct (f_name f =? k')%string; cbn; lia. }
      specialize (Hs (JObj [("cpuCount", JNum (cpuCount f));
                            ("memoryInMB", JNum (memoryMB f))]) d). lia. }
    apply (H []).
Qed.

(** X10: the tag comparison is an equivalence that looks at neither the
    order nor the repetition of tags. *)
Theorem tags_match_is_an_equivalence :
  (forall a, tags_match a a = true)
  /\ (forall a b, tags_match a b = tags_match b a)
  /\ (forall a b c,
        tags_match a b = true -> tags_match b c = true ->
        tags_match a c = true)
  /\ (forall a b, (forall t, In t a <-> In t b) -> tags_match a b = true).
Proof.
  repeat apply conj.
  - apply tags_match_refl.
  - intros a b. unfold tags_match, set_eqb. apply andb_comm.
  - intros a b c Hab Hbc. apply tags_match_spec. intros s.
    rewrite (proj1 (tags_match_spec a b) Hab s).
    apply (proj1 (tags_match_spec b c) Hbc s).
  - apply tags_match_same_pairs.
Qed.

Lemma tags_match_is_an_equivalence_witness :
  tags_match [Tag "env" "prod"; Tag "tier" "gold"; Tag "env" "prod"]
    [Tag "tier" "gold"; Tag "env" "prod"] = true.
Proof.
  apply (proj2 (proj2 (proj2 tags_match_is_an_equivalence))).
  intros t. cbn. intuition.
Defined.

(** X11: when no tag key contains a colon, two tag lists are judged equal
    exactly when they hold the same (key, value) pairs. *)
Theorem tags_match_is_exact_without_colons (existing desired : list tag) :
  (forall t, In t existing \/ In t desired -> colon_free (key t) = true) ->
  (tags_match existing desired = true <->
   forall t, In t existing <-> In t desired).
Proof.
  intros Hfree. split.
  - now apply tags_match_colon_free.
  - apply tags_match_same_pairs.
Qed.

Lemma tags_match_is_exact_without_colons_witness :
  tags_match [Tag "env" "prod"] [Tag "env" "test"] = true <->
  forall t, In t [Tag "env" "prod"] <-> In t [Tag "env" "test"].
Proof.
  apply (@tags_match_is_exact_without_colons [Tag "env" "prod"]
           [Tag "env" "test"]).
  intros t [[<-|[]]|[<-|[]]]; reflexivity.
Defined.

(** X12: the PUT document of a storage profile holds the nine fields the
    client builds and nothing else of the existing profile; a compute
    binding that is asked for replaces the existing one, and without
    either no binding is sent. *)
Theorem storage_update_sends_only_the_built_fields (tags : list tag)
  (existing : json) (compute_host_id : option string) :
  let doc := storage_update_payload tags existing compute_host_id in
  (forall k,
     ~ In k ["name"; "description"; "defaultItem"; "supportsEncryption";
             "tags"; "regionId"; "diskProperties"; "diskTargetProperties";
             "computeHostId"] ->
     py_get k doc = None)
  /\ (truthy_str compute_host_id = true ->
      py_get "computeHostId" doc = Some (opt_json compute_host_id))
  /\ (truthy_str compute_host_id = false ->
      truthy (get_or "computeHostId" JNull existing) = false ->
      py_get "computeHostId" doc = None).
Proof.
  intros doc. subst doc. unfold storage_update_payload. repeat apply conj.
  - intros k Hk.
    assert (Hneq : forall k', In k' ["name"; "description"; "defaultItem";
                    "supportsEncryption"; "tags"; "regionId";
                    "diskProperties"; "diskTargetProperties";
                    "computeHostId"] -> (k =? k')%string = false).
    { intros k' Hin. apply String.eqb_neq. intros ->. now apply Hk. }
    destruct (py_in "diskProperties" existing),
      (py_in "diskTargetProperties" existing),
      (truthy_str compute_host_id),
      (truthy (get_or "computeHostId" JNull existing));
      cbn; rewrite ?Hneq by (cbn; tauto); reflexivity.
  - intros ->.
    destruct (py_in "diskProperties" existing),
      (py_in "diskTargetProperties" existing); reflexivity.
  - intros -> ->.
    destruct (py_in "diskProperties" existing),
      (py_in "diskTargetProperties" existing); reflexivity.
Qed.

Lemma storage_update_sends_only_the_built_fields_witness :
  let doc :=
    storage_update_payload [Tag "tier" "gold"] Fixtures.gold_profile
      (Some "c-2") in
  py_get "id" doc = None
  /\ py_get "computeHostId" doc = Some (JStr "c-2").
Proof.
  intros doc.
  destruct (@storage_update_sends_only_the_built_fields [Tag "tier" "gold"]
              Fixtures.gold_profile (Some "c-2")) as (Hk & Hc & _).
  split.
  - apply Hk. cbn. intros H. repeat (destruct H as [H|H]; [discriminate|]).
    exact H.
  - apply Hc. reflexivity.
Defined.

(** ** The region of a document *)

Lemma append_assoc' (a b c : string) : (a ++ b) ++ c = a ++ b ++ c.
Proof. induction a as [|x a IH]; cbn; [reflexivity|now rewrite IH]. Qed.

Lemma prefix_app (s a b : string) :
  (String.length s <= String.length a)%nat ->
  String.prefix s (a ++ b) = String.prefix s a.
Proof.
  revert a. induction s as [|c s IH]; intros a H;
    [destruct a, b; reflexivity|].
  destruct a as [|x a]; [cbn in H; lia|]. cbn.
  destruct (ascii_dec c x); [|reflexivity].
  apply IH. cbn in H. lia.
Qed.

Lemma contains_false (sep : string) (c : ascii) (s : string) :
  contains sep (String c s) = false ->
  String.prefix sep (String c s) = false /\ contains sep s = false.
Proof. cbn [contains]. intros H. now apply orb_false_elim in H. Qed.

Lemma contains_app (sep p s : string) :
  String.prefix sep s = true -> contains sep (p ++ s) = true.
Proof.
  intros H. induction p as [|c p IH]; cbn [append].
  - destruct s; cbn [contains]; now rewrite H.
  - cbn [contains]. rewrite IH. apply orb_true_r.
Qed.

Lemma last_part_no_match (sep s acc : string) :
  contains sep s = false -> last_part sep s O acc = acc.
Proof.
  induction s as [|c s IH]; intros H; [reflexivity|].
  apply contains_false in H. destruct H as [Hp Hc].
  cbn [last_part]. rewrite Hp. now apply IH.
Qed.

Lemma last_part_skip (sep a s acc : string) :
  last_part sep (a ++ s) (String.length a) acc = last_part sep s O acc.
Proof. induction a as [|c a IH]; [reflexivity|exact IH]. Qed.

Lemma string_length_app (a b : string) :
  String.length (a ++ b) = (String.length a + String.length b)%nat.
Proof. induction a as [|c a IH]; cbn; [reflexivity|now rewrite IH]. Qed.

Lemma prefix_regions (c : ascii) (p id : string) :
  String.prefix "/regions/" (String c (p ++ "/regions/" ++ id))
  = String.prefix "/regions/" (String c (p ++ "/regions")).
Proof.
  replace (String c (p ++ "/regions/" ++ id))
    with (String c (p ++ "/regions") ++ String "/" id).
  - apply prefix_app. cbn [String.length]. rewrite string_length_app. cbn. lia.
  - cbn [append]. f_equal. now rewrite append_assoc'.
Qed.

Lemma last_part_at_regions (id acc : string) :
  contains "/regions/" id = false ->
  last_part "/regions/" ("/regions/" ++ id) O acc = id.
Proof.
  intros Hid.
  change ("/regions/" ++ id) with (String "/" ("regions/" ++ id)).
  cbn [last_part].
  replace (String.prefix "/regions/" (String "/" ("regions/" ++ id)))
    with true by (cbn; now destruct id).
  change (Nat.pred (String.length "/regions/"))
    with (String.length "regions/").
  rewrite last_part_skip.
  change (drop (String.length "/regions/") (String "/" ("regions/" ++ id)))
    with id.
  now apply last_part_no_match.
Qed.

(** The text after the only place where ["/regions/"] starts. *)
Lemma split_last_regions (p id : string) :
  contains "/regions/" (p ++ "/regions") = false ->
  contains "/regions/" id = false ->
  split_last "/regions/" (p ++ "/regions/" ++ id) = id.
Proof.
  intros Hp Hid. unfold split_last.
  generalize (p ++ "/regions/" ++ id) at 2. revert Hp.
  induction p as [|c p IH]; intros Hp acc.
  - now apply last_part_at_regions.
  - change (String c p ++ "/regions") with (String c (p ++ "/regions")) in Hp.
    apply contains_false in Hp. destruct Hp as [Hpre Hc].
    change (String c p ++ "/regions/" ++ id)
      with (String c (p ++ "/regions/" ++ id)).
    rewrite <- (prefix_regions c p id) in Hpre.
    remember (p ++ "/regions/" ++ id) as rest.
    cbn [last_part]. rewrite Hpre. subst rest. now apply IH.
Qed.

(** X13: the region of a document is the text after ["/regions/"] in its
    region link; without such a link it is empty.  A storage profile
    without [regionId] gets its region the same way. *)
Theorem region_id_is_read_off_the_link (d : json) (p id : string) :
  region_href d = p ++ "/regions/" ++ id ->
  contains "/regions/" (p ++ "/regions") = false ->
  contains "/regions/" id = false ->
  linked_region_id d = id
  /\ (get_str_or "regionId" "" d = "" -> storage_region_id d = id).
Proof.
  intros Hhref Hp Hid.
  assert (Hc : contains "/regions/" (region_href d) = true).
  { rewrite Hhref. apply contains_app. cbn. now destruct id. }
  split.
  - unfold linked_region_id. rewrite Hc, Hhref.
    now apply split_last_regions.
  - intros Hr. unfold storage_region_id. rewrite Hr. cbn [String.eqb negb].
    rewrite Hc, Hhref. now apply split_last_regions.
Qed.

Lemma region_id_is_read_off_the_link_witness :
  linked_region_id Fixtures.ubuntu_r1 = "r1"
  /\ (get_str_or "regionId" "" Fixtures.ubuntu_r1 = "" ->
      storage_region_id Fixtures.ubuntu_r1 = "r1").
Proof.
  apply (@region_id_is_read_off_the_link Fixtures.ubuntu_r1 "/iaas/api" "r1");
    reflexivity.
Defined.

(** ** Storage and image accounting *)

Section StorageCounts.
Variable B : Type.
Variable client : AriaClient B.

Ltac step_done :=
  repeat apply conj;
  [ reflexivity
  | unfold accounted;
    cbn [s_add_created s_add_updated s_add_failed s_add_skipped
         s_created s_updated s_failed s_skipped];
    repeat first [rewrite count_lines_print | rewrite count_lines_send];
    cbn [is_storage_no_change count_lines printed filter_map filter
         List.length]; lia
  | cbn [s_add_created s_add_updated s_add_failed s_add_skipped
         s_created s_updated s_failed s_skipped sent filter_map List.length];
    lia
  | cbn [s_add_created s_add_updated s_add_failed s_add_skipped
         s_created s_updated s_failed s_skipped sent filter_map List.length];
    lia ].

Lemma storage_step_counts
  (storage_lookup : PyDict.t (option string) json)
  (region_lookup compute_lookup : PyDict.t (option string) (option string))
  (sp : storage_cfg) (results : storage_results) (b : B) (lg : list event) :
  exists results' b' delta,
    process_storage_profile client false storage_lookup region_lookup
      compute_lookup sp results (World b lg)
    = Some (results', World b' (lg ++ delta)%list)
    /\ (accounted results' + count_lines is_storage_no_change delta
        = S (accounted results))%nat
    /\ (s_created results' + s_updated results'
        <= s_created results + s_updated results
           + List.length (sent delta))%nat
    /\ (s_created results + s_updated results + s_failed results
        + List.length (sent delta)
        <= s_created results' + s_updated results' + s_failed results')%nat.
Proof.
  unfold process_storage_profile.
  set (compute_id := resolve_compute compute_lookup (sp_compute sp)).
  assert (Hrest : forall lg0,
    exists results' b' delta,
      match find_doc storage_lookup (sp_name sp) with
      | Some profile_summary =>
          bind (get_storage_profile_detail client (get_str "id" profile_summary))
            (fun profile =>
               if negb (truthy profile)
               then bind (print (FailedDetails (sp_name sp)))
                      (fun _ => ret (s_add_failed results))
               else
                 let tags_equal := tags_match (get_tags profile) (sp_tags sp) in
                 let matches := compute_matches profile compute_id in
                 if (tags_equal && matches)%bool
                 then bind (print (StorageNoChange (sp_name sp)
                                     (if truthy_str (sp_compute sp)
                                      then " (compute: "
                                           ++ py_str (sp_compute sp) ++ ")"
                                      else "")))
                        (fun _ => ret results)
                 else
                   let profile_id := get_str "id" profile_summary in
                   let changes :=
                     changes_text (negb tags_equal) (negb matches)
                       (sp_tags sp) (sp_compute sp) in
                   if false
                   then bind (print (WouldUpdateStorage (sp_name sp) changes))
                          (fun _ => ret results)
                   else
                     bind (update_storage_profile_tags client profile_id
                             (sp_tags sp) profile compute_id)
                       (fun r =>
                          if fst r
                          then bind (print (UpdatedStorage (sp_name sp) changes))
                                 (fun _ => ret (s_add_updated results))
                          else bind (print (Failed (sp_name sp) (snd r)))
                                 (fun _ => ret (s_add_failed results))))
      | None =>
          if sp_create sp then
            let region_name := sp_region sp in
            let description :=
              str_or (py_str (sp_name sp) ++ " storage profile")
                (sp_description sp) in
            let provisioning_type := str_or "thin" (sp_provisioning_type sp) in
            let default_item := sp_default sp in
            let region_id :=
              match PyDict.get ostr_eqb region_name region_lookup with
              | Some rid => rid
              | None => None
              end in
            if negb (truthy_str region_id)
            then bind (print (CannotCreate (sp_name sp) region_name))
                   (fun _ => ret (s_add_skipped results))
            else
              let compute_info :=
                if truthy_str (sp_compute sp)
                then " bound to " ++ py_str (sp_compute sp) else "" in
              if false
              then bind (print (WouldCreateStorage (sp_name sp) region_name
                                  compute_info (tag_str (sp_tags sp))))
                     (fun _ => ret results)
              else
                bind (create_storage_profile client (sp_name sp) description
                        region_id (sp_tags sp) provisioning_type default_item
                        compute_id)
                  (fun r =>
                     if fst r
                     then bind (print (CreatedStorage (sp_name sp) region_name
                                         compute_info (tag_str (sp_tags sp))))
                            (fun _ => ret (s_add_created results))
                     else bind (print (FailedCreate (sp_name sp) (snd r)))
                            (fun _ => ret (s_add_failed results)))
          else bind (print (NotFoundNoCreate (sp_name sp)))
                 (fun _ => ret (s_add_skipped results))
      end (World b lg0)
      = Some (results', World b' (lg0 ++ delta)%list)
      /\ (accounted results' + count_lines is_storage_no_change delta
          = S (accounted results))%nat
      /\ (s_created results' + s_updated results'
          <= s_created results + s_updated results
             + List.length (sent delta))%nat
      /\ (s_created results + s_updated results + s_failed results
          + List.length (sent delta)
          <= s_created results' + s_updated results' + s_failed results')%nat).
  { intros lg0.
    destruct (find_doc storage_lookup (sp_name sp)) as [summary|].
    - erewrite bind_eq by apply detail_eq. cbv beta zeta iota.
      set (profile := detail_at client b (get_str "id" summary)).
      destruct (negb (truthy profile)).
      + rewrite bind_print. unfold ret.
        exists (s_add_failed results), b, [Print (FailedDetails (sp_name sp))].
        step_done.
      + destruct (tags_match (get_tags profile) (sp_tags sp)
                  && compute_matches profile compute_id)%bool.
        * rewrite bind_print. unfold ret.
          eexists results, b, [Print (StorageNoChange _ _)]. step_done.
        * erewrite bind_eq by apply update_storage_profile_tags_eq.
          cbv beta zeta.
          set (r := storage_update_request client (get_str "id" summary)
                      (sp_tags sp) profile compute_id).
          destruct (fst (updated_result (snd (session_send client b r))));
            rewrite bind_print; unfold ret; rewrite <- app_assoc.
          -- eexists (s_add_updated results), (fst (session_send client b r)),
               [Send r; Print (UpdatedStorage _ _)]. step_done.
          -- eexists (s_add_failed results), (fst (session_send client b r)),
               [Send r; Print (Failed _ _)]. step_done.
    - destruct (sp_create sp).
      + cbv zeta iota.
        destruct (negb (truthy_str
                          match PyDict.get ostr_eqb (sp_region sp) region_lookup with
                          | Some rid => rid
                          | None => None
                          end)).
        * rewrite bind_print. unfold ret.
          eexists (s_add_skipped results), b, [Print (CannotCreate _ _)].
          step_done.
        * erewrite bind_eq by apply create_storage_profile_eq.
          cbv beta zeta.
          match goal with
          | |- context [session_send client b ?req] => set (r := req)
          end.
          destruct (fst (created_result (snd (session_send client b r))));
            rewrite bind_print; unfold ret; rewrite <- app_assoc.
          -- eexists (s_add_created results), (fst (session_send client b r)),
               [Send r; Print (CreatedStorage _ _ _ _)]. step_done.
          -- eexists (s_add_failed results), (fst (session_send client b r)),
               [Send r; Print (FailedCreate _ _)]. step_done.
      + rewrite bind_print. unfold ret.
        eexists (s_add_skipped results), b, [Print (NotFoundNoCreate _)].
        step_done. }
  cbv zeta.
  destruct (truthy_str (sp_compute sp) && negb (truthy_str compute_id))%bool.
  - rewrite bind_print.
    destruct (Hrest (lg ++ [Print (ComputeNotFound (sp_compute sp) (sp_name sp))])%list)
      as (r' & b' & delta & Heq & Ha & Hs1 & Hs2).
    exists r', b', (Print (ComputeNotFound (sp_compute sp) (sp_name sp)) :: delta).
    split; [etransitivity; [exact Heq|now rewrite <- app_assoc]|].
    rewrite count_lines_print, sent_print. cbn [is_storage_no_change].
    repeat apply conj; try assumption; lia.
  - rewrite bind_ret. apply Hrest.
Qed.

Lemma storage_loop_counts
  (storage_lookup : PyDict.t (option string) json)
  (region_lookup compute_lookup : PyDict.t (option string) (option string))
  (sps : list storage_cfg) :
  forall (results : storage_results) (b : B) (lg : list event),
  exists results' b' delta,
    for_each
      (process_storage_profile client false storage_lookup region_lookup
         compute_lookup) sps results (World b lg)
    = Some (results', World b' (lg ++ delta)%list)
    /\ (accounted results' + count_lines is_storage_no_change delta
        = accounted results + List.length sps)%nat
    /\ (s_created results' + s_updated results'
        <= s_created results + s_updated results
           + List.length (sent delta))%nat
    /\ (s_created results + s_updated results + s_failed results
        + List.length (sent delta)
        <= s_created results' + s_updated results' + s_failed results')%nat.
Proof.
  induction sps as [|sp sps IH]; intros results b lg.
  - exists results, b, []. cbn. rewrite app_nil_r.
    repeat apply conj; try reflexivity; lia.
  - destruct (storage_step_counts storage_lookup region_lookup compute_lookup
                sp results b lg) as (r1 & b1 & d1 & E1 & A1 & S1 & T1).
    destruct (IH r1 b1 (lg ++ d1)%list) as (r2 & b2 & d2 & E2 & A2 & S2 & T2).
    exists r2, b2, (d1 ++ d2)%list. cbn [for_each]. run E1.
    split; [etransitivity; [exact E2|now rewrite app_assoc]|].
    rewrite count_lines_app, sent_app, length_app. cbn [List.length].
    repeat apply conj; lia.
Qed.
End StorageCounts.

(** X14: the summary of the storage command in apply mode accounts for
    every configured profile exactly once. *)
Theorem storage_summary_accounts_for_every_profile (B : Type)
  (client : AriaClient B) (fuel : nat) (cfg : config) (b : B)
  (lg : list event) (api_regions : list json) :
  paginate client fuel b (Some (_api_url client "/iaas/api/regions")) []
  = Some api_regions ->
  list_or_nil (storage_profiles (tags cfg)) <> [] ->
  exists b' delta c u f s,
    cmd_process_storage client fuel cfg false (World b lg)
    = Some (Return 0,
            World b' ((lg ++ delta) ++ [Print (StorageSummary c u f s)])%list)
    /\ (c + u + f + s + count_lines is_storage_no_change delta
        = List.length (list_or_nil (storage_profiles (tags cfg))))%nat
    /\ (c + u <= List.length (sent delta))%nat
    /\ (List.length (sent delta) <= c + u + f)%nat.
Proof.
  intros Hregions Hne. unfold cmd_process_storage.
  rewrite (nonempty_match _ _ Hne).
  erewrite bind_eq by apply get_first_page_at. cbv beta.
  erewrite bind_eq by (apply get_paginated_eq; exact Hregions). cbv beta.
  erewrite bind_eq by apply get_first_page_at. cbv beta.
  destruct (storage_loop_counts client
              (by_name (first_page_at client b "/iaas/api/storage-profiles"))
              (ids_by_name api_regions)
              (ids_by_name (first_page_at client b "/iaas/api/fabric-computes"))
              (list_or_nil (storage_profiles (tags cfg)))
              no_storage_results b lg)
    as (r & b' & d & E & A & S1 & S2).
  exists b', d, (s_created r), (s_updated r), (s_failed r), (s_skipped r).
  split.
  - run E. rewrite bind_print. reflexivity.
  - unfold accounted in A. cbn in A, S1, S2. repeat apply conj; lia.
Qed.

Lemma storage_summary_accounts_for_every_profile_witness :
  exists b' delta c u f s,
    cmd_process_storage Fixtures.demo 3 Fixtures.rollout false (World [] [])
    = Some (Return 0,
            World b' (([] ++ delta) ++ [Print (StorageSummary c u f s)])%list)
    /\ (c + u + f + s + count_lines is_storage_no_change delta
        = List.length (list_or_nil (storage_profiles (tags Fixtures.rollout))))%nat
    /\ (c + u <= List.length (sent delta))%nat
    /\ (List.length (sent delta) <= c + u + f)%nat.
Proof.
  apply (@storage_summary_accounts_for_every_profile _ Fixtures.demo 3
           Fixtures.rollout [] []
           [Fixtures.region_doc "R1" "r1"; Fixtures.region_doc "R2" "r2"]).
  - reflexivity.
  - discriminate.
Defined.

Section Creations.
Variable B : Type.
Variable client : AriaClient B.

Lemma posts_of_plan (b : B)
  (storage_lookup : PyDict.t (option string) json)
  (region_lookup compute_lookup : PyDict.t (option string) (option string))
  (sp : storage_cfg) :
  filter is_post
    (opt_list
       (option_map (storage_request client sp)
          (storage_plan_of client b storage_lookup region_lookup
             compute_lookup sp)))
  = opt_list (creation_of client storage_lookup region_lookup compute_lookup sp).
Proof.
  unfold storage_plan_of, creation_of.
  destruct (find_doc storage_lookup (sp_name sp)) as [summary|].
  - destruct (negb (truthy _)); [reflexivity|].
    destruct (_ && _)%bool; reflexivity.
  - destruct (sp_create sp); [|reflexivity]. cbv zeta. cbn [andb].
    destruct (truthy_str _); reflexivity.
Qed.

Lemma plan_without_summary (b : B)
  (storage_lookup : PyDict.t (option string) json)
  (region_lookup compute_lookup : PyDict.t (option string) (option string))
  (sp : storage_cfg) :
  find_doc storage_lookup (sp_name sp) = None ->
  option_map (storage_request client sp)
    (storage_plan_of client b storage_lookup region_lookup compute_lookup sp)
  = creation_of client storage_lookup region_lookup compute_lookup sp.
Proof.
  intros H. unfold storage_plan_of, creation_of. rewrite H.
  destruct (sp_create sp); [|reflexivity]. cbv zeta. cbn [andb].
  destruct (truthy_str _); reflexivity.
Qed.

Lemma storage_loop_posts
  (storage_lookup : PyDict.t (option string) json)
  (region_lookup compute_lookup : PyDict.t (option string) (option string))
  (sps : list storage_cfg) :
  forall (results : storage_results) (b : B) (lg : list event),
  exists results' b' delta,
    for_each
      (process_storage_profile client false storage_lookup region_lookup
         compute_lookup) sps results (World b lg)
    = Some (results', World b' (lg ++ delta)%list)
    /\ filter is_post (sent delta)
       = filter_map
           (creation_of client storage_lookup region_lookup compute_lookup)
           sps
    /\ ((forall sp, In sp sps -> find_doc storage_lookup (sp_name sp) = None) ->
        sent delta
        = filter_map
            (creation_of client storage_lookup region_lookup compute_lookup)
            sps).
Proof.
  induction sps as [|sp sps IH]; intros results b lg.
  - exists results, b, []. cbn. rewrite app_nil_r. auto.
  - destruct (storage_step client false storage_lookup region_lookup
                compute_lookup sp results b lg)
      as (r1 & b1 & d1 & E1 & _ & S1 & _).
    destruct (IH r1 b1 (lg ++ d1)%list) as (r2 & b2 & d2 & E2 & P2 & A2).
    exists r2, b2, (d1 ++ d2)%list. cbn [for_each]. run E1.
    split; [etransitivity; [exact E2|now rewrite app_assoc]|].
    rewrite sent_app, filter_app, P2, S1, posts_of_plan.
    cbn [filter_map]. split.
    + now destruct (creation_of _ _ _ _ sp).
    + intros Hnone. rewrite A2 by (intros sp' H'; apply Hnone; now right).
      rewrite plan_without_summary by (apply Hnone; now left).
      now destruct (creation_of _ _ _ _ sp).
Qed.
End Creations.

(** X15: in apply mode the POSTs of the storage command are the create
    requests of the configured profiles that have [create: true], whose
    name is not in the storage listing read at the start and whose region
    resolves, in the order of the configuration. *)
Theorem storage_creations_follow_the_first_listing (B : Type)
  (client : AriaClient B) (fuel : nat) (cfg : config) (b : B)
  (lg : list event) (api_regions : list json) :
  paginate client fuel b (Some (_api_url client "/iaas/api/regions")) []
  = Some api_regions ->
  exists o b' delta,
    cmd_process_storage client fuel cfg false (World b lg)
    = Some (o, World b' (lg ++ delta)%list)
    /\ filter is_post (sent delta)
       = filter_map
           (creation_of client
              (by_name (first_page_at client b "/iaas/api/storage-profiles"))
              (ids_by_name api_regions)
              (ids_by_name
                 (first_page_at client b "/iaas/api/fabric-computes")))
           (list_or_nil (storage_profiles (tags cfg))).
Proof.
  intros Hregions. unfold cmd_process_storage.
  destruct (list_or_nil (storage_profiles (tags cfg))) as [|sp0 sps0] eqn:Es.
  { exists (Return 1), b, [Print NoStorageDefined].
    rewrite bind_print. unfold ret. split; reflexivity. }
  rewrite <- Es.
  erewrite bind_eq by apply get_first_page_at. cbv beta.
  erewrite bind_eq by (apply get_paginated_eq; exact Hregions). cbv beta.
  erewrite bind_eq by apply get_first_page_at. cbv beta.
  destruct (storage_loop_posts client
              (by_name (first_page_at client b "/iaas/api/storage-profiles"))
              (ids_by_name api_regions)
              (ids_by_name (first_page_at client b "/iaas/api/fabric-computes"))
              (list_or_nil (storage_profiles (tags cfg)))
              no_storage_results b lg)
    as (r & b' & d & E & P & _).
  exists (Return 0), b',
    (d ++ [Print (StorageSummary (s_created r) (s_updated r) (s_failed r)
                    (s_skipped r))])%list.
  split.
  - run E. rewrite bind_print. unfold ret. now rewrite app_assoc.
  - rewrite sent_app, filter_app. cbn. rewrite app_nil_r. exact P.
Qed.

Lemma storage_creations_follow_the_first_listing_witness :
  exists o b' delta,
    cmd_process_storage Fixtures.demo 3 Fixtures.rollout false (World [] [])
    = Some (o, World b' ([] ++ delta)%list)
    /\ filter is_post (sent delta)
       = filter_map
           (creation_of Fixtures.demo
              (by_name (first_page_at Fixtures.demo []
                          "/iaas/api/storage-profiles"))
              (ids_by_name
                 [Fixtures.region_doc "R1" "r1"; Fixtures.region_doc "R2" "r2"])
              (ids_by_name
                 (first_page_at Fixtures.demo [] "/iaas/api/fabric-computes")))
           (list_or_nil (storage_profiles (tags Fixtures.rollout))).
Proof.
  apply (@storage_creations_follow_the_first_listing _ Fixtures.demo 3
           Fixtures.rollout [] []
           [Fixtures.region_doc "R1" "r1"; Fixtures.region_doc "R2" "r2"]).
  reflexivity.
Defined.

(** X16: when the storage listing cannot be read (another status than
    200), every configured profile counts as missing: apply mode sends a
    create request for each profile with [create: true] whose region
    resolves, and nothing else. *)
Theorem unreadable_storage_listing_creates_profiles (B : Type)
  (client : AriaClient B) (fuel : nat) (cfg : config) (b : B)
  (lg : list event) (api_regions : list json) :
  status_code
    (session_get client b (_api_url client "/iaas/api/storage-profiles"))
  <> 200%Z ->
  paginate client fuel b (Some (_api_url client "/iaas/api/regions")) []
  = Some api_regions ->
  list_or_nil (storage_profiles (tags cfg)) <> [] ->
  exists b' delta,
    cmd_process_storage client fuel cfg false (World b lg)
    = Some (Return 0, World b' (lg ++ delta)%list)
    /\ sent delta
       = filter_map
           (creation_of client []
              (ids_by_name api_regions)
              (ids_by_name
                 (first_page_at client b "/iaas/api/fabric-computes")))
           (list_or_nil (storage_profiles (tags cfg))).
Proof.
  intros Hst Hregions Hne. unfold cmd_process_storage.
  rewrite (nonempty_match _ _ Hne).
  erewrite bind_eq by apply get_first_page_at. cbv beta.
  erewrite bind_eq by (apply get_paginated_eq; exact Hregions). cbv beta.
  erewrite bind_eq by apply get_first_page_at. cbv beta.
  assert (Hnil : first_page_at client b "/iaas/api/storage-profiles" = []).
  { unfold first_page_at. apply Z.eqb_neq in Hst. now rewrite Hst. }
  rewrite Hnil. change (by_name []) with (@nil (option string * json)).
  destruct (storage_loop_posts client []
              (ids_by_name api_regions)
              (ids_by_name (first_page_at client b "/iaas/api/fabric-computes"))
              (list_or_nil (storage_profiles (tags cfg)))
              no_storage_results b lg)
    as (r & b' & d & E & _ & A).
  exists b',
    (d ++ [Print (StorageSummary (s_created r) (s_updated r) (s_failed r)
                    (s_skipped r))])%list.
  split.
  - run E. rewrite bind_print. unfold ret. now rewrite app_assoc.
  - rewrite sent_app. cbn. rewrite app_nil_r. apply A. reflexivity.
Qed.

Lemma unreadable_storage_listing_creates_profiles_witness :
  exists b' delta,
    cmd_process_storage Scenarios.no_storage_listing 3
      (Fixtures.storage_of
         [{| sp_name := Some "gold"; sp_tags := [Tag "tier" "gold"];
             sp_create := true; sp_compute := None; sp_region := Some "R1";
             sp_description := None; sp_provisioning_type := None;
             sp_default := false |}])
      false (World [] [])
    = Some (Return 0, World b' ([] ++ delta)%list)
    /\ sent delta
       = filter_map
           (creation_of Scenarios.no_storage_listing []
              (ids_by_name [Fixtures.region_doc "R1" "r1"])
              (ids_by_name
                 (first_page_at Scenarios.no_storage_listing []
                    "/iaas/api/fabric-computes")))
           (list_or_nil
              (storage_profiles
                 (tags
                    (Fixtures.storage_of
                       [{| sp_name := Some "gold";
                           sp_tags := [Tag "tier" "gold"];
                           sp_create := true; sp_compute := None;
                           sp_region := Some "R1";
                           sp_description := None;
                           sp_provisioning_type := None;
                           sp_default := false |}])))).
Proof.
  apply (@unreadable_storage_listing_creates_profiles _
           Scenarios.no_storage_listing 3 _ [] []
           [Fixtures.region_doc "R1" "r1"]).
  - vm_compute. discriminate.
  - reflexivity.
  - discriminate.
Defined.

Lemma sum_cons (a : nat) (l : list nat) :
  list_sum (a :: l) = (a + list_sum l)%nat.
Proof. reflexivity. Qed.

Lemma sum_indicator (x : option string) (ks : list (option string)) :
  NoDup ks -> In x ks ->
  list_sum (map (fun k => if ostr_eqb x k then 1 else 0)%nat ks) = 1%nat.
Proof.
  induction 1 as [|k ks Hk Hnd IH]; intros Hin; [destruct Hin|].
  cbn [map]. rewrite sum_cons. destruct Hin as [->|Hin].
  - rewrite ostr_eqb_refl.
    assert (H0 : list_sum (map (fun k => if ostr_eqb x k then 1 else 0)%nat ks)
                 = 0%nat).
    { clear IH Hnd. induction ks as [|k ks IH]; [reflexivity|].
      cbn [map]. rewrite sum_cons. destruct (ostr_eqb x k) eqn:E.
      - apply ostr_eqb_eq in E. subst k. exfalso. apply Hk. now left.
      - rewrite IH; [reflexivity|]. intros H. apply Hk. now right. }
    rewrite H0. reflexivity.
  - destruct (ostr_eqb x k) eqn:E.
    + apply ostr_eqb_eq in E. subst k. contradiction.
    + rewrite IH by assumption. reflexivity.
Qed.

Lemma sum_zero (A : Type) (ks : list A) :
  list_sum (map (fun _ => 0%nat) ks) = 0%nat.
Proof.
  induction ks as [|k ks IH]; [reflexivity|]. cbn [map]. now rewrite sum_cons.
Qed.

Lemma sum_plus (A : Type) (f g : A -> nat) (ks : list A) :
  list_sum (map (fun k => f k + g k)%nat ks)
  = (list_sum (map f ks) + list_sum (map g ks))%nat.
Proof.
  induction ks as [|k ks IH]; [reflexivity|]. cbn [map].
  rewrite !sum_cons, IH. lia.
Qed.

Lemma resolved_pair_region
  (resolved : PyDict.t (option string) (option string))
  (fabric_lookup : PyDict.t (string * string) string)
  (p : option string * string * string) (e : image_entry) :
  resolve_pair resolved fabric_lookup p = inl e ->
  In (Some (snd (fst p))) (PyDict.keys resolved).
Proof.
  destruct p as [[m r] t]. unfold resolve_pair, resolved_id. cbn [fst snd].
  destruct (PyDict.get ostr_eqb (Some r) resolved) as [rid|] eqn:E;
    [|discriminate].
  intros _. apply (get_In _ ostr_eqb_eq) in E.
  unfold PyDict.keys. apply in_map_iff. now exists (Some r, rid).
Qed.

Lemma batches_and_warnings
  (resolved : PyDict.t (option string) (option string))
  (fabric_lookup : PyDict.t (string * string) string)
  (pairs : list (option string * string * string)) :
  NoDup (PyDict.keys resolved) ->
  (list_sum
     (map (fun k => List.length (batch_of resolved fabric_lookup k pairs))
        (PyDict.keys resolved))
   + List.length (warnings_of resolved fabric_lookup pairs)
   = List.length pairs)%nat.
Proof.
  intros Hnd. induction pairs as [|p pairs IH].
  - cbn. now rewrite sum_zero.
  - unfold batch_of, warnings_of in *. cbn [filter_map List.length].
    destruct (resolve_pair resolved fabric_lookup p) as [e|w] eqn:E.
    + rewrite <- IH.
      erewrite map_ext with
        (g := fun k =>
                ((if ostr_eqb (Some (snd (fst p))) k then 1 else 0)
                 + List.length
                     (filter_map
                        (fun p0 =>
                           if ostr_eqb (Some (snd (fst p0))) k
                           then match resolve_pair resolved fabric_lookup p0 with
                                | inl e0 => Some e0
                                | inr _ => None
                                end
                           else None) pairs))%nat).
      * rewrite sum_plus.
        rewrite sum_indicator;
          [lia|assumption|now apply (resolved_pair_region _ _ _ E)].
      * intros k. now destruct (ostr_eqb (Some (snd (fst p))) k).
    + cbn [List.length]. rewrite <- IH.
      erewrite map_ext with
        (g := fun k =>
                List.length
                  (filter_map
                     (fun p0 =>
                        if ostr_eqb (Some (snd (fst p0))) k
                        then match resolve_pair resolved fabric_lookup p0 with
                             | inl e0 => Some e0
                             | inr _ => None
                             end
                        else None) pairs)).
      * lia.
      * intros k. now destruct (ostr_eqb (Some (snd (fst p))) k).
Qed.

(** X17: every (mapping, region, template) triple of the configuration
    ends up in exactly one place: as an entry of one region's batch, or
    as one warning. *)
Theorem every_image_mapping_is_batched_or_warned
  (resolved : PyDict.t (option string) (option string))
  (fabric_lookup : PyDict.t (string * string) string)
  (images_config : list image_cfg) :
  NoDup (PyDict.keys resolved) ->
  let plan := build_images_by_region resolved fabric_lookup images_config in
  (batched (fst plan) + List.length (snd plan)
   = List.length (image_pairs images_config))%nat.
Proof.
  intros Hnd plan.
  destruct (build_images_by_region_spec resolved fabric_lookup images_config)
    as (Hget & Hkeys & Hwarn). fold plan in Hget, Hkeys, Hwarn.
  rewrite Hwarn.
  rewrite <- (batches_and_warnings resolved fabric_lookup
                (image_pairs images_config) Hnd).
  f_equal. unfold batched.
  assert (Hd : fst plan
               = map (fun k => (k, batch_of resolved fabric_lookup k
                                     (image_pairs images_config)))
                   (PyDict.keys (fst plan))).
  { apply (@dict_by_keys _ _ ostr_eqb ostr_eqb_eq).
    - now rewrite Hkeys.
    - intros k Hk. rewrite Hget. rewrite Hkeys in Hk.
      unfold PyDict.mem.
      destruct (PyDict.get ostr_eqb k resolved) eqn:E; [reflexivity|].
      exfalso. unfold PyDict.keys in Hk. apply in_map_iff in Hk.
      destruct Hk as [[k' v] [<- Hin]]. cbn [fst] in E.
      apply (@get_of_In _ _ ostr_eqb ostr_eqb_eq _ _ _ Hnd) in Hin. congruence. }
  rewrite Hd at 1. rewrite map_map. cbn [snd]. now rewrite Hkeys.
Qed.

Lemma every_image_mapping_is_batched_or_warned_witness :
  let plan :=
    build_images_by_region Fixtures.two_regions
      (build_fabric_lookup [Fixtures.ubuntu_r1; Fixtures.ubuntu_r2])
      (images Fixtures.sizing) in
  (batched (fst plan) + List.length (snd plan)
   = List.length (image_pairs (images Fixtures.sizing)))%nat.
Proof.
  apply (@every_image_mapping_is_batched_or_warned Fixtures.two_regions
           (build_fabric_lookup [Fixtures.ubuntu_r1; Fixtures.ubuntu_r2])
           (images Fixtures.sizing)).
  repeat constructor; cbn; intuition discriminate.
Defined.

(** ** The client's lookup, the image listing and the login *)

Lemma lookup_key_eqb_eq (a b : lookup_key) :
  lookup_key_eqb a b = true <-> a = b.
Proof.
  destruct a as [r n|n], b as [r' n'|n']; cbn; try (split; congruence).
  - rewrite andb_true_iff, !String.eqb_eq.
    split; [intros [-> ->]; reflexivity|intros E; injection E; auto].
  - rewrite String.eqb_eq. split; congruence.
Qed.

Lemma enters_lookup_dec (name : string) (img : json) :
  enters_lookup name img
  \/ (get_str_or "name" "" img <> name
      \/ (negb (get_str_or "name" "" img =? "")
          && negb (get_str_or "id" "" img =? ""))%string%bool = false).
Proof.
  unfold enters_lookup.
  destruct (string_dec (get_str_or "name" "" img) name) as [E|E];
    [|right; now left].
  destruct (get_str_or "name" "" img =? "")%string eqn:En.
  { right. now right. }
  destruct (get_str_or "id" "" img =? "")%string eqn:Ei.
  { right. right. reflexivity. }
  left. apply String.eqb_neq in En, Ei. subst name. auto.
Qed.

Lemma add_keeps_name (lookup : PyDict.t lookup_key lookup_entry) (img : json)
  (n : string) (v : lookup_entry) :
  PyDict.get lookup_key_eqb (ByName n) lookup = Some v ->
  PyDict.get lookup_key_eqb (ByName n) (add_fabric_image lookup img) = Some v.
Proof.
  intros H. unfold add_fabric_image.
  destruct (_ && _)%bool; [|exact H]. cbv zeta.
  set (l2 := PyDict.set lookup_key_eqb (ByRegion _ _) _
               (PyDict.set lookup_key_eqb (ByRegion _ _) _ lookup)).
  assert (H2 : PyDict.get lookup_key_eqb (ByName n) l2 = Some v).
  { unfold l2.
    rewrite !(get_set_other _ lookup_key_eqb_eq) by discriminate. exact H. }
  destruct (PyDict.mem lookup_key_eqb (ByName (get_str_or "name" "" img)) l2)
    eqn:Em; [exact H2|].
  rewrite (get_set_other _ lookup_key_eqb_eq); [exact H2|].
  intros E. injection E as ->. unfold PyDict.mem in Em. now rewrite H2 in Em.
Qed.

Lemma add_skips_name (lookup : PyDict.t lookup_key lookup_entry) (img : json)
  (n : string) :
  ~ enters_lookup n img ->
  PyDict.get lookup_key_eqb (ByName n) (add_fabric_image lookup img)
  = PyDict.get lookup_key_eqb (ByName n) lookup.
Proof.
  intros Hno. unfold add_fabric_image.
  destruct (enters_lookup_dec n img) as [H|[H|H]]; [contradiction| |].
  - destruct (_ && _)%bool; [|reflexivity]. cbv zeta.
    destruct (PyDict.mem _ _ _);
      rewrite ?(get_set_other _ lookup_key_eqb_eq) by congruence;
      reflexivity.
  - now rewrite H.
Qed.

Lemma add_first_name (lookup : PyDict.t lookup_key lookup_entry) (img : json)
  (n : string) :
  enters_lookup n img ->
  PyDict.get lookup_key_eqb (ByName n) lookup = None ->
  PyDict.get lookup_key_eqb (ByName n) (add_fabric_image lookup img)
  = Some (NamedImage (get_str_or "id" "" img) (linked_region_id img)).
Proof.
  intros (Hn & Hne & Hid) Hnone. unfold add_fabric_image. rewrite Hn.
  apply String.eqb_neq in Hne, Hid. rewrite Hne, Hid. cbn [negb andb].
  cbv zeta. unfold PyDict.mem.
  rewrite !(get_set_other _ lookup_key_eqb_eq) by discriminate.
  rewrite Hnone. apply (get_set_same _ lookup_key_eqb_eq).
Qed.

Lemma fold_keeps_name (images : list json) :
  forall (lookup : PyDict.t lookup_key lookup_entry) (n : string)
    (v : lookup_entry),
  PyDict.get lookup_key_eqb (ByName n) lookup = Some v ->
  PyDict.get lookup_key_eqb (ByName n) (fold_left add_fabric_image images lookup)
  = Some v.
Proof.
  induction images as [|img images IH]; intros lookup n v H; [exact H|].
  cbn [fold_left]. apply IH. now apply add_keeps_name.
Qed.

Lemma fold_skips_name (images : list json) (n : string) :
  (forall x, In x images -> ~ enters_lookup n x) ->
  forall lookup,
  PyDict.get lookup_key_eqb (ByName n) (fold_left add_fabric_image images lookup)
  = PyDict.get lookup_key_eqb (ByName n) lookup.
Proof.
  induction images as [|img images IH]; intros H lookup; [reflexivity|].
  cbn [fold_left]. rewrite IH by (intros x Hx; apply H; now right).
  apply add_skips_name. apply H. now left.
Qed.

(** A fabric image that is stored under [(region, name)]. *)
Lemma add_sets_region (lookup : PyDict.t lookup_key lookup_entry) (img : json)
  (r n : string) :
  enters_lookup n img ->
  linked_region_id img = r \/ get_str_or "externalRegionId" "" img = r ->
  PyDict.get lookup_key_eqb (ByRegion r n) (add_fabric_image lookup img)
  = Some (ImageId (get_str_or "id" "" img)).
Proof.
  intros (Hn & Hne & Hid) Hr. unfold add_fabric_image. rewrite Hn.
  apply String.eqb_neq in Hne, Hid. rewrite Hne, Hid. cbn [negb andb].
  cbv zeta.
  set (l1 := PyDict.set lookup_key_eqb (ByRegion (linked_region_id img) n)
               (ImageId (get_str_or "id" "" img)) lookup).
  set (l2 := PyDict.set lookup_key_eqb
               (ByRegion (get_str_or "externalRegionId" "" img) n)
               (ImageId (get_str_or "id" "" img)) l1).
  assert (H2 : PyDict.get lookup_key_eqb (ByRegion r n) l2
               = Some (ImageId (get_str_or "id" "" img))).
  { unfold l2.
    destruct (string_dec (get_str_or "externalRegionId" "" img) r) as [->|Ne].
    - apply (get_set_same _ lookup_key_eqb_eq).
    - rewrite (get_set_other _ lookup_key_eqb_eq) by congruence.
      destruct Hr as [<-|Hr]; [|contradiction].
      apply (get_set_same _ lookup_key_eqb_eq). }
  destruct (PyDict.mem _ _ l2); [exact H2|].
  rewrite (get_set_other _ lookup_key_eqb_eq) by discriminate. exact H2.
Qed.

Lemma add_skips_region (lookup : PyDict.t lookup_key lookup_entry)
  (img : json) (r n : string) :
  ~ (enters_lookup n img
     /\ (linked_region_id img = r
         \/ get_str_or "externalRegionId" "" img = r)) ->
  PyDict.get lookup_key_eqb (ByRegion r n) (add_fabric_image lookup img)
  = PyDict.get lookup_key_eqb (ByRegion r n) lookup.
Proof.
  intros Hno. unfold add_fabric_image.
  destruct (negb (get_str_or "name" "" img =? "")
            && negb (get_str_or "id" "" img =? ""))%string%bool eqn:Ev;
    [|reflexivity].
  cbv zeta.
  assert (Hk : forall r', (linked_region_id img = r'
                           \/ get_str_or "externalRegionId" "" img = r') ->
               ByRegion r n <> ByRegion r' (get_str_or "name" "" img)).
  { intros r' Hr' E. injection E as <- ->. apply Hno. split; [|exact Hr'].
    apply andb_true_iff in Ev. destruct Ev as [E1 E2].
    apply negb_true_iff in E1, E2. apply String.eqb_neq in E1, E2.
    now repeat split. }
  destruct (PyDict.mem _ _ _);
    rewrite ?(get_set_other _ lookup_key_eqb_eq) by discriminate;
    rewrite (get_set_other _ lookup_key_eqb_eq) by (apply Hk; now right);
    rewrite (get_set_other _ lookup_key_eqb_eq) by (apply Hk; now left);
    reflexivity.
Qed.

Lemma fold_skips_region (images : list json) (r n : string) :
  (forall x, In x images ->
     ~ (enters_lookup n x
        /\ (linked_region_id x = r
            \/ get_str_or "externalRegionId" "" x = r))) ->
  forall lookup,
  PyDict.get lookup_key_eqb (ByRegion r n)
    (fold_left add_fabric_image images lookup)
  = PyDict.get lookup_key_eqb (ByRegion r n) lookup.
Proof.
  induction images as [|img images IH]; intros H lookup; [reflexivity|].
  cbn [fold_left]. rewrite IH by (intros x Hx; apply H; now right).
  apply add_skips_region. apply H. now left.
Qed.

(** X18: in the lookup of [get_fabric_images_lookup] a plain name stands
    for the first listed image with that name, and a pair (region, name)
    for the last listed image with that name whose linked or external
    region is the region. *)
Theorem fabric_images_lookup_first_by_name_last_by_region
  (before after : list json) (img : json) (n : string) :
  enters_lookup n img ->
  ((forall x, In x before -> ~ enters_lookup n x) ->
   PyDict.get lookup_key_eqb (ByName n)
     (fabric_images_lookup_of (before ++ img :: after))
   = Some (NamedImage (get_str_or "id" "" img) (linked_region_id img)))
  /\ (forall r,
        linked_region_id img = r \/ get_str_or "externalRegionId" "" img = r ->
        (forall x, In x after ->
           ~ (enters_lookup n x
              /\ (linked_region_id x = r
                  \/ get_str_or "externalRegionId" "" x = r))) ->
        PyDict.get lookup_key_eqb (ByRegion r n)
          (fabric_images_lookup_of (before ++ img :: after))
        = Some (ImageId (get_str_or "id" "" img))).
Proof.
  intros Hin. unfold fabric_images_lookup_of. split.
  - intros Hbefore. rewrite fold_left_app. cbn [fold_left].
    apply fold_keeps_name. apply add_first_name; [exact Hin|].
    now rewrite fold_skips_name.
  - intros r Hr Hafter. rewrite fold_left_app. cbn [fold_left].
    rewrite fold_skips_region by exact Hafter.
    now apply add_sets_region.
Qed.

Lemma fabric_images_lookup_first_by_name_last_by_region_witness :
  PyDict.get lookup_key_eqb (ByName "ubuntu-22")
    (fabric_images_lookup_of ([] ++ Fixtures.ubuntu_r1 :: [Fixtures.ubuntu_r2]))
  = Some (NamedImage "img-r1" "r1")
  /\ PyDict.get lookup_key_eqb (ByRegion "r1" "ubuntu-22")
       (fabric_images_lookup_of
          ([] ++ Fixtures.ubuntu_r1 :: [Fixtures.ubuntu_r2]))
     = Some (ImageId "img-r1").
Proof.
  destruct (@fabric_images_lookup_first_by_name_last_by_region []
              [Fixtures.ubuntu_r2] Fixtures.ubuntu_r1 "ubuntu-22")
    as [Hname Hregion].
  - repeat split; discriminate.
  - split.
    + apply Hname. intros x [].
    + apply (Hregion "r1"); [now left|].
      intros x [<-|[]] [_ [H|H]]; discriminate H.
Defined.

Section Sorting.
Variable A : Type.
Variable key : A -> string.

Lemma insert_by_perm (x : A) (xs : list A) :
  Permutation (insert_by key x xs) (x :: xs).
Proof.
  induction xs as [|y ys IH]; cbn; [reflexivity|].
  destruct (key x <? key y)%string; [reflexivity|].
  rewrite IH. apply perm_swap.
Qed.

Lemma sorted_by_perm_from (xs acc : list A) :
  Permutation (fold_left (fun acc x => insert_by key x acc) xs acc)
    (acc ++ xs).
Proof.
  revert acc. induction xs as [|x xs IH]; intros acc; cbn [fold_left].
  - now rewrite app_nil_r.
  - rewrite IH, insert_by_perm. apply Permutation_middle.
Qed.

Lemma sorted_by_perm (xs : list A) : Permutation (sorted_by key xs) xs.
Proof. apply (sorted_by_perm_from xs []). Qed.

Lemma ltb_leb (a b : string) : (a <? b)%string = true -> in_order a b.
Proof.
  unfold String.ltb, in_order, String.leb.
  destruct (String.compare a b); intros H; congruence.
Qed.

Lemma not_ltb_leb (a b : string) : (a <? b)%string = false -> in_order b a.
Proof.
  unfold String.ltb, in_order, String.leb.
  rewrite (String.compare_antisym b a).
  destruct (String.compare a b); cbn; intros H; congruence.
Qed.

Lemma insert_by_sorted (x : A) (xs : list A) :
  Sorted (fun a b => in_order (key a) (key b)) xs ->
  Sorted (fun a b => in_order (key a) (key b)) (insert_by key x xs).
Proof.
  induction xs as [|y ys IH]; intros H; cbn.
  - repeat constructor.
  - destruct (key x <? key y)%string eqn:E.
    + constructor; [exact H|]. constructor. now apply ltb_leb.
    + apply Sorted_inv in H. destruct H as [Hs Hh].
      constructor; [now apply IH|].
      destruct ys as [|z zs]; cbn.
      * constructor. now apply not_ltb_leb.
      * destruct (key x <? key z)%string.
        -- constructor. now apply not_ltb_leb.
        -- constructor. now inversion Hh.
Qed.

Lemma sorted_by_sorted (xs : list A) :
  Sorted (fun a b => in_order (key a) (key b)) (sorted_by key xs).
Proof.
  unfold sorted_by.
  assert (H : forall acc,
            Sorted (fun a b => in_order (key a) (key b)) acc ->
            Sorted (fun a b => in_order (key a) (key b))
              (fold_left (fun acc x => insert_by key x acc) xs acc)).
  { induction xs as [|x xs IH]; intros acc Hacc; [exact Hacc|].
    cbn [fold_left]. apply IH. now apply insert_by_sorted. }
  apply H. constructor.
Qed.
End Sorting.

Section Grouping.
Variable key : json -> string.

Lemma set_new (k : string) (v : list json) (d : PyDict.t string (list json)) :
  PyDict.get String.eqb k d = None ->
  PyDict.set String.eqb k v d = (d ++ [(k, v)])%list.
Proof.
  induction d as [|[k' v'] d IH]; cbn; [reflexivity|].
  destruct (k =? k')%string; [discriminate|]. intros H. now rewrite IH.
Qed.

Lemma set_append (k : string) (items : list json) (x : json)
  (d : PyDict.t string (list json)) :
  PyDict.get String.eqb k d = Some items ->
  Permutation (flat_map snd (PyDict.set String.eqb k (items ++ [x])%list d))
    (x :: flat_map snd d).
Proof.
  induction d as [|[k' v'] d IH]; cbn; [discriminate|].
  destruct (k =? k')%string.
  - intros H. injection H as ->. cbn.
    rewrite <- app_assoc. cbn. symmetry.
    rewrite app_comm_cons. apply Permutation_middle.
  - intros H. cbn. rewrite (IH H).
    rewrite app_comm_cons. symmetry. apply Permutation_middle.
Qed.

Lemma group_step_perm (d : PyDict.t string (list json)) (x : json) :
  Permutation (flat_map snd (group_step key d x)) (x :: flat_map snd d).
Proof.
  unfold group_step. unfold PyDict.mem.
  destruct (PyDict.get String.eqb (key x) d) as [items|] eqn:E.
  - rewrite E. now apply set_append.
  - rewrite (get_set_same _ String.eqb_eq).
    rewrite (set_new _ _ _ E).
    assert (Hg : PyDict.get String.eqb (key x) (d ++ [(key x, [])])%list
                 = Some []).
    { rewrite <- (set_new _ _ _ E). apply (get_set_same _ String.eqb_eq). }
    rewrite (set_append _ x _ Hg).
    rewrite flat_map_app. cbn. now rewrite app_nil_r.
Qed.

Lemma group_by_perm_from (docs : list json) :
  forall d,
  Permutation (flat_map snd (fold_left (group_step key) docs d))
    (flat_map snd d ++ docs).
Proof.
  induction docs as [|x docs IH]; intros d; cbn [fold_left].
  - now rewrite app_nil_r.
  - rewrite IH, group_step_perm. apply Permutation_middle.
Qed.

Lemma in_set (k : string) (v : list json) (d : PyDict.t string (list json))
  (g : string * list json) :
  In g (PyDict.set String.eqb k v d) -> g = (k, v) \/ In g d.
Proof.
  induction d as [|[k' v'] d IH]; cbn.
  - intros [<-|[]]. now left.
  - destruct (k =? k')%string; cbn.
    + intros [<-|H]; [now left|right; now right].
    + intros [<-|H]; [right; now left|].
      destruct (IH H) as [->|H']; [now left|right; now right].
Qed.

Lemma group_step_keys (d : PyDict.t string (list json)) (x : json) :
  (forall g y, In g d -> In y (snd g) -> key y = fst g) ->
  forall g y, In g (group_step key d x) -> In y (snd g) -> key y = fst g.
Proof.
  intros Hd g y. unfold group_step, PyDict.mem.
  destruct (PyDict.get String.eqb (key x) d) as [items|] eqn:E.
  - rewrite E. intros Hg Hy. apply in_set in Hg. destruct Hg as [->|Hg].
    + cbn [fst snd] in *. apply in_app_or in Hy.
      destruct Hy as [Hy|[<-|[]]]; [|reflexivity].
      apply (get_In _ String.eqb_eq) in E. now apply (Hd _ _ E).
    + now apply (Hd g).
  - rewrite (get_set_same _ String.eqb_eq). intros Hg Hy.
    apply in_set in Hg. destruct Hg as [->|Hg].
    + cbn [fst snd] in *. destruct Hy as [<-|[]]. reflexivity.
    + apply in_set in Hg. destruct Hg as [->|Hg]; [destruct Hy|].
      now apply (Hd g).
Qed.

Lemma group_step_NoDup (d : PyDict.t string (list json)) (x : json) :
  NoDup (PyDict.keys d) -> NoDup (PyDict.keys (group_step key d x)).
Proof.
  intros H. unfold group_step.
  destruct (PyDict.mem _ _ _); destruct (PyDict.get _ _ _);
    repeat (apply NoDup_keys_set; [exact String.eqb_eq|]); exact H.
Qed.

Lemma group_by_keys_from (docs : list json) :
  forall d,
  (forall g y, In g d -> In y (snd g) -> key y = fst g) ->
  NoDup (PyDict.keys d) ->
  (forall g y, In g (fold_left (group_step key) docs d) -> In y (snd g) ->
     key y = fst g)
  /\ NoDup (PyDict.keys (fold_left (group_step key) docs d)).
Proof.
  induction docs as [|x docs IH]; intros d Hd Hn; [now split|].
  cbn [fold_left]. apply IH.
  - now apply group_step_keys.
  - now apply group_step_NoDup.
Qed.
End Grouping.

Lemma flat_map_perm (A C : Type) (f g : A -> list C) (xs : list A) :
  (forall x, Permutation (f x) (g x)) ->
  Permutation (flat_map f xs) (flat_map g xs).
Proof.
  intros H. induction xs as [|x xs IH]; cbn; [reflexivity|].
  now apply Permutation_app.
Qed.

Lemma flat_map_of_map (A C D : Type) (h : A -> C) (f : C -> list D)
  (xs : list A) :
  flat_map f (map h xs) = flat_map (fun x => f (h x)) xs.
Proof. induction xs as [|x xs IH]; cbn; [reflexivity|now rewrite IH]. Qed.

(** X19: the listing of the fabric images shows every image exactly once,
    under its own region; the regions are distinct and in ascending
    order, and so are the template names inside a region. *)
Theorem image_listing_groups_and_sorts (images : list json) :
  let groups := image_groups images in
  Permutation (flat_map snd groups) images
  /\ (forall g item, In g groups -> In item (snd g) ->
        get_str_or "externalRegionId" "Unknown" item = fst g)
  /\ NoDup (map fst groups)
  /\ Sorted in_order (map fst groups)
  /\ (forall g, In g groups ->
        Sorted in_order (map (get_str_or "name" "") (snd g))).
Proof.
  intros groups. unfold groups, image_groups.
  set (region := get_str_or "externalRegionId" "Unknown").
  set (grouped := group_by region images).
  destruct (@group_by_keys_from region images [])
    as [Hkeys Hnodup]; [intros g y []|constructor|].
  fold (group_by region images) in Hkeys, Hnodup.
  fold grouped in Hkeys, Hnodup.
  assert (Hperm : Permutation (sorted_by fst grouped) grouped)
    by apply sorted_by_perm.
  assert (Hsorted : forall (A : Type) (key : A -> string) (xs : list A),
            Sorted (fun a b => in_order (key a) (key b)) xs ->
            Sorted in_order (map key xs)).
  { intros A key xs H. induction H as [|x xs Hs IH Hh]; cbn; constructor.
    - exact IH.
    - destruct Hh; cbn; constructor. assumption. }
  repeat apply conj.
  - rewrite flat_map_of_map. cbn [snd].
    transitivity (flat_map snd (sorted_by fst grouped)).
    + apply flat_map_perm. intros g. apply sorted_by_perm.
    + rewrite (Permutation_flat_map snd Hperm).
      unfold grouped, group_by.
      apply (group_by_perm_from region images []).
  - intros g item Hg Hitem. apply in_map_iff in Hg.
    destruct Hg as [g0 [<- Hg0]]. cbn [fst snd] in *.
    apply (Hkeys g0).
    + apply (Permutation_in _ Hperm Hg0).
    + apply (Permutation_in _ (sorted_by_perm _ _) Hitem).
  - rewrite map_map. cbn [fst].
    apply (Permutation_NoDup (l := map fst grouped)); [|exact Hnodup].
    apply Permutation_map. now symmetry.
  - rewrite map_map. cbn [fst]. apply Hsorted. apply sorted_by_sorted.
  - intros g Hg. apply in_map_iff in Hg. destruct Hg as [g0 [<- _]].
    cbn [snd]. apply Hsorted. apply sorted_by_sorted.
Qed.

Lemma image_listing_groups_and_sorts_witness :
  Permutation
    (flat_map snd
       (image_groups
          [Scenarios.template "ubuntu-22" "dc-west" "LINUX";
           Scenarios.template "rocky-9" "dc-east" "LINUX";
           Scenarios.template "alma-9" "dc-west" ""]))
    [Scenarios.template "ubuntu-22" "dc-west" "LINUX";
     Scenarios.template "rocky-9" "dc-east" "LINUX";
     Scenarios.template "alma-9" "dc-west" ""].
Proof.
  apply (proj1 (image_listing_groups_and_sorts
                  [Scenarios.template "ubuntu-22" "dc-west" "LINUX";
                   Scenarios.template "rocky-9" "dc-east" "LINUX";
                   Scenarios.template "alma-9" "dc-west" ""])).
Defined.

(** The listing of three templates in two regions. *)
Example image_listing :
  images_report
    [Scenarios.template "ubuntu-22" "dc-west" "LINUX";
     Scenarios.template "rocky-9" "dc-east" "LINUX";
     Scenarios.template "alma-9" "dc-west" ""]
  = [FoundTemplates 3 2;
     RegionHeader "dc-east"; TemplateLine "rocky-9" "LINUX";
     RegionHeader "dc-west"; TemplateLine "alma-9" "";
     TemplateLine "ubuntu-22" "LINUX"].
Proof. vm_compute. reflexivity. Qed.

(** X20: [authenticate] sends the login request and at most one more
    request, the token exchange; the exchange is sent exactly when the
    login answered without an error status with a true [refresh_token],
    and it carries that token.  An error status or a transport error of
    either request ends in "Authentication failed", never in success,
    and a token that is accepted is true. *)
Theorem authenticate_exchanges_the_refresh_token (B : Type)
  (client : AriaClient B) (c : Auth.credentials) (b : B) (lg : list event) :
  let first := session_send client b (Auth.login_request client c) in
  exists result b' delta,
    Auth.authenticate client c (World b lg)
    = Some (result, World b' (lg ++ delta)%list)
    /\ printed delta = []
    /\ sent delta
       = Auth.login_request client c
           :: match Auth.refresh_token_of (snd first) with
              | Some rt => [Auth.exchange_request client rt]
              | None => []
              end
    /\ (forall cause, Auth.checked (snd first) = inr cause ->
        result = Auth.AuthenticationFailed cause)
    /\ (forall rt cause,
          Auth.refresh_token_of (snd first) = Some rt ->
          Auth.checked
            (snd (session_send client (fst first)
                    (Auth.exchange_request client rt))) = inr cause ->
          result = Auth.AuthenticationFailed cause)
    /\ (forall token, result = Auth.Authenticated token ->
        truthy token = true).
Proof.
  intros first. unfold Auth.authenticate, Auth.refresh_token_of.
  erewrite bind_eq by apply http_send_eq. cbv beta. fold first.
  destruct (Auth.checked (snd first)) as [resp|cause] eqn:Ec.
  - cbv zeta.
    destruct (Auth.is_object (body resp)) eqn:Eo; cbn [negb andb].
    + destruct (truthy (get_or "refresh_token" JNull (body resp))) eqn:Er;
        cbn [negb].
      * erewrite bind_eq by apply http_send_eq. cbv beta.
        set (second := session_send client (fst first) _).
        exists (match Auth.checked (snd second) with
                | inr cause => Auth.AuthenticationFailed cause
                | inl resp2 =>
                    if negb (Auth.is_object (body resp2)) then Auth.Uncaught
                    else if negb (truthy (get_or "token" JNull (body resp2)))
                         then Auth.NoBearerToken
                         else Auth.Authenticated
                                (get_or "token" JNull (body resp2))
                end), (fst second),
          [Send (Auth.login_request client c);
           Send (Auth.exchange_request client
                   (get_or "refresh_token" JNull (body resp)))].
        split.
        { rewrite <- app_assoc. cbn [app].
          destruct (Auth.checked (snd second)) as [resp2|cause2];
            [|reflexivity].
          destruct (negb (Auth.is_object (body resp2))); [reflexivity|].
          destruct (negb (truthy _)); reflexivity. }
        repeat apply conj; try reflexivity.
        -- intros cause H. discriminate.
        -- intros rt cause H. injection H as <-. fold second.
           now intros ->.
        -- intros token.
           destruct (Auth.checked (snd second)) as [resp2|cause2];
             [|discriminate].
           destruct (negb (Auth.is_object (body resp2))); [discriminate|].
           destruct (truthy (get_or "token" JNull (body resp2))) eqn:Et;
             cbn [negb]; [|discriminate].
           intros H. injection H as <-. exact Et.
      * destruct (truthy (get_or "access_token" JNull (body resp))) eqn:Ea;
          cbn [negb].
        -- exists (Auth.Authenticated (get_or "access_token" JNull (body resp))),
             (fst first), [Send (Auth.login_request client c)].
           repeat apply conj; try reflexivity; try discriminate.
           intros token H. injection H as <-. exact Ea.
        -- exists Auth.NoTokenReceived, (fst first),
             [Send (Auth.login_request client c)].
           repeat apply conj; try reflexivity; discriminate.
    + exists Auth.Uncaught, (fst first), [Send (Auth.login_request client c)].
      repeat apply conj; try reflexivity; discriminate.
  - exists (Auth.AuthenticationFailed cause), (fst first),
      [Send (Auth.login_request client c)].
    repeat apply conj; try reflexivity; try discriminate.
    intros cause0 H. now injection H as <-.
Qed.

(** The login offers an access token next to the refresh token, the
    exchange is refused: the access token is not used. *)
Example refused_exchange_fails :
  Auth.authenticate Scenarios.refused_exchange Scenarios.operator
    (World [] [])
  = Some (Auth.AuthenticationFailed (Auth.HttpError 401),
          World [Auth.login_request Scenarios.refused_exchange
                   Scenarios.operator;
                 Auth.exchange_request Scenarios.refused_exchange
                   (JStr "rt-1")]
            [Send (Auth.login_request Scenarios.refused_exchange
                     Scenarios.operator);
             Send (Auth.exchange_request Scenarios.refused_exchange
                     (JStr "rt-1"))]).
Proof. vm_compute. reflexivity. Qed.

Section Refused.
Variable B : Type.
Variable client : AriaClient B.
Hypothesis refused :
  forall b r, fst (created_result (snd (session_send client b r))) = false.

Lemma refused_create_loop (profile_name profile_desc : string)
  (fs : list flavor) (items : PyDict.t (option string) (option string)) :
  forall (created failed : nat) (b : B) (lg : list event),
  exists b' delta,
    for_each
      (fun kv (counts : nat * nat) =>
         let '(created, failed) := counts in
         bind (create_flavor_profile client profile_name profile_desc (snd kv) fs)
           (fun r =>
              if fst r
              then bind (print (CreatedProfile profile_name (fst kv)))
                     (fun _ => ret (S created, failed))
              else bind (print (FailedRegion (fst kv) (snd r)))
                     (fun _ => ret (created, S failed))))
      items (created, failed) (World b lg)
    = Some ((created, failed + List.length items)%nat,
            World b' (lg ++ delta)%list)
    /\ List.length (sent delta) = List.length items.
Proof.
  induction items as [|kv items IH]; intros created failed b lg.
  - exists b, []. cbn. rewrite app_nil_r, Nat.add_0_r. now split.
  - cbn [for_each]. rewrite bind_assoc.
    erewrite bind_eq by apply create_flavor_profile_eq. cbv beta zeta.
    set (r := flavor_profile_request client profile_name profile_desc
                (snd kv) fs).
    rewrite refused. rewrite bind_assoc, bind_print, bind_ret.
    destruct (IH created (S failed) (fst (session_send client b r))
                ((lg ++ [Send r])
                 ++ [Print (FailedRegion (fst kv)
                              (snd (created_result
                                      (snd (session_send client b r)))))])%list)
      as (b' & delta & Heq & Hs).
    exists b',
      (Send r
       :: Print (FailedRegion (fst kv)
                   (snd (created_result (snd (session_send client b r)))))
       :: delta).
    rewrite Heq. repeat rewrite <- app_assoc. cbn [app List.length].
    replace (failed + S (List.length items))%nat
      with (S failed + List.length items)%nat by lia.
    split; [reflexivity|].
    change (sent (Send r :: Print ?l :: delta)) with (r :: sent delta).
    cbn [List.length]. now rewrite Hs.
Qed.
End Refused.

(** X21: a backend that refuses every create does not change the result
    of the flavor command: it sends one request per region, reports no
    profile created and every region failed, skips the verification read
    and returns 0. *)
Theorem refused_creates_still_return_zero (B : Type) (client : AriaClient B)
  (fuel : nat) (cfg : config) (b : B) (lg : list event)
  (resolved : PyDict.t (option string) (option string)) (w1 : world B) :
  resolve_regions client fuel cfg (World b lg) = Some (resolved, w1) ->
  resolved <> [] ->
  some_id_missing resolved = false ->
  flavors cfg <> [] ->
  (forall b0 r, fst (created_result (snd (session_send client b0 r))) = false) ->
  exists b' delta,
    cmd_process_flavors client fuel cfg false (World b lg)
    = Some (Return 0,
            World b'
              ((log w1 ++ delta)
               ++ [Print (ProfilesCreated 0);
                   Print (ProfilesFailed (List.length resolved))])%list)
    /\ List.length (sent delta) = List.length resolved.
Proof.
  intros Hres Hne Hids Hfs Href.
  set (profile_name := str_or "vSphere-flavor-profile" (flavor_profile_name cfg)).
  set (profile_desc :=
         str_or ("Flavor profile with " ++ nat_str (List.length (flavors cfg))
                   ++ " size options") (flavor_profile_description cfg)).
  destruct (refused_create_loop client Href profile_name profile_desc
              (flavors cfg) resolved 0 0 (backend w1) (log w1))
    as (b' & delta & Hloop & Hs).
  exists b', delta. split; [|exact Hs].
  unfold cmd_process_flavors. run Hres.
  rewrite (nonempty_match _ _ Hne), Hids, (nonempty_match _ _ Hfs).
  cbv zeta. fold profile_name. fold profile_desc.
  destruct w1 as [b1 lg1]. cbn [backend log] in *.
  rewrite !bind_assoc. run Hloop. rewrite bind_assoc, bind_print.
  cbn [fst snd]. rewrite bind_assoc.
  destruct resolved as [|kv rest]; [contradiction|].
  cbn [List.length Nat.add]. rewrite bind_print, bind_ret. unfold ret.
  now rewrite <- !app_assoc.
Qed.

Lemma refused_creates_still_return_zero_witness :
  exists b' delta,
    cmd_process_flavors Scenarios.read_only 3 Fixtures.sizing false
      (World [] [])
    = Some (Return 0,
            World b'
              (([] ++ delta)
               ++ [Print (ProfilesCreated 0);
                   Print (ProfilesFailed
                            (List.length [(Some "R1", Some "r1")]))])%list)
    /\ List.length (sent delta) = List.length [(Some "R1", Some "r1")].
Proof.
  apply (@refused_creates_still_return_zero _ Scenarios.read_only 3
           Fixtures.sizing [] [] [(Some "R1", Some "r1")] (World [] [])).
  - reflexivity.
  - discriminate.
  - reflexivity.
  - discriminate.
  - intros b0 r. reflexivity.
Defined.

(** ** Exit codes, unknown computes and the profile listings *)

Section Yields.
Variable B : Type.
Variable client : AriaClient B.









End Yields.



Lemma update_payload_without_binding (tags : list tag) (existing : json)
  (compute_id : option string) :
  truthy_str compute_id = false ->
  py_get "computeHostId" (storage_update_payload tags existing compute_id)
  = if truthy (get_or "computeHostId" JNull existing)
    then Some (get_or "computeHostId" JNull existing)
    else None.
Proof.
  intros H. unfold storage_update_payload. rewrite H.
  destruct (py_in "diskProperties" existing),
    (py_in "diskTargetProperties" existing),
    (truthy (get_or "computeHostId" JNull existing)); reflexivity.
Qed.

Section UnknownCompute.
Variable B : Type.
Variable client : AriaClient B.

Lemma plan_without_binding (b : B)
  (storage_lookup : PyDict.t (option string) json)
  (region_lookup compute_lookup : PyDict.t (option string) (option string))
  (sp : storage_cfg) :
  truthy_str (resolve_compute compute_lookup (sp_compute sp)) = false ->
  (forall r,
     In r (opt_list
             (option_map (storage_request client sp)
                (storage_plan_of client b storage_lookup region_lookup
                   compute_lookup sp))) ->
     py_get "computeHostId" (rq_payload r)
     = existing_binding client b storage_lookup sp)
  /\ (tags_settled client b storage_lookup sp = true ->
      storage_plan_of client b storage_lookup region_lookup compute_lookup sp
      = None).
Proof.
  intros Hc. unfold storage_plan_of, existing_binding, tags_settled.
  destruct (find_doc storage_lookup (sp_name sp)) as [summary|].
  - cbv zeta. set (profile := detail_at client b (get_str "id" summary)).
    assert (Hm : compute_matches profile
                   (resolve_compute compute_lookup (sp_compute sp)) = true).
    { unfold compute_matches. now rewrite Hc. }
    rewrite Hm, andb_true_r. split.
    + destruct (negb (truthy profile)); [intros r []|].
      destruct (tags_match (get_tags profile) (sp_tags sp)); [intros r []|].
      intros r [<-|[]]. cbn [storage_request storage_update_request rq_payload].
      now apply update_payload_without_binding.
    + intros ->. now destruct (negb (truthy profile)).
  - split; [|discriminate].
    destruct (sp_create sp); [|intros r []]. cbv zeta.
    destruct (negb (truthy_str _)); [intros r []|].
    intros r [<-|[]].
    cbn [storage_request storage_create_request rq_payload].
    now rewrite Hc.
Qed.
End UnknownCompute.

(** X23: a compute name that does not resolve is reported and then left
    out: the profile is judged on its tags alone, and a request that is
    sent carries the binding the profile already has, or none. *)
Theorem unknown_compute_is_reported_and_left_out (B : Type)
  (client : AriaClient B)
  (storage_lookup : PyDict.t (option string) json)
  (region_lookup compute_lookup : PyDict.t (option string) (option string))
  (sp : storage_cfg) (results : storage_results) (b : B) (lg : list event) :
  truthy_str (sp_compute sp) = true ->
  truthy_str (resolve_compute compute_lookup (sp_compute sp)) = false ->
  exists results' b' delta,
    process_storage_profile client false storage_lookup region_lookup
      compute_lookup sp results (World b lg)
    = Some (results',
            World b'
              (lg ++ Print (ComputeNotFound (sp_compute sp) (sp_name sp))
                     :: delta)%list)
    /\ (forall r, In r (sent delta) ->
          py_get "computeHostId" (rq_payload r)
          = existing_binding client b storage_lookup sp)
    /\ (tags_settled client b storage_lookup sp = true -> sent delta = []).
Proof.
  intros Hname Hid.
  destruct (storage_step client false storage_lookup region_lookup
              compute_lookup sp results b lg)
    as (r' & b' & d & Hrun & _ & Hsent & _).
  destruct (plan_without_binding client b storage_lookup region_lookup
              compute_lookup sp Hid) as [Hbind Hnone].
  assert (Hhead : exists d', d = Print (ComputeNotFound (sp_compute sp)
                                          (sp_name sp)) :: d').
  { pose proof Hrun as Hrun'. unfold process_storage_profile in Hrun'.
    cbv zeta in Hrun'. rewrite Hname, Hid in Hrun'. cbn [negb andb] in Hrun'.
    rewrite bind_print in Hrun'.
    match type of Hrun' with
    | ?m ?w = _ =>
        assert (Hc : confined (fun _ => True) m)
    end.
    { destruct (find_doc storage_lookup (sp_name sp)).
      - unfold get_storage_profile_detail, update_storage_profile_tags.
        confine; exact I.
      - unfold create_storage_profile. confine; exact I. }
    destruct (Hc _ _ _ Hrun') as (d' & Hlog & _). cbn [log] in Hlog.
    exists d'. rewrite <- app_assoc in Hlog. cbn [app] in Hlog.
    now apply app_inv_head in Hlog. }
  destruct Hhead as [d' ->].
  exists r', b', d'. split; [exact Hrun|].
  rewrite sent_print in Hsent. rewrite Hsent. split.
  - exact Hbind.
  - intros Ht. now rewrite (Hnone Ht).
Qed.

Lemma unknown_compute_is_reported_and_left_out_witness :
  exists results' b' delta,
    process_storage_profile Fixtures.demo false
      (by_name [Fixtures.gold_profile]) [] []
      (Fixtures.gold_cfg (Some "cluster-z") [Tag "tier" "gold"])
      no_storage_results (World [] [])
    = Some (results',
            World b'
              ([] ++ Print (ComputeNotFound (Some "cluster-z") (Some "gold"))
                     :: delta)%list)
    /\ (forall r, In r (sent delta) ->
          py_get "computeHostId" (rq_payload r)
          = existing_binding Fixtures.demo [] (by_name [Fixtures.gold_profile])
              (Fixtures.gold_cfg (Some "cluster-z") [Tag "tier" "gold"]))
    /\ (tags_settled Fixtures.demo [] (by_name [Fixtures.gold_profile])
          (Fixtures.gold_cfg (Some "cluster-z") [Tag "tier" "gold"]) = true ->
        sent delta = []).
Proof.
  apply (@unknown_compute_is_reported_and_left_out _ Fixtures.demo
           (by_name [Fixtures.gold_profile]) [] []
           (Fixtures.gold_cfg (Some "cluster-z") [Tag "tier" "gold"])
           no_storage_results [] []); reflexivity.
Defined.

Lemma sorted_keys (A : Type) (key : A -> string) (xs : list A) :
  Sorted (fun a b => in_order (key a) (key b)) xs ->
  Sorted in_order (map key xs).
Proof.
  intros H. induction H as [|x xs Hs IH Hh]; cbn; constructor.
  - exact IH.
  - destruct Hh; cbn; constructor. assumption.
Qed.

Section Groups.
Variable key : json -> string.

Lemma group_step_get (d : PyDict.t string (list json)) (x : json) (k : string) :
  PyDict.get String.eqb k (group_step key d x)
  = if (key x =? k)%string
    then Some (match PyDict.get String.eqb k d with
               | Some items => items ++ [x]
               | None => [x]
               end)%list
    else PyDict.get String.eqb k d.
Proof.
  unfold group_step, PyDict.mem.
  destruct (key x =? k)%string eqn:E.
  - apply String.eqb_eq in E. subst k.
    destruct (PyDict.get String.eqb (key x) d) as [items|] eqn:Eg.
    + rewrite Eg. apply (get_set_same _ String.eqb_eq).
    + rewrite (get_set_same _ String.eqb_eq).
      apply (get_set_same _ String.eqb_eq).
  - assert (Hne : k <> key x).
    { intros ->. now rewrite String.eqb_refl in E. }
    destruct (PyDict.get String.eqb (key x) d) as [items|] eqn:Eg.
    + rewrite Eg. now apply (get_set_other _ String.eqb_eq).
    + rewrite (get_set_same _ String.eqb_eq).
      rewrite !(get_set_other _ String.eqb_eq) by exact Hne. reflexivity.
Qed.

Lemma group_fold_get (docs : list json) (k : string) :
  forall d,
  PyDict.get String.eqb k (fold_left (group_step key) docs d)
  = match PyDict.get String.eqb k d, keyed key k docs with
    | Some items, more => Some (items ++ more)%list
    | None, [] => None
    | None, more => Some more
    end.
Proof.
  unfold keyed.
  induction docs as [|x docs IH]; intros d; cbn [fold_left filter].
  - destruct (PyDict.get String.eqb k d); [now rewrite app_nil_r|reflexivity].
  - rewrite IH, group_step_get.
    destruct (key x =? k)%string.
    + destruct (PyDict.get String.eqb k d); [now rewrite <- app_assoc|].
      reflexivity.
    + now destruct (PyDict.get String.eqb k d).
Qed.

Lemma group_by_get (docs : list json) (k : string) :
  PyDict.get String.eqb k (group_by key docs)
  = match keyed key k docs with
    | [] => None
    | items => Some items
    end.
Proof. unfold group_by. now rewrite group_fold_get. Qed.

(** The groups of a listing, sorted by their key. *)
Lemma sorted_groups (docs : list json) :
  let groups := sorted_by fst (group_by key docs) in
  NoDup (map fst groups)
  /\ Sorted in_order (map fst groups)
  /\ (forall g, In g groups ->
        snd g = keyed key (fst g) docs /\ snd g <> [])
  /\ (forall x, In x docs -> exists g, In g groups /\ fst g = key x).
Proof.
  intros groups.
  assert (Hperm : Permutation groups (group_by key docs))
    by apply sorted_by_perm.
  destruct (@group_by_keys_from key docs [])
    as [_ Hnodup]; [intros g y []|constructor|].
  fold (group_by key docs) in Hnodup.
  repeat apply conj.
  - apply (Permutation_NoDup (l := map fst (group_by key docs)));
      [|exact Hnodup].
    apply Permutation_map. now symmetry.
  - apply sorted_keys. apply sorted_by_sorted.
  - intros g Hg. apply (Permutation_in _ Hperm) in Hg.
    destruct g as [k items]. cbn [fst snd].
    apply (@get_of_In _ _ String.eqb String.eqb_eq _ _ _ Hnodup) in Hg.
    rewrite group_by_get in Hg.
    destruct (keyed key k docs) as [|y ys]; [discriminate|].
    injection Hg as <-. split; [reflexivity|discriminate].
  - intros x Hx.
    assert (Hin : In x (keyed key (key x) docs)).
    { unfold keyed. apply filter_In. split; [exact Hx|apply String.eqb_refl]. }
    pose proof (group_by_get docs (key x)) as Hg.
    destruct (keyed key (key x) docs) as [|y ys] eqn:Ek; [destruct Hin|].
    apply (get_In _ String.eqb_eq) in Hg.
    exists (key x, y :: ys). split; [|reflexivity].
    apply (Permutation_in _ (Permutation_sym Hperm) Hg).
Qed.
End Groups.

(** X24: the listings of the flavor profiles and of the storage profiles
    show one group per name (per region), the groups in ascending order
    of their distinct keys; a group holds the documents with its key, all
    of them and in the order of the backend's listing. *)
Theorem profile_listings_group_in_listing_order (docs : list json) :
  (let groups := flavor_groups docs in
   NoDup (map fst groups)
   /\ Sorted in_order (map fst groups)
   /\ (forall g, In g groups ->
         snd g = keyed (get_str_or "name" "Unknown") (fst g) docs
         /\ snd g <> [])
   /\ (forall x, In x docs ->
         exists g, In g groups /\ fst g = get_str_or "name" "Unknown" x))
  /\ (let groups := storage_groups docs in
      NoDup (map fst groups)
      /\ Sorted in_order (map fst groups)
      /\ (forall g, In g groups ->
            snd g = keyed (get_str_or "externalRegionId" "Unknown") (fst g) docs
            /\ snd g <> [])
      /\ (forall x, In x docs ->
            exists g, In g groups
                      /\ fst g = get_str_or "externalRegionId" "Unknown" x)).
Proof.
  split.
  - apply (sorted_groups (get_str_or "name" "Unknown") docs).
  - apply (sorted_groups (get_str_or "externalRegionId" "Unknown") docs).
Qed.

(** Two profiles of one name and one of another. *)
Example flavor_listing :
  flavors_report
    [JObj [("name", JStr "small"); ("externalRegionId", JStr "dc-west");
           ("flavorMappings",
             JObj [("mapping",
                     JObj [("small",
                             JObj [("cpuCount", JNum 1);
                                   ("memoryInMB", JNum 1024)])])])];
     JObj [("name", JStr "large"); ("externalRegionId", JStr "dc-west")];
     JObj [("name", JStr "small"); ("externalRegionId", JStr "dc-east")]]
  = [FoundFlavorProfiles 3 2;
     ProfileName "large" 1;
     ProfileRegion "dc-west" (JStr "?") (JStr "?");
     ProfileName "small" 2;
     ProfileRegion "dc-west" (JNum 1) (JNum 1024);
     ProfileRegion "dc-east" (JStr "?") (JStr "?")].
Proof. vm_compute. reflexivity. Qed.

Lemma profile_listings_group_in_listing_order_witness :
  NoDup
    (map fst
       (flavor_groups
          [JObj [("name", JStr "small"); ("externalRegionId", JStr "dc-west")];
           JObj [("name", JStr "large"); ("externalRegionId", JStr "dc-west")];
           JObj [("name", JStr "small"); ("externalRegionId", JStr "dc-east")]])).
Proof.
  apply (proj1 (proj1 (profile_listings_group_in_listing_order
                         [JObj [("name", JStr "small");
                                ("externalRegionId", JStr "dc-west")];
                          JObj [("name", JStr "large");
                                ("externalRegionId", JStr "dc-west")];
                          JObj [("name", JStr "small");
                                ("externalRegionId", JStr "dc-east")]]))).
Defined.
